(** * LibCST: the type-comment conversion codemod and node validation

    A shallow embedding of [libcst/codemod/commands/convert_type_comments.py]
    (the annotation-merge transform [ConvertTypeComments]) together with the
    parameter-collection validation exercised by
    [libcst/nodes/tests/test_lambda.py].

    Conventions.
    - A Python [str] is a [string]; its characters are read as code points
      below 256.
    - Python exceptions are values of [PyException]; a function that can raise
      returns a [result].
    - Python's standard [ast] module and [dir(builtins)] are not part of the
      repository: they are the fields of the class [PythonAst]. The general
      statements about the codemod hold for all of its instances; the
      programs at the end are run with the instance [SamplePython.python]. *)

From Stdlib Require Import String Ascii List Bool Arith Lia.
From stdpp Require Import base option list strings gmap.

Local Open Scope list_scope.

Set Warnings "-register-all".

(* ===================================================================== *)
(** ** Python string methods used by the codemod *)
(* ===================================================================== *)

Module PyStr.

(** The double quote character, written by code so that no literal has to
    contain it. *)
Definition dquote : ascii := "034"%char.

(** [str.isspace] on one character (code points below 256). *)
Definition isspace (c : ascii) : bool :=
  let n := nat_of_ascii c in
  ((9 <=? n) && (n <=? 13)) || ((28 <=? n) && (n <=? 32))
  || (n =? 133) || (n =? 160).

(** [s[1:]] *)
Definition drop1 (s : string) : string :=
  match s with
  | EmptyString => EmptyString
  | String _ rest => rest
  end.

(** [s.lstrip()] *)
Fixpoint lstrip (s : string) : string :=
  match s with
  | EmptyString => EmptyString
  | String c rest => if isspace c then lstrip rest else s
  end.

(** [s.rstrip()] *)
Fixpoint rstrip (s : string) : string :=
  match s with
  | EmptyString => EmptyString
  | String c rest =>
      match rstrip rest with
      | EmptyString => if isspace c then EmptyString else String c EmptyString
      | r => String c r
      end
  end.

(** [s.strip()] *)
Definition strip (s : string) : string := rstrip (lstrip s).

(** [s.startswith(p)] *)
Fixpoint startswith (p s : string) : bool :=
  match p, s with
  | EmptyString, _ => true
  | String a p', String b s' => if Ascii.eqb a b then startswith p' s' else false
  | String _ _, EmptyString => false
  end.

(** The text of [s] after its first [n] characters. *)
Fixpoint skip (n : nat) (s : string) : string :=
  match n, s with
  | O, _ => s
  | S n', String _ s' => skip n' s'
  | S _, EmptyString => EmptyString
  end.

(** [s.removeprefix(p)] *)
Definition removeprefix (p s : string) : string :=
  if startswith p s then skip (String.length p) s else s.

(** [s.split()] with no separator: the maximal runs of characters that are
    not white space. [cur] is the run being read, reversed. *)
Fixpoint split_go (cur : option string) (s : string) : list string :=
  match s with
  | EmptyString =>
      match cur with
      | Some w => [String.rev w]
      | None => []
      end
  | String c rest =>
      if isspace c then
        match cur with
        | Some w => String.rev w :: split_go None rest
        | None => split_go None rest
        end
      else
        split_go (Some (String c (default EmptyString cur))) rest
  end.

Definition split (s : string) : list string := split_go None s.

End PyStr.

(* ===================================================================== *)
(** ** Results and exceptions *)
(* ===================================================================== *)

(** The exceptions a run of the codemod can end with. [ArityError] is the
    module's own [_ArityError]; [CSTValidationError] is raised by the
    library when a node is built that breaks the invariants of its class;
    the others are Python built-ins. *)
Inductive PyException :=
| ArityError
| AssertionError
| IndexError
| SyntaxError
| RuntimeError (msg : string)
| CSTValidationError (msg : string).

Inductive result (A : Type) :=
| Ok (a : A)
| Raise (e : PyException).
Arguments Ok {A} a.
Arguments Raise {A} e.

Definition result_bind {A B : Type} (r : result A) (k : A -> result B) : result B :=
  match r with
  | Ok a => k a
  | Raise e => Raise e
  end.

Notation "'let*' x ':=' r 'in' k" := (result_bind r (fun x => k))
  (at level 10, x name, r at level 100, k at level 200).

(** [[f(x) for x in l]] where [f] can raise: the first exception escapes. *)
Fixpoint result_map {A B : Type} (f : A -> result B) (l : list A) : result (list B) :=
  match l with
  | [] => Ok []
  | x :: rest =>
      let* y := f x in
      let* ys := result_map f rest in
      Ok (y :: ys)
  end.

(* ===================================================================== *)
(** ** Concrete syntax tree nodes

    The node classes of [libcst] that the codemod reads or builds, with the
    fields it touches. Whitespace and parenthesis fields inside expressions
    are left out: a type comment there is read by no hook, and removed only
    by the whitespace hooks while the comments of a function are being
    stripped. *)
(* ===================================================================== *)

Record Comment := mkComment { comment_value : string }.

(** [Newline.value] is [None] for the module's default line ending. *)
Record Newline := mkNewline { newline_value : option string }.

Record TrailingWhitespace := mkTrailingWhitespace
  { tw_whitespace : string;            (* the [SimpleWhitespace] before the comment *)
    tw_comment : option Comment;
    tw_newline : Newline }.

(** [cst.TrailingWhitespace()] *)
Definition TrailingWhitespace_default : TrailingWhitespace :=
  {| tw_whitespace := ""; tw_comment := None; tw_newline := mkNewline None |}.

Record EmptyLine := mkEmptyLine
  { el_indent : bool;
    el_whitespace : string;
    el_comment : option Comment;
    el_newline : Newline }.

Inductive ParenthesizableWhitespace :=
| SimpleWhitespace (value : string)
| ParenthesizedWhitespace (first_line : TrailingWhitespace)
    (empty_lines : list EmptyLine) (indent : bool) (last_line : string).

(** A [comma] field: [MaybeSentinel.DEFAULT] or a [Comma] node. *)
Inductive MaybeComma :=
| Comma_DEFAULT
| Comma (whitespace_before whitespace_after : ParenthesizableWhitespace).

(** Annotations and parameters hold expressions, and a lambda holds
    parameters; the records are written over the type [E] of expressions
    and closed by [BaseExpression] below. *)
Record AnnotationOf (E : Type) := mkAnnotation { annotation : E }.
Arguments mkAnnotation {E}.
Arguments annotation {E}.

Record ParamOf (E : Type) := mkParam
  { param_star : string;
    param_name : string;                     (* [name.value] *)
    param_annotation : option (AnnotationOf E);
    param_default : option E;
    param_comma : MaybeComma;
    whitespace_after_param : ParenthesizableWhitespace }.
Arguments mkParam {E}.
Arguments param_star {E}.
Arguments param_name {E}.
Arguments param_annotation {E}.
Arguments param_default {E}.
Arguments param_comma {E}.
Arguments whitespace_after_param {E}.

Record ParametersOf (E : Type) := mkParameters
  { posonly_params : list (ParamOf E);
    params : list (ParamOf E);
    star_arg : option (ParamOf E);
    kwonly_params : list (ParamOf E);
    star_kwarg : option (ParamOf E) }.
Arguments mkParameters {E}.
Arguments posonly_params {E}.
Arguments params {E}.
Arguments star_arg {E}.
Arguments kwonly_params {E}.
Arguments star_kwarg {E}.

(** Expressions. [Tuple] and [List_] keep the [value] of each element (a
    plain [Element] or a [StarredElement]). A [Lambda] has the same
    [Parameters] and [Param] nodes as a function definition. *)
Inductive BaseExpression :=
| Name (value : string)
| Attribute (value : BaseExpression) (attr : string)
| Subscript (value : BaseExpression) (slice : list BaseExpression)
| Tuple (elements : list BaseExpression)
| List_ (elements : list BaseExpression)
| SimpleString (value : string)
| Integer (value : string)
| Float (value : string)
| Call (func : BaseExpression) (args : list BaseExpression)
| Lambda (params : ParametersOf BaseExpression) (body : BaseExpression).

Abbreviation Annotation := (AnnotationOf BaseExpression).
Abbreviation Param := (ParamOf BaseExpression).
Abbreviation Parameters := (ParametersOf BaseExpression).

(** [isinstance(e, cst.BaseAssignTargetExpression)]: names, attributes,
    subscripts, tuples and lists. *)
Definition is_BaseAssignTargetExpression (e : BaseExpression) : bool :=
  match e with
  | Name _ | Attribute _ _ | Subscript _ _ | Tuple _ | List_ _ => true
  | SimpleString _ | Integer _ | Float _ | Call _ _ | Lambda _ _ => false
  end.

(** A [semicolon] field: [MaybeSentinel.DEFAULT] or a [Semicolon] node. *)
Inductive MaybeSemicolon :=
| Semicolon_DEFAULT
| Semicolon (whitespace_before whitespace_after : string).

Record AssignTarget := mkAssignTarget
  { target : BaseExpression;
    whitespace_before_equal : string;
    whitespace_after_equal : string }.

Record Assign := mkAssign
  { targets : list AssignTarget;
    assign_value : BaseExpression;
    assign_semicolon : MaybeSemicolon }.

Record AnnAssign := mkAnnAssign
  { ann_target : BaseExpression;
    ann_annotation : Annotation;
    ann_value : option BaseExpression;
    ann_semicolon : MaybeSemicolon }.

Inductive BaseSmallStatement :=
| Small_Assign (n : Assign)
| Small_AnnAssign (n : AnnAssign)
| Small_Expr (value : BaseExpression) (semicolon : MaybeSemicolon)
| Small_Pass (semicolon : MaybeSemicolon)
| Small_Return (value : option BaseExpression) (semicolon : MaybeSemicolon).

(** [statement.with_changes(semicolon=s)] *)
Definition with_semicolon (statement : BaseSmallStatement) (s : MaybeSemicolon)
  : BaseSmallStatement :=
  match statement with
  | Small_Assign n =>
      Small_Assign {| targets := targets n; assign_value := assign_value n;
                      assign_semicolon := s |}
  | Small_AnnAssign n =>
      Small_AnnAssign {| ann_target := ann_target n; ann_annotation := ann_annotation n;
                         ann_value := ann_value n; ann_semicolon := s |}
  | Small_Expr v _ => Small_Expr v s
  | Small_Pass _ => Small_Pass s
  | Small_Return v _ => Small_Return v s
  end.

Record SimpleStatementLine := mkSimpleStatementLine
  { ssl_leading_lines : list EmptyLine;
    ssl_body : list BaseSmallStatement;
    ssl_trailing_whitespace : TrailingWhitespace }.

Record SimpleStatementSuite := mkSimpleStatementSuite
  { sss_body : list BaseSmallStatement;
    sss_trailing_whitespace : TrailingWhitespace }.

Record AsName := mkAsName { asname_name : BaseExpression }.

Record WithItem := mkWithItem
  { item : BaseExpression;
    asname : option AsName }.

(** Compound statements hold statements; the records are written over the
    type [S] of statements and closed by [BaseStatement] below.

    [ib_id] stands for the identity of the block object (Python's [id]):
    [leave_IndentedBlock] compares blocks with [is]. *)
Record IndentedBlockOf (S : Type) := mkIndentedBlock
  { ib_id : nat;
    ib_header : TrailingWhitespace;
    ib_body : list S }.
Arguments mkIndentedBlock {S}.
Arguments ib_id {S}.
Arguments ib_header {S}.
Arguments ib_body {S}.

Inductive SuiteOf (S : Type) :=
| Suite_IndentedBlock (b : IndentedBlockOf S)
| Suite_SimpleStatementSuite (b : SimpleStatementSuite).
Arguments Suite_IndentedBlock {S}.
Arguments Suite_SimpleStatementSuite {S}.

Record ForOf (S : Type) := mkFor
  { for_leading_lines : list EmptyLine;
    for_target : BaseExpression;
    for_iter : BaseExpression;
    for_body : SuiteOf S;
    for_orelse : option (SuiteOf S) }.
Arguments mkFor {S}.
Arguments for_leading_lines {S}.
Arguments for_target {S}.
Arguments for_iter {S}.
Arguments for_body {S}.
Arguments for_orelse {S}.

Record WithOf (S : Type) := mkWith
  { with_leading_lines : list EmptyLine;
    with_items : list WithItem;
    with_body : SuiteOf S }.
Arguments mkWith {S}.
Arguments with_leading_lines {S}.
Arguments with_items {S}.
Arguments with_body {S}.

Record FunctionDefOf (S : Type) := mkFunctionDef
  { fd_leading_lines : list EmptyLine;
    fd_name : string;
    fd_params : Parameters;
    fd_returns : option Annotation;
    fd_body : SuiteOf S }.
Arguments mkFunctionDef {S}.
Arguments fd_leading_lines {S}.
Arguments fd_name {S}.
Arguments fd_params {S}.
Arguments fd_returns {S}.
Arguments fd_body {S}.

Record IfOf (S : Type) := mkIf
  { if_leading_lines : list EmptyLine;
    if_test : BaseExpression;
    if_body : SuiteOf S;
    if_orelse : option (SuiteOf S) }.
Arguments mkIf {S}.
Arguments if_leading_lines {S}.
Arguments if_test {S}.
Arguments if_body {S}.
Arguments if_orelse {S}.

Inductive BaseStatement :=
| Stmt_SimpleStatementLine (n : SimpleStatementLine)
| Stmt_For (n : ForOf BaseStatement)
| Stmt_With (n : WithOf BaseStatement)
| Stmt_FunctionDef (n : FunctionDefOf BaseStatement)
| Stmt_If (n : IfOf BaseStatement).

Abbreviation IndentedBlock := (IndentedBlockOf BaseStatement).
Abbreviation BaseSuite := (SuiteOf BaseStatement).
Abbreviation For := (ForOf BaseStatement).
Abbreviation With := (WithOf BaseStatement).
Abbreviation FunctionDef := (FunctionDefOf BaseStatement).
Abbreviation If := (IfOf BaseStatement).

Record Module_ := mkModule
  { module_header : list EmptyLine;
    module_body : list BaseStatement }.

(* ===================================================================== *)
(** ** Python's [ast] module, as the codemod sees it *)
(* ===================================================================== *)

(** An [ast.expr]. The codemod tells tuples and the [Ellipsis] constant from
    all other expressions, which it only hands to [ast.unparse]. *)
Inductive ast_expr :=
| ast_Tuple (elts : list ast_expr)
| ast_Constant_Ellipsis
| ast_Name (id : string)
| ast_Other (dump : string).

(** [ast.arg] *)
Record ast_arg := mk_ast_arg
  { arg : string;
    arg_type_comment : option string }.

(** [ast.arguments] *)
Record ast_arguments := mk_ast_arguments
  { posonlyargs : list ast_arg;
    args : list ast_arg;
    vararg : option ast_arg;
    kwonlyargs : list ast_arg;
    kwarg : option ast_arg }.

(** The statement nodes the codemod asks for ([ast.Assign], [ast.For],
    [ast.With], [ast.FunctionDef]): their [type_comment], and [args] for a
    function definition. *)
Record ast_stmt := mk_ast_stmt
  { type_comment : option string;
    stmt_args : ast_arguments }.

(** [ast.FunctionType] *)
Record ast_FunctionType := mk_ast_FunctionType
  { argtypes : list ast_expr;
    ft_returns : ast_expr }.

(** What the codemod takes from the Python runtime. A parse that raises
    [SyntaxError] is [None].
    - [builtins_dir]: [dir(builtins)];
    - [ast_parse_statement tc node]: the last statement of
      [ast.parse(_code_for_node(node), type_comments=tc)];
    - [ast_parse_eval s]: [ast.parse(s, "<type_comment>", "eval").body];
    - [ast_parse_func_type s]: [ast.parse(s, "<func_type_comment>", "func_type")];
    - [ast_unparse e]: [ast.unparse(e)]. *)
Class PythonAst := mkPythonAst
  { builtins_dir : list string;
    ast_parse_statement : bool -> BaseStatement -> option ast_stmt;
    ast_parse_eval : string -> option ast_expr;
    ast_parse_func_type : string -> option ast_FunctionType;
    ast_unparse : ast_expr -> string }.

(* ===================================================================== *)
(** ** convert_type_comments.py: module-level functions *)
(* ===================================================================== *)

(** [_is_type_comment] reads only the comment text. *)
Definition _is_type_comment (comment : option Comment) : bool :=
  match comment with
  | None => false
  | Some c =>
      let value := PyStr.strip (PyStr.drop1 (comment_value c)) in
      if negb (PyStr.startswith "type:" value) then false
      else
        let suffix := PyStr.split (PyStr.strip (PyStr.removeprefix "type:" value)) in
        match suffix with
        | first :: _ => if String.eqb first "ignore" then false else true
        | [] => true
        end
  end.

Inductive UnpackedBindings :=
| UB_expr (e : BaseExpression)
| UB_list (l : list UnpackedBindings).

Inductive UnpackedAnnotations :=
| UA_str (s : string)
| UA_list (l : list UnpackedAnnotations).

Definition TargetAnnotationPair : Type := BaseExpression * string.

(** [AnnotationSpreader.unpack_target] *)
Fixpoint unpack_target (target : BaseExpression) : UnpackedBindings :=
  match target with
  | Tuple elements => UB_list (map unpack_target elements)
  | _ => UB_expr target
  end.

(** [AnnotationSpreader.annotated_bindings] *)
Fixpoint annotated_bindings (bindings : UnpackedBindings)
    (annotations : UnpackedAnnotations) : result (list TargetAnnotationPair) :=
  match annotations with
  | UA_list anns =>
      match bindings with
      | UB_list binds =>
          if length binds =? length anns then
            (fix zipped (binds : list UnpackedBindings) (anns : list UnpackedAnnotations)
               {struct anns} : result (list TargetAnnotationPair) :=
               match binds, anns with
               | binding :: binds', annotation :: anns' =>
                   let* pairs := annotated_bindings binding annotation in
                   let* out := zipped binds' anns' in
                   Ok (pairs ++ out)
               | _, _ => Ok []
               end) binds anns
          else Raise ArityError
      | UB_expr _ => Raise ArityError
      end
  | UA_str annotation =>
      match bindings with
      | UB_list _ => Raise ArityError
      | UB_expr binding =>
          if is_BaseAssignTargetExpression binding
          then Ok [(binding, annotation)]
          else Raise AssertionError
      end
  end.

(** The loop of [annotated_bindings] over [zip(bindings, annotations)]. *)
Fixpoint zipped_bindings (binds : list UnpackedBindings)
    (anns : list UnpackedAnnotations) {struct anns} : result (list TargetAnnotationPair) :=
  match binds, anns with
  | binding :: binds', annotation :: anns' =>
      let* pairs := annotated_bindings binding annotation in
      let* out := zipped_bindings binds' anns' in
      Ok (pairs ++ out)
  | _, _ => Ok []
  end.

(** What [convert_Assign] returns. *)
Inductive ConvertedAssign :=
| FailedToApplyAnnotation
| Converted_AnnAssign (n : AnnAssign)
| Converted_list (l : list BaseSmallStatement).

(** [FunctionTypeInfo]; [arguments] is a [Dict[str, Optional[str]]]. *)
Record FunctionTypeInfo := mkFunctionTypeInfo
  { arguments : gmap string (option string);
    returns : option string }.

(** [FunctionTypeInfo.is_empty] *)
Definition is_empty (self : FunctionTypeInfo) : bool :=
  bool_decide (returns self = None) && bool_decide (arguments self = ∅).

(** A dict comprehension over [l]: a later key replaces an earlier one. *)
Definition dict_of {V : Type} (l : list (string * V)) : gmap string V :=
  foldl (fun m kv => <[kv.1 := kv.2]> m) ∅ l.

(** [a or b] on an optional string and a string: [None] and the empty string
    are false. *)
Definition str_or (a : option string) (b : string) : string :=
  match a with
  | Some (String c rest) => String c rest
  | Some EmptyString | None => b
  end.

(** *** class ConvertTypeComments: the instance state *)

(** The instance fields. The stacks are Python lists: [append] adds at the
    end, [[-1]] reads the end, [pop()] removes it. *)
Record ConvertTypeComments := mkConvertTypeComments
  { function_type_info_stack : list FunctionTypeInfo;
    function_body_stack : list BaseSuite;
    aggressively_strip_type_comments : bool }.

(** The fields after [__init__]. *)
Definition init : ConvertTypeComments :=
  {| function_type_info_stack := [];
     function_body_stack := [];
     aggressively_strip_type_comments := false |}.

(** What a [leave_] hook returns for a node of class [A]. *)
Inductive Replacement (A : Type) :=
| Updated (node : A)
| FlattenSentinel (nodes : list BaseStatement)
| RemovalSentinel_REMOVE.
Arguments Updated {A} node.
Arguments FlattenSentinel {A} nodes.
Arguments RemovalSentinel_REMOVE {A}.

Section Codemod.

Context {py : PythonAst}.

(** [_ast_for_statement]: parse with type comments, and without them when
    that raises [SyntaxError]; a second [SyntaxError] escapes. *)
Definition _ast_for_statement (node : BaseStatement) : result ast_stmt :=
  match ast_parse_statement true node with
  | Some a => Ok a
  | None =>
      match ast_parse_statement false node with
      | Some a => Ok a
      | None => Raise SyntaxError
      end
  end.

Definition _parse_type_comment (type_comment : option string) : option ast_expr :=
  match type_comment with
  | None => None
  | Some tc => ast_parse_eval tc
  end.

Definition _annotation_for_statement (node : BaseStatement)
  : result (option ast_expr) :=
  let* a := _ast_for_statement node in
  Ok (_parse_type_comment (type_comment a)).

Definition _parse_func_type_comment (func_type_comment : option string)
  : result (option ast_FunctionType) :=
  match func_type_comment with
  | None => Ok None
  | Some c =>
      match ast_parse_func_type c with
      | Some ft => Ok (Some ft)
      | None => Raise SyntaxError
      end
  end.

(** [set(dir(builtins))] *)
Definition _builtins : gset string := list_to_set builtins_dir.

Definition _is_builtin (annotation : string) : bool :=
  bool_decide (annotation ∈ _builtins).

Definition _convert_annotation (raw : string) : Annotation :=
  if _is_builtin raw
  then mkAnnotation (Name raw)
  else mkAnnotation
         (SimpleString (String PyStr.dquote (raw +:+ String PyStr.dquote ""))).

(** [AnnotationSpreader.unpack_annotation] *)
Fixpoint unpack_annotation (expression : ast_expr) : UnpackedAnnotations :=
  match expression with
  | ast_Tuple elts => UA_list (map unpack_annotation elts)
  | _ => UA_str (ast_unparse expression)
  end.

(** [AnnotationSpreader.type_declaration] *)
Definition type_declaration (binding : BaseExpression) (raw_annotation : string)
  : AnnAssign :=
  {| ann_target := binding;
     ann_annotation := _convert_annotation raw_annotation;
     ann_value := None;
     ann_semicolon := Semicolon_DEFAULT |}.

(** [AnnotationSpreader.type_declaration_statements]: the first statement
    takes [leading_lines], the others none. *)
Definition type_declaration_statements (bindings : UnpackedBindings)
    (annotations : UnpackedAnnotations) (leading_lines : list EmptyLine)
  : result (list SimpleStatementLine) :=
  let* pairs := annotated_bindings bindings annotations in
  Ok (imap (fun i '(binding, raw_annotation) =>
              {| ssl_leading_lines := if i =? 0 then leading_lines else [];
                 ssl_body := [Small_AnnAssign (type_declaration binding raw_annotation)];
                 ssl_trailing_whitespace := TrailingWhitespace_default |})
           pairs).

(** The body of the [try] in [convert_Assign]: [annotated_targets]. *)
Definition zipped_targets (node : Assign) (annotation : ast_expr)
  : result (list (list TargetAnnotationPair)) :=
  let annotations := unpack_annotation annotation in
  result_map
    (fun t => annotated_bindings (unpack_target (target t)) annotations)
    (targets node).

(** [convert_Assign]. The [try] catches [_ArityError] only. The test
    [len(annotated_targets) == 1 and len(annotated_targets[0]) == 1] is the
    first pattern. *)
Definition convert_Assign (node : Assign) (annotation : ast_expr)
  : result ConvertedAssign :=
  match zipped_targets node annotation with
  | Raise ArityError => Ok FailedToApplyAnnotation
  | Raise e => Raise e
  | Ok annotated_targets =>
      match annotated_targets with
      | [[(binding, raw_annotation)]] =>
          Ok (Converted_AnnAssign
                {| ann_target := binding;
                   ann_annotation := _convert_annotation raw_annotation;
                   ann_value := Some (assign_value node);
                   ann_semicolon := assign_semicolon node |})
      | _ =>
          let type_declarations :=
            map (fun '(binding, raw_annotation) =>
                   Small_AnnAssign (type_declaration binding raw_annotation))
                (concat annotated_targets) in
          Ok (Converted_list (type_declarations ++ [Small_Assign node]))
      end
  end.

(** The [args] list built in [FunctionTypeInfo.from_cst]. *)
Definition all_args (a : ast_arguments) : list ast_arg :=
  posonlyargs a ++ args a ++ option_list (vararg a)
    ++ kwonlyargs a ++ option_list (kwarg a).

Definition is_Ellipsis (e : ast_expr) : bool :=
  match e with
  | ast_Constant_Ellipsis => true
  | _ => false
  end.

(** [FunctionTypeInfo.from_cst] *)
Definition from_cst (node_cst : FunctionDef) : result FunctionTypeInfo :=
  let* node_ast := _ast_for_statement (Stmt_FunctionDef node_cst) in
  let args := all_args (stmt_args node_ast) in
  match _parse_func_type_comment (type_comment node_ast) with
  | Raise SyntaxError => Ok (mkFunctionTypeInfo ∅ None)
  | Raise e => Raise e
  | Ok None =>
      Ok (mkFunctionTypeInfo
            (dict_of (omap (fun a => match arg_type_comment a with
                                     | Some tc => Some (arg a, Some tc)
                                     | None => None
                                     end) args))
            None)
  | Ok (Some func_type_annotation) =>
      let argtypes := argtypes func_type_annotation in
      let returns := ast_unparse (ft_returns func_type_annotation) in
      if match argtypes with [e] => is_Ellipsis e | _ => false end then
        Ok (mkFunctionTypeInfo
              (dict_of (map (fun a => (arg a, arg_type_comment a)) args))
              (Some returns))
      else if length argtypes =? length args then
        Ok (mkFunctionTypeInfo
              (dict_of (map (fun '(a, from_func_type) =>
                               (arg a,
                                Some (str_or (arg_type_comment a)
                                             (ast_unparse from_func_type))))
                            (zip args argtypes)))
              (Some returns))
      else
        Ok (mkFunctionTypeInfo ∅ None)
  end.

(* ------------------------------------------------------------------- *)
(** *** class ConvertTypeComments: the hooks *)
(* ------------------------------------------------------------------- *)

Definition _strip_TrailingWhitespace (node : TrailingWhitespace) : TrailingWhitespace :=
  {| tw_whitespace := "";
     tw_comment := None;
     tw_newline := tw_newline node |}.

Definition leave_SimpleStatementLine (original_node updated_node : SimpleStatementLine)
  : result (Replacement SimpleStatementLine) :=
  match last (ssl_body updated_node) with
  | None => Raise IndexError
  | Some (Small_Assign assign) =>
      let* annotation :=
        _annotation_for_statement (Stmt_SimpleStatementLine original_node) in
      match annotation with
      | None => Ok (Updated updated_node)
      | Some annotation =>
          let* converted := convert_Assign assign annotation in
          match converted with
          | FailedToApplyAnnotation => Ok (Updated updated_node)
          | Converted_AnnAssign converted =>
              Ok (Updated
                    {| ssl_leading_lines := ssl_leading_lines updated_node;
                       ssl_body := removelast (ssl_body updated_node)
                                     ++ [Small_AnnAssign converted];
                       ssl_trailing_whitespace :=
                         _strip_TrailingWhitespace
                           (ssl_trailing_whitespace updated_node) |})
          | Converted_list converted =>
              let new_statements :=
                map (fun statement => with_semicolon statement Semicolon_DEFAULT)
                    (removelast (ssl_body updated_node))
                  ++ converted in
              match new_statements with
              | first :: (_ :: _) as rest =>
                  Ok (FlattenSentinel
                        (Stmt_SimpleStatementLine
                           {| ssl_leading_lines := ssl_leading_lines updated_node;
                              ssl_body := [first];
                              ssl_trailing_whitespace :=
                                _strip_TrailingWhitespace
                                  (ssl_trailing_whitespace updated_node) |}
                         :: map (fun statement =>
                                   Stmt_SimpleStatementLine
                                     {| ssl_leading_lines := [];
                                        ssl_body := [statement];
                                        ssl_trailing_whitespace :=
                                          TrailingWhitespace_default |})
                                rest))
              | _ => Raise (RuntimeError "Unreachable code.")
              end
          end
      end
  | Some _ => Ok (Updated updated_node)
  end.

(** The tail shared by [leave_For] and [leave_With]: the declarations, then
    the compound statement given as [stripped]. *)
Definition prepend_declarations {A : Type} (type_declarations : list SimpleStatementLine)
    (stripped : BaseStatement) : Replacement A :=
  FlattenSentinel (map Stmt_SimpleStatementLine type_declarations ++ [stripped]).

(** [body.with_changes(header=self._strip_TrailingWhitespace(body.header))] *)
Definition strip_header (body : IndentedBlock) : IndentedBlock :=
  {| ib_id := ib_id body;
     ib_header := _strip_TrailingWhitespace (ib_header body);
     ib_body := ib_body body |}.

Definition leave_For (original_node updated_node : For) : result (Replacement For) :=
  match for_body updated_node with
  | Suite_SimpleStatementSuite _ => Ok (Updated updated_node)
  | Suite_IndentedBlock body =>
      let* annotation := _annotation_for_statement (Stmt_For original_node) in
      match annotation with
      | None => Ok (Updated updated_node)
      | Some annotation =>
          match type_declaration_statements
                  (unpack_target (for_target updated_node))
                  (unpack_annotation annotation)
                  (for_leading_lines updated_node) with
          | Raise ArityError => Ok (Updated updated_node)
          | Raise e => Raise e
          | Ok type_declarations =>
              Ok (prepend_declarations type_declarations
                    (Stmt_For
                       {| for_leading_lines := [];
                          for_target := for_target updated_node;
                          for_iter := for_iter updated_node;
                          for_body := Suite_IndentedBlock (strip_header body);
                          for_orelse := for_orelse updated_node |}))
          end
      end
  end.

(** [[item.asname.name for item in items if item.asname is not None]] *)
Definition asname_targets (items : list WithItem) : list BaseExpression :=
  omap (fun i => asname_name <$> asname i) items.

Definition leave_With (original_node updated_node : With) : result (Replacement With) :=
  match with_body updated_node with
  | Suite_SimpleStatementSuite _ => Ok (Updated updated_node)
  | Suite_IndentedBlock body =>
      let* annotation := _annotation_for_statement (Stmt_With original_node) in
      match annotation with
      | None => Ok (Updated updated_node)
      | Some annotation =>
          match asname_targets (with_items updated_node) with
          | [target] =>
              match type_declaration_statements
                      (unpack_target target)
                      (unpack_annotation annotation)
                      (with_leading_lines updated_node) with
              | Raise ArityError => Ok (Updated updated_node)
              | Raise e => Raise e
              | Ok type_declarations =>
                  Ok (prepend_declarations type_declarations
                        (Stmt_With
                           {| with_leading_lines := [];
                              with_items := with_items updated_node;
                              with_body := Suite_IndentedBlock (strip_header body) |}))
              end
          | _ => Ok (Updated updated_node)
          end
      end
  end.

Definition visit_FunctionDef (self : ConvertTypeComments) (node : FunctionDef)
  : result ConvertTypeComments :=
  let* function_type_info := from_cst node in
  Ok {| aggressively_strip_type_comments := negb (is_empty function_type_info);
        function_type_info_stack :=
          function_type_info_stack self ++ [function_type_info];
        function_body_stack := function_body_stack self ++ [fd_body node] |}.

Definition leave_TrailingWhitespace (self : ConvertTypeComments)
    (original_node updated_node : TrailingWhitespace) : TrailingWhitespace :=
  if aggressively_strip_type_comments self && _is_type_comment (tw_comment updated_node)
  then TrailingWhitespace_default
  else updated_node.

Definition leave_EmptyLine (self : ConvertTypeComments)
    (original_node updated_node : EmptyLine) : Replacement EmptyLine :=
  if aggressively_strip_type_comments self && _is_type_comment (el_comment updated_node)
  then RemovalSentinel_REMOVE
  else Updated updated_node.

Definition visit_FunctionDef_body (self : ConvertTypeComments) (node : FunctionDef)
  : ConvertTypeComments :=
  {| aggressively_strip_type_comments := false;
     function_type_info_stack := function_type_info_stack self;
     function_body_stack := function_body_stack self |}.

(** [original_node is suite]: object identity, through [ib_id]. *)
Definition is_same_block (original_node : IndentedBlock) (suite : BaseSuite) : bool :=
  match suite with
  | Suite_IndentedBlock b => ib_id original_node =? ib_id b
  | Suite_SimpleStatementSuite _ => false
  end.

Definition statement_leading_lines (s : BaseStatement) : list EmptyLine :=
  match s with
  | Stmt_SimpleStatementLine n => ssl_leading_lines n
  | Stmt_For n => for_leading_lines n
  | Stmt_With n => with_leading_lines n
  | Stmt_FunctionDef n => fd_leading_lines n
  | Stmt_If n => if_leading_lines n
  end.

(** [statement.with_changes(leading_lines=ll)] *)
Definition with_leading_lines_changed (s : BaseStatement) (ll : list EmptyLine)
  : BaseStatement :=
  match s with
  | Stmt_SimpleStatementLine n =>
      Stmt_SimpleStatementLine
        {| ssl_leading_lines := ll; ssl_body := ssl_body n;
           ssl_trailing_whitespace := ssl_trailing_whitespace n |}
  | Stmt_For n =>
      Stmt_For {| for_leading_lines := ll; for_target := for_target n;
                  for_iter := for_iter n; for_body := for_body n;
                  for_orelse := for_orelse n |}
  | Stmt_With n =>
      Stmt_With {| with_leading_lines := ll; with_items := with_items n;
                   with_body := with_body n |}
  | Stmt_FunctionDef n =>
      Stmt_FunctionDef {| fd_leading_lines := ll; fd_name := fd_name n;
                          fd_params := fd_params n; fd_returns := fd_returns n;
                          fd_body := fd_body n |}
  | Stmt_If n =>
      Stmt_If {| if_leading_lines := ll; if_test := if_test n;
                 if_body := if_body n; if_orelse := if_orelse n |}
  end.

(** [leave_IndentedBlock]. Every statement class of the tree has
    [leading_lines], so the [hasattr] test always passes here. The two
    stacks are read at [[-1]] and the body at [[0]]: an empty list raises
    [IndexError]. *)
Definition leave_IndentedBlock (self : ConvertTypeComments)
    (original_node updated_node : IndentedBlock) : result IndentedBlock :=
  match last (function_body_stack self) with
  | None => Ok updated_node
  | Some top =>
      if negb (is_same_block original_node top) then Ok updated_node
      else
        match last (function_type_info_stack self) with
        | None => Raise IndexError
        | Some info =>
            if is_empty info then Ok updated_node
            else
              let updated_node :=
                if _is_type_comment (tw_comment (ib_header updated_node))
                then {| ib_id := ib_id updated_node;
                        ib_header := TrailingWhitespace_default;
                        ib_body := ib_body updated_node |}
                else updated_node in
              match ib_body updated_node with
              | [] => Raise IndexError
              | first_statement :: rest =>
                  Ok {| ib_id := ib_id updated_node;
                        ib_header := ib_header updated_node;
                        ib_body :=
                          with_leading_lines_changed first_statement
                            (List.filter
                               (fun line => negb (_is_type_comment (el_comment line)))
                               (statement_leading_lines first_statement))
                            :: rest |}
              end
        end
  end.

Definition leave_Param (self : ConvertTypeComments)
    (original_node updated_node : Param) : result Param :=
  match param_annotation updated_node with
  | Some _ => Ok updated_node
  | None =>
      match last (function_type_info_stack self) with
      | None => Raise IndexError
      | Some function_type_info =>
          match mjoin (arguments function_type_info !! param_name updated_node) with
          | Some raw_annotation =>
              Ok {| param_star := param_star updated_node;
                    param_name := param_name updated_node;
                    param_annotation := Some (_convert_annotation raw_annotation);
                    param_default := param_default updated_node;
                    param_comma := param_comma updated_node;
                    whitespace_after_param := whitespace_after_param updated_node |}
          | None => Ok updated_node
          end
      end
  end.

Definition leave_FunctionDef (self : ConvertTypeComments)
    (original_node updated_node : FunctionDef)
  : result (ConvertTypeComments * FunctionDef) :=
  match last (function_body_stack self), last (function_type_info_stack self) with
  | Some _, Some function_type_info =>
      let self' :=
        {| function_body_stack := removelast (function_body_stack self);
           function_type_info_stack := removelast (function_type_info_stack self);
           aggressively_strip_type_comments :=
             aggressively_strip_type_comments self |} in
      match fd_returns updated_node, returns function_type_info with
      | None, Some r =>
          Ok (self',
              {| fd_leading_lines := fd_leading_lines updated_node;
                 fd_name := fd_name updated_node;
                 fd_params := fd_params updated_node;
                 fd_returns := Some (_convert_annotation r);
                 fd_body := fd_body updated_node |})
      | _, _ => Ok (self', updated_node)
      end
  | _, _ => Raise IndexError
  end.

(* ------------------------------------------------------------------- *)
(** *** The traversal *)
(* ------------------------------------------------------------------- *)

(** Modelled from the spec: the traversal engine ([CSTTransformer] and the
    nodes' visiting of their children) is not under src/. Following the
    rewrite protocol, a node is entered ([visit_] hook, when the codemod
    has one), its children are visited in field order and replaced by
    their results, and the node is left ([leave_] hook, given the original
    node and the node with its children replaced). In a sequence a
    flatten result is spliced in and a removed node is dropped. The body
    hook [visit_FunctionDef_body] runs between the header of a function
    and its body. The hooks of [ConvertTypeComments] are the ones above;
    every other node class is left as it is after its children.

    [visit_statement] and [transform_module] are the traversal of the
    statements: the expressions of a statement are taken as they are. The
    one hook that can run inside an expression of this tree is
    [leave_Param], on the parameters of a lambda, so this is the run on
    every tree that holds no lambda. The run that also enters expressions
    is [traverse_module], further down. *)

Definition visit_TrailingWhitespace (self : ConvertTypeComments)
    (node : TrailingWhitespace) : TrailingWhitespace :=
  leave_TrailingWhitespace self node node.

Definition visit_EmptyLines (self : ConvertTypeComments) (lines : list EmptyLine)
  : list EmptyLine :=
  omap (fun line =>
          match leave_EmptyLine self line line with
          | Updated line' => Some line'
          | FlattenSentinel _ | RemovalSentinel_REMOVE => None
          end) lines.

Definition visit_ParenthesizableWhitespace (self : ConvertTypeComments)
    (node : ParenthesizableWhitespace) : ParenthesizableWhitespace :=
  match node with
  | SimpleWhitespace v => SimpleWhitespace v
  | ParenthesizedWhitespace first_line empty_lines indent last_line =>
      ParenthesizedWhitespace (visit_TrailingWhitespace self first_line)
        (visit_EmptyLines self empty_lines) indent last_line
  end.

Definition visit_MaybeComma (self : ConvertTypeComments) (node : MaybeComma)
  : MaybeComma :=
  match node with
  | Comma_DEFAULT => Comma_DEFAULT
  | Comma before after =>
      Comma (visit_ParenthesizableWhitespace self before)
            (visit_ParenthesizableWhitespace self after)
  end.

Definition visit_Param (self : ConvertTypeComments) (node : Param) : result Param :=
  leave_Param self node
    {| param_star := param_star node;
       param_name := param_name node;
       param_annotation := param_annotation node;
       param_default := param_default node;
       param_comma := visit_MaybeComma self (param_comma node);
       whitespace_after_param :=
         visit_ParenthesizableWhitespace self (whitespace_after_param node) |}.

Definition visit_optional_Param (self : ConvertTypeComments) (node : option Param)
  : result (option Param) :=
  match node with
  | None => Ok None
  | Some p => let* p' := visit_Param self p in Ok (Some p')
  end.

Definition visit_Parameters (self : ConvertTypeComments) (node : Parameters)
  : result Parameters :=
  let* ps := result_map (visit_Param self) (params node) in
  let* sa := visit_optional_Param self (star_arg node) in
  let* ks := result_map (visit_Param self) (kwonly_params node) in
  let* sk := visit_optional_Param self (star_kwarg node) in
  let* pos := result_map (visit_Param self) (posonly_params node) in
  Ok {| posonly_params := pos; params := ps; star_arg := sa;
        kwonly_params := ks; star_kwarg := sk |}.

Definition visit_SimpleStatementLine (self : ConvertTypeComments)
    (node : SimpleStatementLine) : result (list BaseStatement) :=
  let* r :=
    leave_SimpleStatementLine node
      {| ssl_leading_lines := visit_EmptyLines self (ssl_leading_lines node);
         ssl_body := ssl_body node;
         ssl_trailing_whitespace :=
           visit_TrailingWhitespace self (ssl_trailing_whitespace node) |} in
  match r with
  | Updated n => Ok [Stmt_SimpleStatementLine n]
  | FlattenSentinel nodes => Ok nodes
  | RemovalSentinel_REMOVE => Ok []
  end.

Definition visit_SimpleStatementSuite (self : ConvertTypeComments)
    (node : SimpleStatementSuite) : SimpleStatementSuite :=
  {| sss_body := sss_body node;
     sss_trailing_whitespace :=
       visit_TrailingWhitespace self (sss_trailing_whitespace node) |}.

(** What a statement becomes in its parent's sequence. *)
Definition spliced {A : Type} (wrap : A -> BaseStatement) (r : Replacement A)
  : list BaseStatement :=
  match r with
  | Updated n => [wrap n]
  | FlattenSentinel nodes => nodes
  | RemovalSentinel_REMOVE => []
  end.

(** A visit of one statement: the state it leaves and what the statement
    became. *)
Definition Visit : Type :=
  ConvertTypeComments -> BaseStatement
  -> result (ConvertTypeComments * list BaseStatement).

(** A sequence of statements: each is visited in turn, with the state the
    one before it left, and replaced by what it became. *)
Definition visit_body_with (visit : Visit)
  : ConvertTypeComments -> list BaseStatement
    -> result (ConvertTypeComments * list BaseStatement) :=
  fix visit_body (self : ConvertTypeComments) (l : list BaseStatement) {struct l} :=
    match l with
    | [] => Ok (self, [])
    | x :: rest =>
        let* r1 := visit self x in
        let* r2 := visit_body r1.1 rest in
        Ok (r2.1, r1.2 ++ r2.2)
    end.

(** A suite: the header and the statements of an indented block, then
    [leave_IndentedBlock]. *)
Definition visit_suite_with (visit : Visit) (self : ConvertTypeComments)
    (suite : BaseSuite) : result (ConvertTypeComments * BaseSuite) :=
  match suite with
  | Suite_IndentedBlock (mkIndentedBlock id header body as block) =>
      let header' := visit_TrailingWhitespace self header in
      let* r := visit_body_with visit self body in
      let* block' :=
        leave_IndentedBlock r.1 block
          {| ib_id := id; ib_header := header'; ib_body := r.2 |} in
      Ok (r.1, Suite_IndentedBlock block')
  | Suite_SimpleStatementSuite b =>
      Ok (self, Suite_SimpleStatementSuite (visit_SimpleStatementSuite self b))
  end.

Definition visit_optional_suite_with (visit : Visit) (self : ConvertTypeComments)
    (suite : option BaseSuite) : result (ConvertTypeComments * option BaseSuite) :=
  match suite with
  | None => Ok (self, None)
  | Some b => let* r := visit_suite_with visit self b in Ok (r.1, Some r.2)
  end.

Fixpoint visit_statement (self : ConvertTypeComments) (node : BaseStatement)
    {struct node} : result (ConvertTypeComments * list BaseStatement) :=
  match node with
  | Stmt_SimpleStatementLine n =>
      let* nodes := visit_SimpleStatementLine self n in
      Ok (self, nodes)
  | Stmt_For (mkFor leading_lines target iter body orelse as n) =>
      let leading_lines' := visit_EmptyLines self leading_lines in
      let* rb := visit_suite_with visit_statement self body in
      let* ro := visit_optional_suite_with visit_statement rb.1 orelse in
      let* r :=
        leave_For n
          {| for_leading_lines := leading_lines'; for_target := target;
             for_iter := iter; for_body := rb.2; for_orelse := ro.2 |} in
      Ok (ro.1, spliced Stmt_For r)
  | Stmt_With (mkWith leading_lines items body as n) =>
      let leading_lines' := visit_EmptyLines self leading_lines in
      let* rb := visit_suite_with visit_statement self body in
      let* r :=
        leave_With n
          {| with_leading_lines := leading_lines'; with_items := items;
             with_body := rb.2 |} in
      Ok (rb.1, spliced Stmt_With r)
  | Stmt_If (mkIf leading_lines test body orelse) =>
      let leading_lines' := visit_EmptyLines self leading_lines in
      let* rb := visit_suite_with visit_statement self body in
      let* ro := visit_optional_suite_with visit_statement rb.1 orelse in
      Ok (ro.1,
          [Stmt_If {| if_leading_lines := leading_lines'; if_test := test;
                      if_body := rb.2; if_orelse := ro.2 |}])
  | Stmt_FunctionDef (mkFunctionDef leading_lines name params returns body as n) =>
      let* self1 := visit_FunctionDef self n in
      let leading_lines' := visit_EmptyLines self1 leading_lines in
      let* params' := visit_Parameters self1 params in
      let self2 := visit_FunctionDef_body self1 n in
      let* rb := visit_suite_with visit_statement self2 body in
      let* r :=
        leave_FunctionDef rb.1 n
          {| fd_leading_lines := leading_lines'; fd_name := name;
             fd_params := params'; fd_returns := returns; fd_body := rb.2 |} in
      Ok (r.1, [Stmt_FunctionDef r.2])
  end.

Definition visit_statements
  : ConvertTypeComments -> list BaseStatement
    -> result (ConvertTypeComments * list BaseStatement) :=
  visit_body_with visit_statement.

(** The transform of a module by a fresh [ConvertTypeComments]. *)
Definition transform_module (m : Module_) : result Module_ :=
  let self := init in
  let header' := visit_EmptyLines self (module_header m) in
  let* r := visit_statements self (module_body m) in
  Ok {| module_header := header'; module_body := r.2 |}.

(* ------------------------------------------------------------------- *)
(** *** The traversal, expressions included *)
(* ------------------------------------------------------------------- *)

(** Modelled from the spec: the visiting of the children of an expression
    and the validation of [Lambda] are not under src/. [visit_statement]
    above takes the expressions of a statement as they are. The traversal
    of the library visits every node, so it also enters them, and there the
    one hook of [ConvertTypeComments] that can run on a node of this tree
    is [leave_Param], on the parameters of a lambda: the codemod has no
    hook for [Lambda] and [leave_Param] does not ask where the parameter
    is. A node is built anew from its visited children, and building a
    [Lambda] checks that none of its parameters has an annotation
    ([test_lambda.py]: "Lambda params cannot have type annotations").
    [traverse_statement] is [visit_statement] with the expressions of each
    node visited in field order; [traverse_module] is the run. *)

(** [[visit(x) for x in l]]: the first exception escapes. *)
Definition visit_list_with {A : Type} (visit : A -> result A)
  : list A -> result (list A) :=
  fix visit_list (l : list A) {struct l} :=
    match l with
    | [] => Ok []
    | x :: rest =>
        let* x' := visit x in
        let* rest' := visit_list rest in
        Ok (x' :: rest')
    end.

Definition visit_option_with {A : Type} (visit : A -> result A) (o : option A)
  : result (option A) :=
  match o with
  | None => Ok None
  | Some x => let* x' := visit x in Ok (Some x')
  end.

Definition visit_Annotation_with (visit_expr : BaseExpression -> result BaseExpression)
    (node : Annotation) : result Annotation :=
  match node with
  | mkAnnotation e => let* e' := visit_expr e in Ok (mkAnnotation e')
  end.

(** A parameter: its annotation, its default and its whitespace are
    visited, then [leave_Param]. *)
Definition traverse_Param_with (visit_expr : BaseExpression -> result BaseExpression)
    (self : ConvertTypeComments) (node : Param) : result Param :=
  match node with
  | mkParam star name annotation default comma whitespace =>
      let* annotation' :=
        visit_option_with (visit_Annotation_with visit_expr) annotation in
      let* default' := visit_option_with visit_expr default in
      leave_Param self node
        {| param_star := star;
           param_name := name;
           param_annotation := annotation';
           param_default := default';
           param_comma := visit_MaybeComma self comma;
           whitespace_after_param := visit_ParenthesizableWhitespace self whitespace |}
  end.

Definition traverse_Parameters_with
    (visit_expr : BaseExpression -> result BaseExpression)
    (self : ConvertTypeComments) (node : Parameters) : result Parameters :=
  match node with
  | mkParameters posonly ps star kwonly star_kw =>
      let* ps' := visit_list_with (traverse_Param_with visit_expr self) ps in
      let* star' := visit_option_with (traverse_Param_with visit_expr self) star in
      let* kwonly' := visit_list_with (traverse_Param_with visit_expr self) kwonly in
      let* star_kw' :=
        visit_option_with (traverse_Param_with visit_expr self) star_kw in
      let* posonly' := visit_list_with (traverse_Param_with visit_expr self) posonly in
      Ok {| posonly_params := posonly'; params := ps'; star_arg := star';
            kwonly_params := kwonly'; star_kwarg := star_kw' |}
  end.

(** Every parameter of a parameter collection. *)
Definition every_Param (node : Parameters) : list Param :=
  posonly_params node ++ params node ++ option_list (star_arg node)
    ++ kwonly_params node ++ option_list (star_kwarg node).

Definition has_annotation (node : Param) : bool :=
  match param_annotation node with
  | Some _ => true
  | None => false
  end.

Definition Lambda_annotations : PyException :=
  CSTValidationError "Lambda params cannot have type annotations".

(** Modelled from the spec: building a [Lambda] runs its validation, which
    is not under src/. Its parameters cannot have annotations; the message
    is the one [test_lambda.py] expects. *)
Definition new_Lambda (params : Parameters) (body : BaseExpression)
  : result BaseExpression :=
  if existsb has_annotation (every_Param params)
  then Raise Lambda_annotations
  else Ok (Lambda params body).

(** Modelled from the spec: an expression is visited as every node is. Its
    children are visited and the expression is built anew from them; the
    codemod has a hook for none of these classes, so nothing is done on
    leaving them. The parameters of a lambda are visited as those of a
    function are, [leave_Param] included. *)
Fixpoint visit_expression (self : ConvertTypeComments) (e : BaseExpression)
    {struct e} : result BaseExpression :=
  match e with
  | Name _ | SimpleString _ | Integer _ | Float _ => Ok e
  | Attribute value attr =>
      let* value' := visit_expression self value in
      Ok (Attribute value' attr)
  | Subscript value slice =>
      let* value' := visit_expression self value in
      let* slice' := visit_list_with (visit_expression self) slice in
      Ok (Subscript value' slice')
  | Tuple elements =>
      let* elements' := visit_list_with (visit_expression self) elements in
      Ok (Tuple elements')
  | List_ elements =>
      let* elements' := visit_list_with (visit_expression self) elements in
      Ok (List_ elements')
  | Call func args =>
      let* func' := visit_expression self func in
      let* args' := visit_list_with (visit_expression self) args in
      Ok (Call func' args')
  | Lambda params body =>
      let* params' := traverse_Parameters_with (visit_expression self) self params in
      let* body' := visit_expression self body in
      new_Lambda params' body'
  end.

Definition traverse_Parameters (self : ConvertTypeComments) (node : Parameters)
  : result Parameters :=
  traverse_Parameters_with (visit_expression self) self node.

Definition traverse_AssignTarget (self : ConvertTypeComments) (node : AssignTarget)
  : result AssignTarget :=
  let* target' := visit_expression self (target node) in
  Ok {| target := target';
        whitespace_before_equal := whitespace_before_equal node;
        whitespace_after_equal := whitespace_after_equal node |}.

Definition traverse_small_statement (self : ConvertTypeComments)
    (node : BaseSmallStatement) : result BaseSmallStatement :=
  match node with
  | Small_Assign n =>
      let* targets' := visit_list_with (traverse_AssignTarget self) (targets n) in
      let* value' := visit_expression self (assign_value n) in
      Ok (Small_Assign {| targets := targets'; assign_value := value';
                          assign_semicolon := assign_semicolon n |})
  | Small_AnnAssign n =>
      let* target' := visit_expression self (ann_target n) in
      let* annotation' :=
        visit_Annotation_with (visit_expression self) (ann_annotation n) in
      let* value' := visit_option_with (visit_expression self) (ann_value n) in
      Ok (Small_AnnAssign {| ann_target := target'; ann_annotation := annotation';
                             ann_value := value';
                             ann_semicolon := ann_semicolon n |})
  | Small_Expr value semicolon =>
      let* value' := visit_expression self value in
      Ok (Small_Expr value' semicolon)
  | Small_Pass semicolon => Ok (Small_Pass semicolon)
  | Small_Return value semicolon =>
      let* value' := visit_option_with (visit_expression self) value in
      Ok (Small_Return value' semicolon)
  end.

Definition traverse_SimpleStatementLine (self : ConvertTypeComments)
    (node : SimpleStatementLine) : result (list BaseStatement) :=
  let* body' := visit_list_with (traverse_small_statement self) (ssl_body node) in
  let* r :=
    leave_SimpleStatementLine node
      {| ssl_leading_lines := visit_EmptyLines self (ssl_leading_lines node);
         ssl_body := body';
         ssl_trailing_whitespace :=
           visit_TrailingWhitespace self (ssl_trailing_whitespace node) |} in
  Ok (spliced Stmt_SimpleStatementLine r).

Definition traverse_SimpleStatementSuite (self : ConvertTypeComments)
    (node : SimpleStatementSuite) : result SimpleStatementSuite :=
  let* body' := visit_list_with (traverse_small_statement self) (sss_body node) in
  Ok {| sss_body := body';
        sss_trailing_whitespace :=
          visit_TrailingWhitespace self (sss_trailing_whitespace node) |}.

Definition traverse_suite_with (visit : Visit) (self : ConvertTypeComments)
    (suite : BaseSuite) : result (ConvertTypeComments * BaseSuite) :=
  match suite with
  | Suite_IndentedBlock (mkIndentedBlock id header body as block) =>
      let header' := visit_TrailingWhitespace self header in
      let* r := visit_body_with visit self body in
      let* block' :=
        leave_IndentedBlock r.1 block
          {| ib_id := id; ib_header := header'; ib_body := r.2 |} in
      Ok (r.1, Suite_IndentedBlock block')
  | Suite_SimpleStatementSuite b =>
      let* b' := traverse_SimpleStatementSuite self b in
      Ok (self, Suite_SimpleStatementSuite b')
  end.

Definition traverse_optional_suite_with (visit : Visit) (self : ConvertTypeComments)
    (suite : option BaseSuite) : result (ConvertTypeComments * option BaseSuite) :=
  match suite with
  | None => Ok (self, None)
  | Some b => let* r := traverse_suite_with visit self b in Ok (r.1, Some r.2)
  end.

Definition traverse_WithItem (self : ConvertTypeComments) (node : WithItem)
  : result WithItem :=
  let* item' := visit_expression self (item node) in
  let* asname' :=
    visit_option_with
      (fun a => let* name' := visit_expression self (asname_name a) in
                Ok (mkAsName name'))
      (asname node) in
  Ok {| item := item'; asname := asname' |}.

(** Modelled from the spec: [visit_statement] with the expressions of
    each node visited too, in field order. *)
Fixpoint traverse_statement (self : ConvertTypeComments) (node : BaseStatement)
    {struct node} : result (ConvertTypeComments * list BaseStatement) :=
  match node with
  | Stmt_SimpleStatementLine n =>
      let* nodes := traverse_SimpleStatementLine self n in
      Ok (self, nodes)
  | Stmt_For (mkFor leading_lines target iter body orelse as n) =>
      let leading_lines' := visit_EmptyLines self leading_lines in
      let* target' := visit_expression self target in
      let* iter' := visit_expression self iter in
      let* rb := traverse_suite_with traverse_statement self body in
      let* ro := traverse_optional_suite_with traverse_statement rb.1 orelse in
      let* r :=
        leave_For n
          {| for_leading_lines := leading_lines'; for_target := target';
             for_iter := iter'; for_body := rb.2; for_orelse := ro.2 |} in
      Ok (ro.1, spliced Stmt_For r)
  | Stmt_With (mkWith leading_lines items body as n) =>
      let leading_lines' := visit_EmptyLines self leading_lines in
      let* items' := visit_list_with (traverse_WithItem self) items in
      let* rb := traverse_suite_with traverse_statement self body in
      let* r :=
        leave_With n
          {| with_leading_lines := leading_lines'; with_items := items';
             with_body := rb.2 |} in
      Ok (rb.1, spliced Stmt_With r)
  | Stmt_If (mkIf leading_lines test body orelse) =>
      let leading_lines' := visit_EmptyLines self leading_lines in
      let* test' := visit_expression self test in
      let* rb := traverse_suite_with traverse_statement self body in
      let* ro := traverse_optional_suite_with traverse_statement rb.1 orelse in
      Ok (ro.1,
          [Stmt_If {| if_leading_lines := leading_lines'; if_test := test';
                      if_body := rb.2; if_orelse := ro.2 |}])
  | Stmt_FunctionDef (mkFunctionDef leading_lines name params returns body as n) =>
      let* self1 := visit_FunctionDef self n in
      let leading_lines' := visit_EmptyLines self1 leading_lines in
      let* params' := traverse_Parameters self1 params in
      let* returns' :=
        visit_option_with (visit_Annotation_with (visit_expression self1)) returns in
      let self2 := visit_FunctionDef_body self1 n in
      let* rb := traverse_suite_with traverse_statement self2 body in
      let* r :=
        leave_FunctionDef rb.1 n
          {| fd_leading_lines := leading_lines'; fd_name := name;
             fd_params := params'; fd_returns := returns'; fd_body := rb.2 |} in
      Ok (r.1, [Stmt_FunctionDef r.2])
  end.

Definition traverse_statements
  : ConvertTypeComments -> list BaseStatement
    -> result (ConvertTypeComments * list BaseStatement) :=
  visit_body_with traverse_statement.

(** The run of a fresh [ConvertTypeComments] over a module. *)
Definition traverse_module (m : Module_) : result Module_ :=
  let self := init in
  let header' := visit_EmptyLines self (module_header m) in
  let* r := traverse_statements self (module_body m) in
  Ok {| module_header := header'; module_body := r.2 |}.

End Codemod.

(* ===================================================================== *)
(** ** A Python runtime for the examples

    An instance of [PythonAst] for evaluating the codemod on concrete trees:
    the answers of CPython 3.11 on the small family of programs used in the
    examples of this file. Type comments are read as CPython's tokenizer
    reads them; a type comment is accepted after an assignment, on the
    header line of a [for], a [with] or a [def], after a parameter, and on
    a line of its own before the first statement of a function body, and is
    a syntax error anywhere else. The texts of type comments are decoded for
    names, tuples of names (bare or in one pair of parentheses) and function
    types over names. A text outside this family is answered as a syntax
    error: that is CPython's answer for the malformed texts of the examples,
    not for every such text. *)
(* ===================================================================== *)

Module SamplePython.

(** [dir(builtins)] of CPython 3.11. *)
Definition dir_builtins : list string :=
  ["ArithmeticError"; "AssertionError"; "AttributeError"; "BaseException";
   "BaseExceptionGroup"; "BlockingIOError"; "BrokenPipeError"; "BufferError";
   "BytesWarning"; "ChildProcessError"; "ConnectionAbortedError";
   "ConnectionError"; "ConnectionRefusedError"; "ConnectionResetError";
   "DeprecationWarning"; "EOFError"; "Ellipsis"; "EncodingWarning";
   "EnvironmentError"; "Exception"; "ExceptionGroup"; "False"; "FileExistsError";
   "FileNotFoundError"; "FloatingPointError"; "FutureWarning"; "GeneratorExit";
   "IOError"; "ImportError"; "ImportWarning"; "IndentationError"; "IndexError";
   "InterruptedError"; "IsADirectoryError"; "KeyError"; "KeyboardInterrupt";
   "LookupError"; "MemoryError"; "ModuleNotFoundError"; "NameError"; "None";
   "NotADirectoryError"; "NotImplemented"; "NotImplementedError"; "OSError";
   "OverflowError"; "PendingDeprecationWarning"; "PermissionError";
   "ProcessLookupError"; "RecursionError"; "ReferenceError"; "ResourceWarning";
   "RuntimeError"; "RuntimeWarning"; "StopAsyncIteration"; "StopIteration";
   "SyntaxError"; "SyntaxWarning"; "SystemError"; "SystemExit"; "TabError";
   "TimeoutError"; "True"; "TypeError"; "UnboundLocalError"; "UnicodeDecodeError";
   "UnicodeEncodeError"; "UnicodeError"; "UnicodeTranslateError"; "UnicodeWarning";
   "UserWarning"; "ValueError"; "Warning"; "ZeroDivisionError"; "__build_class__";
   "__debug__"; "__doc__"; "__import__"; "__loader__"; "__name__"; "__package__";
   "__spec__"; "abs"; "aiter"; "all"; "anext"; "any"; "ascii"; "bin"; "bool";
   "breakpoint"; "bytearray"; "bytes"; "callable"; "chr"; "classmethod"; "compile";
   "complex"; "copyright"; "credits"; "delattr"; "dict"; "dir"; "divmod";
   "enumerate"; "eval"; "exec"; "exit"; "filter"; "float"; "format"; "frozenset";
   "getattr"; "globals"; "hasattr"; "hash"; "help"; "hex"; "id"; "input"; "int";
   "isinstance"; "issubclass"; "iter"; "len"; "license"; "list"; "locals"; "map";
   "max"; "memoryview"; "min"; "next"; "object"; "oct"; "open"; "ord"; "pow";
   "print"; "property"; "quit"; "range"; "repr"; "reversed"; "round"; "set";
   "setattr"; "slice"; "sorted"; "staticmethod"; "str"; "sum"; "super"; "tuple";
   "type"; "vars"; "zip"].

Definition present {A : Type} (o : option A) : bool :=
  match o with
  | Some _ => true
  | None => false
  end.

Definition is_blank (c : ascii) : bool :=
  Ascii.eqb c " " || Ascii.eqb c "009".

Fixpoint skip_blanks (s : string) : string :=
  match s with
  | String c rest => if is_blank c then skip_blanks rest else s
  | EmptyString => EmptyString
  end.

Definition is_alnum (c : ascii) : bool :=
  let n := nat_of_ascii c in
  ((48 <=? n) && (n <=? 57)) || ((65 <=? n) && (n <=? 90))
  || ((97 <=? n) && (n <=? 122)).

Definition is_digit (c : ascii) : bool :=
  let n := nat_of_ascii c in (48 <=? n) && (n <=? 57).

(** The tokenizer: a comment [# type: text] (blanks optional) is a type
    comment with that text, unless the text is [ignore] alone or followed
    by a character that is not alphanumeric. *)
Definition type_comment_text (c : option Comment) : option string :=
  match c with
  | Some (mkComment (String "#" rest)) =>
      let rest := skip_blanks rest in
      if PyStr.startswith "type:" rest then
        let text := skip_blanks (PyStr.skip 5 rest) in
        if PyStr.startswith "ignore" text
           && match PyStr.skip 6 text with
              | EmptyString => true
              | String c _ => negb (is_alnum c)
              end
        then None
        else Some text
      else None
  | _ => None
  end.

Definition type_comment_lines (lines : list EmptyLine) : list string :=
  omap (fun l => type_comment_text (el_comment l)) lines.

Definition ends_with_Assign (body : list BaseSmallStatement) : bool :=
  match last body with
  | Some (Small_Assign _) => true
  | _ => false
  end.

(** A line of small statements may end in a type comment only after an
    assignment. *)
Definition small_statements_accepted (body : list BaseSmallStatement)
    (trailing : TrailingWhitespace) : bool :=
  match type_comment_text (tw_comment trailing) with
  | Some _ => ends_with_Assign body
  | None => true
  end.

Definition first_line_text (w : ParenthesizableWhitespace) : option string :=
  match w with
  | ParenthesizedWhitespace first_line _ _ _ => type_comment_text (tw_comment first_line)
  | SimpleWhitespace _ => None
  end.

Definition no_type_comment_lines_in (w : ParenthesizableWhitespace) : bool :=
  match w with
  | ParenthesizedWhitespace _ empty_lines _ _ =>
      match type_comment_lines empty_lines with [] => true | _ => false end
  | SimpleWhitespace _ => true
  end.

(** The type comment after a parameter: behind its comma, or behind the
    parameter when it has no comma. *)
Definition param_type_comment (p : Param) : option string :=
  match param_comma p with
  | Comma _ after => first_line_text after
  | Comma_DEFAULT => first_line_text (whitespace_after_param p)
  end.

Definition param_accepted (p : Param) : bool :=
  match param_comma p with
  | Comma before after =>
      no_type_comment_lines_in before && no_type_comment_lines_in after
      && negb (present (first_line_text before))
      && negb (present (first_line_text (whitespace_after_param p)))
      && no_type_comment_lines_in (whitespace_after_param p)
  | Comma_DEFAULT => no_type_comment_lines_in (whitespace_after_param p)
  end.

Definition all_params (ps : Parameters) : list Param :=
  posonly_params ps ++ params ps ++ option_list (star_arg ps)
    ++ kwonly_params ps ++ option_list (star_kwarg ps).

(** The function type comment of a [def]: on the header line, or on a
    line of its own before the first statement of the body. [None] in the
    outer option: two of them, a syntax error. *)
Definition function_type_comment (header : TrailingWhitespace)
    (first_lines : list EmptyLine) : option (option string) :=
  match type_comment_text (tw_comment header), type_comment_lines first_lines with
  | Some t, [] => Some (Some t)
  | None, [] => Some None
  | None, [t] => Some (Some t)
  | _, _ => None
  end.

Definition leading_lines_of (s : BaseStatement) : list EmptyLine :=
  match s with
  | Stmt_SimpleStatementLine n => ssl_leading_lines n
  | Stmt_For n => for_leading_lines n
  | Stmt_With n => with_leading_lines n
  | Stmt_FunctionDef n => fd_leading_lines n
  | Stmt_If n => if_leading_lines n
  end.

(** [accepted own_lines s]: [ast.parse(..., type_comments=True)] accepts
    the text of [s]. With [own_lines = false] the leading lines of [s] are
    not looked at (they were read as part of the enclosing [def]). *)
Fixpoint accepted (own_lines : bool) (s : BaseStatement) {struct s} : bool :=
  let all_accepted :=
    fix all_accepted (l : list BaseStatement) {struct l} : bool :=
      match l with
      | [] => true
      | x :: rest => accepted true x && all_accepted rest
      end in
  let block_accepted :=
    fun (typed_header : bool) (suite : BaseSuite) =>
      match suite with
      | Suite_IndentedBlock (mkIndentedBlock _ header body) =>
          (typed_header || negb (present (type_comment_text (tw_comment header))))
          && all_accepted body
      | Suite_SimpleStatementSuite b =>
          small_statements_accepted (sss_body b) (sss_trailing_whitespace b)
      end in
  let lines_accepted :=
    fun (lines : list EmptyLine) =>
      negb own_lines
      || match type_comment_lines lines with [] => true | _ => false end in
  match s with
  | Stmt_SimpleStatementLine n =>
      lines_accepted (ssl_leading_lines n)
      && small_statements_accepted (ssl_body n) (ssl_trailing_whitespace n)
  | Stmt_For (mkFor leading_lines _ _ body orelse) =>
      lines_accepted leading_lines
      && block_accepted true body
      && match orelse with Some b => block_accepted false b | None => true end
  | Stmt_With (mkWith leading_lines _ body) =>
      lines_accepted leading_lines && block_accepted true body
  | Stmt_If (mkIf leading_lines _ body orelse) =>
      lines_accepted leading_lines
      && block_accepted false body
      && match orelse with Some b => block_accepted false b | None => true end
  | Stmt_FunctionDef (mkFunctionDef leading_lines _ ps _ body) =>
      lines_accepted leading_lines
      && forallb param_accepted (all_params ps)
      && match body with
         | Suite_IndentedBlock (mkIndentedBlock _ header (first :: rest)) =>
             present (function_type_comment header (leading_lines_of first))
             && accepted false first && all_accepted rest
         | Suite_IndentedBlock (mkIndentedBlock _ header []) => true
         | Suite_SimpleStatementSuite b =>
             small_statements_accepted (sss_body b) (sss_trailing_whitespace b)
         end
  end.

Definition no_arguments : ast_arguments :=
  {| posonlyargs := []; args := []; vararg := None; kwonlyargs := []; kwarg := None |}.

Definition arg_of (tc : bool) (p : Param) : ast_arg :=
  {| arg := param_name p;
     arg_type_comment := if tc then param_type_comment p else None |}.

Definition arguments_of (tc : bool) (ps : Parameters) : ast_arguments :=
  {| posonlyargs := map (arg_of tc) (posonly_params ps);
     args := map (arg_of tc) (params ps);
     vararg := arg_of tc <$> star_arg ps;
     kwonlyargs := map (arg_of tc) (kwonly_params ps);
     kwarg := arg_of tc <$> star_kwarg ps |}.

Definition header_text (suite : BaseSuite) : option string :=
  match suite with
  | Suite_IndentedBlock b => type_comment_text (tw_comment (ib_header b))
  | Suite_SimpleStatementSuite _ => None
  end.

(** The [type_comment] attribute of the statement node. *)
Definition statement_type_comment (s : BaseStatement) : option string :=
  match s with
  | Stmt_SimpleStatementLine n =>
      if ends_with_Assign (ssl_body n)
      then type_comment_text (tw_comment (ssl_trailing_whitespace n))
      else None
  | Stmt_For n => header_text (for_body n)
  | Stmt_With n => header_text (with_body n)
  | Stmt_If _ => None
  | Stmt_FunctionDef n =>
      match fd_body n with
      | Suite_IndentedBlock (mkIndentedBlock _ header (first :: _)) =>
          mjoin (function_type_comment header (leading_lines_of first))
      | _ => None
      end
  end.

Definition statement_arguments (tc : bool) (s : BaseStatement) : ast_arguments :=
  match s with
  | Stmt_FunctionDef n => arguments_of tc (fd_params n)
  | _ => no_arguments
  end.

Definition parse_statement (tc : bool) (s : BaseStatement) : option ast_stmt :=
  if tc then
    if accepted true s
    then Some {| type_comment := statement_type_comment s;
                 stmt_args := statement_arguments true s |}
    else None
  else
    Some {| type_comment := None; stmt_args := statement_arguments false s |}.

(** Texts of type comments. *)

Definition is_identifier (s : string) : bool :=
  match s with
  | EmptyString => false
  | String c _ =>
      negb (is_digit c)
      && forallb (fun c => is_alnum c || Ascii.eqb c "_") (list_ascii_of_string s)
  end.

(** The pieces of [s] between commas; [cur] is the piece being read,
    reversed. *)
Fixpoint pieces_go (cur : string) (s : string) : list string :=
  match s with
  | EmptyString => [String.rev cur]
  | String c rest =>
      if Ascii.eqb c ","
      then String.rev cur :: pieces_go EmptyString rest
      else pieces_go (String c cur) rest
  end.

Definition pieces (s : string) : list string :=
  map PyStr.strip (pieces_go EmptyString s).

Definition names (items : list string) : option (list ast_expr) :=
  if forallb is_identifier items then Some (map ast_Name items) else None.

(** A name, or names separated by commas (a last comma may trail). *)
Definition parse_items (s : string) : option ast_expr :=
  match pieces s with
  | [one] => if is_identifier one then Some (ast_Name one) else None
  | items =>
      let items :=
        match last items with
        | Some EmptyString => removelast items
        | _ => items
        end in
      match items with
      | [] => None
      | _ => ast_Tuple <$> names items
      end
  end.

(** [s] without its enclosing parentheses, when it has them. *)
Definition unparenthesized (s : string) : option string :=
  match s with
  | String "(" rest =>
      match String.rev rest with
      | String ")" inner => Some (String.rev inner)
      | _ => None
      end
  | _ => None
  end.

(** The items above, bare or in one pair of parentheses; [()] is the empty
    tuple. *)
Definition parse_eval (s : string) : option ast_expr :=
  match unparenthesized s with
  | Some EmptyString => Some (ast_Tuple [])
  | Some inner => parse_items inner
  | None => parse_items s
  end.

(** [text] up to the first [c], and what follows that [c]. *)
Fixpoint break_at (c : ascii) (text : string) : option (string * string) :=
  match text with
  | EmptyString => None
  | String d rest =>
      if Ascii.eqb c d then Some (EmptyString, rest)
      else '(before, after) ← break_at c rest; Some (String d before, after)
  end.

(** [(types) -> name], where [types] is empty, [...] or names separated
    by commas. *)
Definition parse_func_type (s : string) : option ast_FunctionType :=
  match s with
  | String "(" rest =>
      '(inner, after) ← break_at ")" rest;
      if PyStr.startswith " -> " after && is_identifier (PyStr.skip 4 after) then
        let result := ast_Name (PyStr.skip 4 after) in
        if String.eqb inner "" then Some (mk_ast_FunctionType [] result)
        else if String.eqb inner "..."
             then Some (mk_ast_FunctionType [ast_Constant_Ellipsis] result)
             else types ← names (pieces inner); Some (mk_ast_FunctionType types result)
      else None
  | _ => None
  end.

Definition join (sep : string) (l : list string) : string :=
  match l with
  | [] => EmptyString
  | x :: rest => foldl (fun acc y => acc +:+ sep +:+ y) x rest
  end.

Fixpoint unparse (e : ast_expr) : string :=
  match e with
  | ast_Tuple [x] => "(" +:+ unparse x +:+ ",)"
  | ast_Tuple elts => "(" +:+ join ", " (map unparse elts) +:+ ")"
  | ast_Constant_Ellipsis => "..."
  | ast_Name id => id
  | ast_Other dump => dump
  end.

Definition python : PythonAst :=
  {| builtins_dir := dir_builtins;
     ast_parse_statement := parse_statement;
     ast_parse_eval := parse_eval;
     ast_parse_func_type := parse_func_type;
     ast_unparse := unparse |}.

End SamplePython.

(* ===================================================================== *)
(** ** Shapes, stated from the specification *)
(* ===================================================================== *)

(** The leaves of a binding shape and of an annotation shape, left to
    right. *)
Fixpoint binding_leaves (b : UnpackedBindings) : list BaseExpression :=
  match b with
  | UB_expr e => [e]
  | UB_list l => concat (map binding_leaves l)
  end.

Fixpoint annotation_leaves (a : UnpackedAnnotations) : list string :=
  match a with
  | UA_str s => [s]
  | UA_list l => concat (map annotation_leaves l)
  end.

(** The zipping rule in the words of the specification: a leaf pairs with a
    leaf, a sequence with a sequence of the same length whose elements pair
    in turn, and nothing else pairs. *)
Fixpoint shapes_match (b : UnpackedBindings) (a : UnpackedAnnotations) {struct a} : bool :=
  match a, b with
  | UA_str _, UB_expr _ => true
  | UA_list anns, UB_list binds =>
      (length binds =? length anns)
      && (fix all_match (binds : list UnpackedBindings) (anns : list UnpackedAnnotations)
            {struct anns} : bool :=
            match binds, anns with
            | b' :: binds', a' :: anns' => shapes_match b' a' && all_match binds' anns'
            | _, _ => true
            end) binds anns
  | _, _ => false
  end.

(** Every leaf of the binding shape is an assignment target, as in a parsed
    tree; [annotated_bindings] asserts it. *)
Definition bindable (b : UnpackedBindings) : Prop :=
  Forall (fun e => is_BaseAssignTargetExpression e = true) (binding_leaves b).

(** A tuple-shaped target. *)
Definition is_Tuple (e : BaseExpression) : bool :=
  match e with
  | Tuple _ => true
  | _ => false
  end.

(** [raw] written as a string literal: [f'"{raw}"']. *)
Definition quoted (raw : string) : string :=
  String PyStr.dquote (raw +:+ String PyStr.dquote "").

(** The quoting rule in the words of the specification: a name of the
    built-in set is emitted bare, any other text as a string literal. *)
Definition bare_or_quoted (builtin_names : list string) (raw : string) (a : Annotation)
  : Prop :=
  ((raw ∈ builtin_names) ∧ a = mkAnnotation (Name raw))
  ∨ ((raw ∉ builtin_names) ∧ a = mkAnnotation (SimpleString (quoted raw))).

(** A line with one statement and nothing around it:
    [cst.SimpleStatementLine(body=[statement])]. *)
Definition bare_line (statement : BaseSmallStatement) : BaseStatement :=
  Stmt_SimpleStatementLine
    {| ssl_leading_lines := [];
       ssl_body := [statement];
       ssl_trailing_whitespace := TrailingWhitespace_default |}.



(* ===================================================================== *)
(** ** Node construction: the parameter collection *)
(* ===================================================================== *)

Module NodeModel.

(** The nodes of [libcst.nodes] built in [test_lambda.py]. *)

Inductive CSTValidationError := mkCSTValidationError (message : string).

(** [Param]: [star] is a string when given ([None]: [MaybeSentinel.DEFAULT]);
    [equal] tells whether an [AssignEqual] was given. *)
Record Param := mkParam
  { name : string;
    annotation : option BaseExpression;
    equal : bool;
    default : option BaseExpression;
    star : option string }.

(** The [star_arg] field: absent, a bare [ParamStar] separator, or the
    variadic positional parameter. *)
Inductive StarArg :=
| StarArg_DEFAULT
| ParamStar
| StarArg_Param (p : Param).

Record Parameters := mkParameters
  { params : list Param;
    default_params : list Param;
    star_arg : StarArg;
    kwonly_params : list Param;
    star_kwarg : option Param }.

Definition has_default (p : Param) : bool :=
  match default p with
  | Some _ => true
  | None => false
  end.

(** [true] when the parameter's star prefix, if given, is [expected]. *)
Definition star_is (expected : string) (p : Param) : bool :=
  match star p with
  | Some s => String.eqb s expected
  | None => true
  end.

(** Modelled from the spec: the validation of [Param] (section 4.1: "an
    optional trailing default-marker token is present without an
    accompanying default value"; section 3: the star prefix is none,
    single or double), which is not under src/; the messages are the ones
    [test_lambda.py] expects. [None]: the node is valid. *)
Definition Param_validate (p : Param) : option CSTValidationError :=
  if equal p && negb (has_default p) then
    Some (mkCSTValidationError "Must have a default when specifying an AssignEqual.")
  else
    match star p with
    | Some s =>
        if String.eqb s "" || String.eqb s "*" || String.eqb s "**" then None
        else Some (mkCSTValidationError
                     "Must specify either '', '*' or '**' for star.")
    | None => None
    end.

Definition defaults_for_params : CSTValidationError :=
  mkCSTValidationError "Cannot have defaults for params".

Definition no_defaults_for_default_params : CSTValidationError :=
  mkCSTValidationError "Must have defaults for default_params".

Definition ParamStar_without_kwonly : CSTValidationError :=
  mkCSTValidationError "Must have at least one kwonly param if ParamStar is used.".

Definition wrong_star (expected : string) : CSTValidationError :=
  mkCSTValidationError ("Expecting a star prefix of '" +:+ expected +:+ "'").

(** Modelled from the spec: the validation of [Parameters], which is not
    under src/. The invariants are those of section 3, checked in the order
    the specification lists them; the messages are the ones
    [test_lambda.py] expects.
    - plain positional parameters must not carry a default value, and
      defaulted positional parameters must carry one;
    - a bare separator needs a keyword-only parameter or the variadic
      keyword parameter;
    - each parameter's star prefix must match the collection it is in. *)
Definition Parameters_validate (ps : Parameters) : option CSTValidationError :=
  if existsb has_default (params ps) then Some defaults_for_params
  else if existsb (fun p => negb (has_default p)) (default_params ps) then
    Some no_defaults_for_default_params
  else if match star_arg ps, kwonly_params ps, star_kwarg ps with
          | ParamStar, [], None => true
          | _, _, _ => false
          end then
    Some ParamStar_without_kwonly
  else if negb (forallb (star_is "")
                 (params ps ++ default_params ps ++ kwonly_params ps)) then
    Some (wrong_star "")
  else if match star_arg ps with
          | StarArg_Param p => negb (star_is "*" p)
          | _ => false
          end then
    Some (wrong_star "*")
  else if match star_kwarg ps with
          | Some p => negb (star_is "**" p)
          | None => false
          end then
    Some (wrong_star "**")
  else None.

(** Constructing a node runs its validation: the node or the error. *)
Definition new_Param (p : Param) : CSTValidationError + Param :=
  match Param_validate p with
  | Some e => inl e
  | None => inr p
  end.

Definition new_Parameters (ps : Parameters) : CSTValidationError + Parameters :=
  match Parameters_validate ps with
  | Some e => inl e
  | None => inr ps
  end.

(** Every invariant of section 3 that [Parameters_validate] checks. *)
Definition well_formed (ps : Parameters) : Prop :=
  Forall (fun p => default p = None) (params ps)
  ∧ Forall (fun p => default p ≠ None) (default_params ps)
  ∧ (star_arg ps = ParamStar → kwonly_params ps ≠ [] ∨ star_kwarg ps ≠ None)
  ∧ Forall (fun p => star_is "" p = true)
      (params ps ++ default_params ps ++ kwonly_params ps)
  ∧ (∀ p, star_arg ps = StarArg_Param p → star_is "*" p = true)
  ∧ (∀ p, star_kwarg ps = Some p → star_is "**" p = true).

End NodeModel.

(* ===================================================================== *)
(** ** Programs for the examples *)
(* ===================================================================== *)

Module Programs.

Definition newline : Newline := mkNewline None.

(** Two spaces and a comment at the end of a line. *)
Definition trailing (comment : string) : TrailingWhitespace :=
  {| tw_whitespace := "  "; tw_comment := Some (mkComment comment);
     tw_newline := newline |}.

Definition comment_line (comment : string) : EmptyLine :=
  {| el_indent := true; el_whitespace := ""; el_comment := Some (mkComment comment);
     el_newline := newline |}.

Definition to (e : BaseExpression) : AssignTarget :=
  {| target := e; whitespace_before_equal := " "; whitespace_after_equal := " " |}.

Definition assign (ts : list BaseExpression) (v : BaseExpression) : Assign :=
  {| targets := map to ts; assign_value := v; assign_semicolon := Semicolon_DEFAULT |}.

(** A line holding one assignment and a trailing comment. *)
Definition assign_line (ts : list BaseExpression) (v : BaseExpression) (comment : string)
  : SimpleStatementLine :=
  {| ssl_leading_lines := []; ssl_body := [Small_Assign (assign ts v)];
     ssl_trailing_whitespace := trailing comment |}.

Definition pass_line : BaseStatement := bare_line (Small_Pass Semicolon_DEFAULT).

Definition one_two : BaseExpression := Tuple [Integer "1"; Integer "2"].

(** [x = 1  # type: int] *)
Definition x_int : SimpleStatementLine :=
  assign_line [Name "x"] (Integer "1") "# type: int".

(** [x, y = 1, 2  # type: int, str] *)
Definition xy_int_str : SimpleStatementLine :=
  assign_line [Tuple [Name "x"; Name "y"]] one_two "# type: int, str".

(** [x = y = 1, 2  # type: int, int] *)
Definition x_y_int_int : SimpleStatementLine :=
  assign_line [Name "x"; Name "y"] one_two "# type: int, int".

(** [x, = [1]  # type: int,] *)
Definition x_comma : SimpleStatementLine :=
  assign_line [Tuple [Name "x"]] (List_ [Integer "1"]) "# type: int,".

(** [() = ()  # type: ()] *)
Definition empty_tuple : SimpleStatementLine :=
  assign_line [Tuple []] (Tuple []) "# type: ()".


(** [x = 1  # type: Foo] *)
Definition x_Foo : SimpleStatementLine :=
  assign_line [Name "x"] (Integer "1") "# type: Foo".

Definition block (id : nat) (header : TrailingWhitespace) (body : list BaseStatement)
  : BaseSuite :=
  Suite_IndentedBlock {| ib_id := id; ib_header := header; ib_body := body |}.

Definition plain_param (name : string) (annotation : option Annotation)
    (comma : MaybeComma) : Param :=
  {| param_star := ""; param_name := name; param_annotation := annotation;
     param_default := None; param_comma := comma;
     whitespace_after_param := SimpleWhitespace "" |}.

Definition positional (ps : list Param) : Parameters :=
  {| posonly_params := []; params := ps; star_arg := None;
     kwonly_params := []; star_kwarg := None |}.

(** A comma followed by a comment and a line break. *)
Definition comma_then (comment : string) : MaybeComma :=
  Comma (SimpleWhitespace "")
    (ParenthesizedWhitespace (trailing comment) [] true "").

(** A comma followed by a line break. *)
Definition comma_newline : MaybeComma :=
  Comma (SimpleWhitespace "")
    (ParenthesizedWhitespace TrailingWhitespace_default [] true "").

(** [[
def f(
    x: int,  # type: str
):
    pass
]] *)
Definition annotated_param : FunctionDef :=
  {| fd_leading_lines := []; fd_name := "f";
     fd_params :=
       positional [plain_param "x" (Some (mkAnnotation (Name "int")))
                     (comma_then "# type: str")];
     fd_returns := None;
     fd_body := block 0 TrailingWhitespace_default [pass_line] |}.

(** What the codemod makes of it: the comment is gone, the annotation is
    the one that was there. [[
def f(
    x: int,
):
    pass
]] *)
Definition annotated_param_after : FunctionDef :=
  {| fd_leading_lines := []; fd_name := "f";
     fd_params :=
       positional [plain_param "x" (Some (mkAnnotation (Name "int"))) comma_newline];
     fd_returns := None;
     fd_body := block 0 TrailingWhitespace_default [pass_line] |}.

(** [[
def f(x, y):  # type: (int) -> str
    pass
]] *)
Definition one_type_two_params : FunctionDef :=
  {| fd_leading_lines := []; fd_name := "f";
     fd_params :=
       positional [plain_param "x" None (Comma (SimpleWhitespace "") (SimpleWhitespace " "));
                   plain_param "y" None Comma_DEFAULT];
     fd_returns := None;
     fd_body := block 0 (trailing "# type: (int) -> str") [pass_line] |}.

(** [[
def f(x):  # type: (List[) -> str
    pass
]] *)
Definition malformed_function_comment : FunctionDef :=
  {| fd_leading_lines := []; fd_name := "f";
     fd_params := positional [plain_param "x" None Comma_DEFAULT];
     fd_returns := None;
     fd_body := block 0 (trailing "# type: (List[) -> str") [pass_line] |}.

Definition function (body : list BaseStatement) (annotation returns : option Annotation)
  : Module_ :=
  {| module_header := [];
     module_body :=
       [Stmt_FunctionDef
          {| fd_leading_lines := []; fd_name := "f";
             fd_params := positional [plain_param "x" annotation Comma_DEFAULT];
             fd_returns := returns;
             fd_body := block 0 TrailingWhitespace_default body |}] |}.

Definition y_int (leading_lines : list EmptyLine) : BaseStatement :=
  Stmt_SimpleStatementLine
    {| ssl_leading_lines := leading_lines;
       ssl_body := [Small_Assign (assign [Name "y"] (Integer "1"))];
       ssl_trailing_whitespace := trailing "# type: int" |}.

(** [[
def f(x):
    # type: (int) -> None
    y = 1  # type: int
]] *)
Definition first_statement_typed : Module_ :=
  function [y_int [comment_line "# type: (int) -> None"]] None None.

(** After one pass: [[
def f(x: int) -> None:
    y = 1  # type: int
]] *)
Definition after_one_pass : Module_ :=
  function [y_int []] (Some (mkAnnotation (Name "int")))
    (Some (mkAnnotation (Name "None"))).

(** After two passes: [[
def f(x: int) -> None:
    y: int = 1
]] *)
Definition after_two_passes : Module_ :=
  function
    [Stmt_SimpleStatementLine
       {| ssl_leading_lines := [];
          ssl_body :=
            [Small_AnnAssign
               {| ann_target := Name "y";
                  ann_annotation := mkAnnotation (Name "int");
                  ann_value := Some (Integer "1");
                  ann_semicolon := Semicolon_DEFAULT |}];
          ssl_trailing_whitespace :=
            {| tw_whitespace := ""; tw_comment := None; tw_newline := newline |} |}]
    (Some (mkAnnotation (Name "int")))
    (Some (mkAnnotation (Name "None"))).

Definition with_item (e : string) (name : option string) : WithItem :=
  {| item := Name e; asname := (fun n => mkAsName (Name n)) <$> name |}.

Definition with_statement (items : list WithItem) (comment : string) : With :=
  {| with_leading_lines := []; with_items := items;
     with_body := block 0 (trailing comment) [pass_line] |}.

(** [[
with a as b, c as d:  # type: int
    pass
]] *)
Definition with_two_bindings : With :=
  with_statement [with_item "a" (Some "b"); with_item "c" (Some "d")] "# type: int".

(** [[
with a:  # type: int
    pass
]] *)
Definition with_no_binding : With :=
  with_statement [with_item "a" None] "# type: int".

(** [[
for x, y in z:  # type: int
    pass
]] *)
Definition for_two_one : For :=
  {| for_leading_lines := []; for_target := Tuple [Name "x"; Name "y"];
     for_iter := Name "z";
     for_body := block 0 (trailing "# type: int") [pass_line];
     for_orelse := None |}.

(** [[
for x, y in z:  # type: int, str
    pass
]] *)
Definition for_two_two : For :=
  {| for_leading_lines := []; for_target := Tuple [Name "x"; Name "y"];
     for_iter := Name "z";
     for_body := block 0 (trailing "# type: int, str") [pass_line];
     for_orelse := None |}.

(** [[
def f(x):  # type: (...) -> str
    pass
]] *)
Definition ellipsis_form : FunctionDef :=
  {| fd_leading_lines := []; fd_name := "f";
     fd_params := positional [plain_param "x" None Comma_DEFAULT];
     fd_returns := None;
     fd_body := block 0 (trailing "# type: (...) -> str") [pass_line] |}.

Definition module_of (statements : list BaseStatement) : Module_ :=
  {| module_header := []; module_body := statements |}.

(** The whitespace left where a type comment was. *)
Definition stripped : TrailingWhitespace :=
  {| tw_whitespace := ""; tw_comment := None; tw_newline := newline |}.

(** The type declaration [name: type] of a built-in type. *)
Definition declaration (name type : string) : BaseSmallStatement :=
  Small_AnnAssign
    {| ann_target := Name name; ann_annotation := mkAnnotation (Name type);
       ann_value := None; ann_semicolon := Semicolon_DEFAULT |}.

(** Parameters of [test_lambda.py]. *)

Definition lambda_param (name : string) (default : option BaseExpression)
  : NodeModel.Param :=
  {| NodeModel.name := name; NodeModel.annotation := None;
     NodeModel.equal := false; NodeModel.default := default;
     NodeModel.star := None |}.

Definition lambda_parameters (params default_params : list NodeModel.Param)
  : NodeModel.Parameters :=
  {| NodeModel.params := params; NodeModel.default_params := default_params;
     NodeModel.star_arg := NodeModel.StarArg_DEFAULT;
     NodeModel.kwonly_params := []; NodeModel.star_kwarg := None |}.

(** [cst.Param(cst.Name("bar"), default=cst.SimpleString('"one"'))] *)
Definition bar_one : NodeModel.Param :=
  lambda_param "bar" (Some (SimpleString (quoted "one"))).

(** [cst.Param(cst.Name("bar"))] *)
Definition bar : NodeModel.Param := lambda_param "bar" None.

(** [cst.Param(cst.Name("baz"), default=cst.Number(cst.Integer("5")))] *)
Definition baz_five : NodeModel.Param := lambda_param "baz" (Some (Integer "5")).

(** [cst.Param(cst.Name("bar"), star=s)], with a default when [d] is one. *)
Definition starred (s : string) (d : option BaseExpression) : NodeModel.Param :=
  {| NodeModel.name := "bar"; NodeModel.annotation := None;
     NodeModel.equal := false; NodeModel.default := d;
     NodeModel.star := Some s |}.

(** [cst.Param(cst.Name("bar"), equal=cst.AssignEqual())] *)
Definition bar_equal : NodeModel.Param :=
  {| NodeModel.name := "bar"; NodeModel.annotation := None;
     NodeModel.equal := true; NodeModel.default := None;
     NodeModel.star := None |}.

(** The keyword-only parameters [bar = "one", baz, biz = "two"]. *)
Definition bar_baz_biz : list NodeModel.Param :=
  [bar_one; lambda_param "baz" None;
   lambda_param "biz" (Some (SimpleString (quoted "two")))].

Definition first_second : list NodeModel.Param :=
  [lambda_param "first" None; lambda_param "second" None].

Definition third_fourth : list NodeModel.Param :=
  [lambda_param "third" (Some (Float "1.0")); lambda_param "fourth" (Some (Float "1.5"))].

(** The parameter collections of [LambdaCreationTest.test_valid], in the
    order of the test. *)
Definition test_valid : list NodeModel.Parameters :=
  let P := NodeModel.mkParameters in
  let none := NodeModel.StarArg_DEFAULT in
  let star := NodeModel.StarArg_Param (lambda_param "params" None) in
  let kw := Some (lambda_param "kwparams" None) in
  [P [] [] none [] None;
   P [bar; lambda_param "baz" None] [] none [] None;
   P [] [bar_one; baz_five] none [] None;
   P [bar] [baz_five] none [] None;
   P [] [] none [bar_one; lambda_param "baz" None] None;
   P first_second [] none bar_baz_biz None;
   P [] third_fourth none bar_baz_biz None;
   P first_second third_fourth none bar_baz_biz None;
   P [] [] star [] None;
   P [] [] star bar_baz_biz None;
   P first_second third_fourth star bar_baz_biz None;
   P [] [] none [] kw;
   P [] [] star [] kw].

(** The parameter collections of [LambdaCreationTest.test_invalid] that are
    rejected as collections, with the message the test expects. *)
Definition test_invalid : list (NodeModel.Parameters * string) :=
  let P := NodeModel.mkParameters in
  let none := NodeModel.StarArg_DEFAULT in
  [(P [bar_one] [] none [] None, "Cannot have defaults for params");
   (P [] [bar] none [] None, "Must have defaults for default_params");
   (P [] [] NodeModel.ParamStar [] None,
    "Must have at least one kwonly param if ParamStar is used.");
   (P [starred "*" None] [] none [] None, "Expecting a star prefix of ''");
   (P [] [starred "*" (Some (SimpleString (quoted "one")))] none [] None,
    "Expecting a star prefix of ''");
   (P [] [] none [starred "*" None] None, "Expecting a star prefix of ''");
   (P [] [] (NodeModel.StarArg_Param (starred "**" None)) [] None,
    "Expecting a star prefix of '*'");
   (P [] [] none [] (Some (starred "*" None)), "Expecting a star prefix of '**'")].

End Programs.

(** ** Counts and statements used by the properties *)

(** The statements directly inside a suite. *)
Definition suite_statements (suite : BaseSuite) : list BaseStatement :=
  match suite with
  | Suite_IndentedBlock b => ib_body b
  | Suite_SimpleStatementSuite _ => []
  end.

(** The statements directly inside a statement. *)
Definition inner_statements (s : BaseStatement) : list BaseStatement :=
  match s with
  | Stmt_SimpleStatementLine _ => []
  | Stmt_For n =>
      suite_statements (for_body n)
        ++ from_option suite_statements [] (for_orelse n)
  | Stmt_With n => suite_statements (with_body n)
  | Stmt_FunctionDef n => suite_statements (fd_body n)
  | Stmt_If n =>
      suite_statements (if_body n)
        ++ from_option suite_statements [] (if_orelse n)
  end.


(** The number of [with] items that carry an [as] binding. *)
Definition as_bindings (items : list WithItem) : nat :=
  length (List.filter (fun i => match asname i with Some _ => true | None => false end)
            items).

(** The number of parameters of a function: positional, variadic
    positional, keyword-only and variadic keyword. *)
Definition parameter_count (a : ast_arguments) : nat :=
  length (posonlyargs a) + length (args a)
  + (match vararg a with Some _ => 1 | None => 0 end)
  + length (kwonlyargs a)
  + (match kwarg a with Some _ => 1 | None => 0 end).

(** A visit that gives back the state it was given, when it is given one
    with the stripping off. *)
Definition keeps_state (visit : Visit) (s : BaseStatement) : Prop :=
  forall self self' out,
    aggressively_strip_type_comments self = false ->
    visit self s = Ok (self', out) ->
    self' = self.

(** The type declaration [binding: raw] as a small statement. *)
Definition declaration_of {py : PythonAst} (pair : TargetAnnotationPair)
  : BaseSmallStatement :=
  Small_AnnAssign (type_declaration pair.1 pair.2).



(** ** Shapes, states and statements used by the further properties *)

(** The leaves of a binding shape zipped with the leaves of an annotation
    shape. *)
Definition leaf_pairs (b : UnpackedBindings) (a : UnpackedAnnotations)
  : list TargetAnnotationPair :=
  zip (binding_leaves b) (annotation_leaves a).

(** What an outcome of [annotated_bindings] tells about its arguments. *)
Definition annotated_bindings_case (b : UnpackedBindings) (a : UnpackedAnnotations)
  : Prop :=
  match annotated_bindings b a with
  | Ok pairs =>
      shapes_match b a = true /\ bindable b
      /\ map fst pairs = binding_leaves b /\ map snd pairs = annotation_leaves a
  | Raise ArityError => shapes_match b a = false
  | Raise AssertionError => ~ bindable b
  | Raise _ => False
  end.

(** The exceptions a run of the codemod can end with. *)
Definition raised_by_the_codemod (e : PyException) : Prop :=
  e = IndexError \/ e = SyntaxError \/ e = AssertionError
  \/ e = RuntimeError "Unreachable code.".

(** A visit that raises only the exceptions of [raised_by_the_codemod]. *)
Definition raises_as_expected (visit : Visit) (s : BaseStatement) : Prop :=
  forall self e, visit self s = Raise e -> raised_by_the_codemod e.

(** The dict entries [from_cst] builds from the inline comments when the
    function has no type comment of its own. *)
Definition inline_entries (args : list ast_arg) : list (string * option string) :=
  omap (fun a => match arg_type_comment a with
                 | Some tc => Some (arg a, Some tc)
                 | None => None
                 end) args.

(** What [leave_Param] reads for a parameter name: [arguments.get(name)]. *)
Definition argument_type (info : FunctionTypeInfo) (name : string) : option string :=
  mjoin (arguments info !! name).


(** A string of white space only. *)
Definition blank (s : string) : bool :=
  forallb PyStr.isspace (list_ascii_of_string s).

(** A string that is empty or starts with white space. *)
Definition ends_the_word (rest : string) : bool :=
  match rest with
  | EmptyString => true
  | String c _ => PyStr.isspace c
  end.

(** An indented block holds a statement, as every parsed block does. *)
Definition suite_has_statements (suite : BaseSuite) : Prop :=
  match suite with
  | Suite_IndentedBlock b => ib_body b <> []
  | Suite_SimpleStatementSuite _ => True
  end.

(** The lines and blocks of the statement itself are not empty. *)
Definition has_statements (s : BaseStatement) : Prop :=
  match s with
  | Stmt_SimpleStatementLine n => ssl_body n <> []
  | Stmt_For n =>
      suite_has_statements (for_body n)
      /\ from_option suite_has_statements True (for_orelse n)
  | Stmt_With n => suite_has_statements (with_body n)
  | Stmt_FunctionDef n => suite_has_statements (fd_body n)
  | Stmt_If n =>
      suite_has_statements (if_body n)
      /\ from_option suite_has_statements True (if_orelse n)
  end.

(** A statement whose lines and blocks are not empty, at every depth. *)
Inductive as_parsed : BaseStatement -> Prop :=
| as_parsed_intro (s : BaseStatement) :
    has_statements s -> Forall as_parsed (inner_statements s) -> as_parsed s.

(** The states of a traversal between two statements: the stripping is off
    and the body stack is empty when the type information stack is. *)
Definition between_statements (self : ConvertTypeComments) : Prop :=
  aggressively_strip_type_comments self = false
  /\ (function_type_info_stack self = [] -> function_body_stack self = []).

(** A visit that raises no [IndexError] and returns at least one
    statement. *)
Definition in_bounds (visit : Visit) (s : BaseStatement) : Prop :=
  forall self,
    between_statements self ->
    match visit self s with
    | Ok (_, out) => out <> []
    | Raise e => e <> IndexError
    end.

(** The states in which every function being visited has empty type
    information. *)
Definition nothing_found (self : ConvertTypeComments) : Prop :=
  aggressively_strip_type_comments self = false
  /\ Forall (fun info => is_empty info = true) (function_type_info_stack self)
  /\ (function_type_info_stack self = [] -> function_body_stack self = []).

(** A visit that returns the statement and the state it was given. *)
Definition keeps_statement (visit : Visit) (s : BaseStatement) : Prop :=
  forall self, nothing_found self -> visit self s = Ok (self, [s]).

Section FurtherDefinitions.

Context {py : PythonAst}.

(** The statements [type_declaration_statements] builds from the pairs: the
    first takes [leading_lines], the others none. *)
Definition declaration_lines (leading_lines : list EmptyLine)
    (pairs : list TargetAnnotationPair) : list SimpleStatementLine :=
  imap (fun i pair =>
          {| ssl_leading_lines := if i =? 0 then leading_lines else [];
             ssl_body := [declaration_of pair];
             ssl_trailing_whitespace := TrailingWhitespace_default |})
       pairs.

(** The targets of an assignment, each zipped with the annotation. *)
Definition target_pairs (node : Assign) (annotation : ast_expr)
  : list TargetAnnotationPair :=
  concat (map (fun t => leaf_pairs (unpack_target (target t))
                          (unpack_annotation annotation)) (targets node)).

(** The codemod finds no type information for the statement itself: a line
    that ends with an assignment, a [for] and a [with] have no annotation,
    a function has empty type information. *)
Definition finds_no_type (s : BaseStatement) : Prop :=
  match s with
  | Stmt_SimpleStatementLine n =>
      match last (ssl_body n) with
      | None => False
      | Some (Small_Assign _) => _annotation_for_statement s = Ok None
      | Some _ => True
      end
  | Stmt_For _ | Stmt_With _ => _annotation_for_statement s = Ok None
  | Stmt_FunctionDef n => from_cst n = Ok (mkFunctionTypeInfo ∅ None)
  | Stmt_If _ => True
  end.

(** ... nor for any statement inside it. *)
Inductive nothing_to_convert : BaseStatement -> Prop :=
| nothing_to_convert_intro (s : BaseStatement) :
    finds_no_type s ->
    Forall nothing_to_convert (inner_statements s) ->
    nothing_to_convert s.

(** What one statement becomes when it is visited from [self]. *)
Definition rewritten (self : ConvertTypeComments) (s : BaseStatement)
  : result (list BaseStatement) :=
  let* r := visit_statement self s in Ok r.2.

End FurtherDefinitions.

(** ** Expressions of a statement, for the full traversal *)

(** An expression that holds no lambda. *)
Fixpoint lambda_free (e : BaseExpression) : bool :=
  match e with
  | Name _ | SimpleString _ | Integer _ | Float _ => true
  | Attribute value _ => lambda_free value
  | Subscript value slice => lambda_free value && forallb lambda_free slice
  | Tuple elements | List_ elements => forallb lambda_free elements
  | Call func args => lambda_free func && forallb lambda_free args
  | Lambda _ _ => false
  end.

(** The expressions directly inside a parameter, a small statement, a
    one-line suite and a statement. *)
Definition Param_expressions (node : Param) : list BaseExpression :=
  option_list (annotation <$> param_annotation node)
    ++ option_list (param_default node).

Definition small_statement_expressions (node : BaseSmallStatement)
  : list BaseExpression :=
  match node with
  | Small_Assign n => map target (targets n) ++ [assign_value n]
  | Small_AnnAssign n =>
      [ann_target n; annotation (ann_annotation n)] ++ option_list (ann_value n)
  | Small_Expr value _ => [value]
  | Small_Pass _ => []
  | Small_Return value _ => option_list value
  end.

Definition suite_expressions (suite : BaseSuite) : list BaseExpression :=
  match suite with
  | Suite_IndentedBlock _ => []
  | Suite_SimpleStatementSuite b =>
      concat (map small_statement_expressions (sss_body b))
  end.

Definition WithItem_expressions (node : WithItem) : list BaseExpression :=
  item node :: option_list (asname_name <$> asname node).

Definition statement_expressions (s : BaseStatement) : list BaseExpression :=
  match s with
  | Stmt_SimpleStatementLine n => concat (map small_statement_expressions (ssl_body n))
  | Stmt_For n =>
      [for_target n; for_iter n] ++ suite_expressions (for_body n)
        ++ from_option suite_expressions [] (for_orelse n)
  | Stmt_With n =>
      concat (map WithItem_expressions (with_items n))
        ++ suite_expressions (with_body n)
  | Stmt_FunctionDef n =>
      concat (map Param_expressions (every_Param (fd_params n)))
        ++ option_list (annotation <$> fd_returns n)
        ++ suite_expressions (fd_body n)
  | Stmt_If n =>
      [if_test n] ++ suite_expressions (if_body n)
        ++ from_option suite_expressions [] (if_orelse n)
  end.

(** A statement that holds no lambda, at any depth. *)
Inductive without_lambda : BaseStatement -> Prop :=
| without_lambda_intro (s : BaseStatement) :
    forallb lambda_free (statement_expressions s) = true ->
    Forall without_lambda (inner_statements s) ->
    without_lambda s.

(** The expressions directly inside an expression. *)
Definition expression_children (e : BaseExpression) : list BaseExpression :=
  match e with
  | Name _ | SimpleString _ | Integer _ | Float _ => []
  | Attribute value _ => [value]
  | Subscript value slice => value :: slice
  | Tuple elements | List_ elements => elements
  | Call func args => func :: args
  | Lambda params body =>
      concat (map Param_expressions (every_Param params)) ++ [body]
  end.

(** The exceptions a run of the codemod can end with. *)
Definition raised_by_a_run (e : PyException) : Prop :=
  e = IndexError \/ e = SyntaxError \/ e = AssertionError
  \/ e = RuntimeError "Unreachable code." \/ e = Lambda_annotations.

(** The exceptions the visit of an expression can end with. *)
Definition raised_in_an_expression (e : PyException) : Prop :=
  e = IndexError \/ e = Lambda_annotations.

(** A visit that raises only the exceptions of [raised_by_a_run]. *)
Definition raises_in_a_run (visit : Visit) (s : BaseStatement) : Prop :=
  forall self e, visit self s = Raise e -> raised_by_a_run e.

(** Whether [leave_Param] returns the parameter with an annotation: it had
    one, or [info] has a type for its name. *)
Definition gets_annotation (info : FunctionTypeInfo) (node : Param) : bool :=
  has_annotation node
  || match argument_type info (param_name node) with
     | Some _ => true
     | None => false
     end.

(** ** Further programs *)

Module MorePrograms.
Import Programs.

(** [[
with a, c as d:  # type: int
    pass
]] *)
Definition with_one_binding : With :=
  with_statement [with_item "a" None; with_item "c" (Some "d")] "# type: int".

(** [[
# note
a = 1; x, y = 1, 2  # type: int, str
]] *)
Definition two_on_a_line : SimpleStatementLine :=
  {| ssl_leading_lines := [comment_line "# note"];
     ssl_body :=
       [Small_Assign {| targets := [to (Name "a")]; assign_value := Integer "1";
                        assign_semicolon := Semicolon "" " " |};
        Small_Assign (assign [Tuple [Name "x"; Name "y"]] one_two)];
     ssl_trailing_whitespace := trailing "# type: int, str" |}.

(** What it becomes: [[
# note
a = 1
x: int
y: str
x, y = 1, 2
]] *)
Definition two_on_a_line_spread : list BaseStatement :=
  [Stmt_SimpleStatementLine
     {| ssl_leading_lines := [comment_line "# note"];
        ssl_body := [Small_Assign (assign [Name "a"] (Integer "1"))];
        ssl_trailing_whitespace := stripped |};
   bare_line (declaration "x" "int");
   bare_line (declaration "y" "str");
   bare_line (Small_Assign (assign [Tuple [Name "x"; Name "y"]] one_two))].

(** [[
# note
for x, y in z:  # type: int, str
    pass
]] *)
Definition for_with_note : For :=
  {| for_leading_lines := [comment_line "# note"];
     for_target := Tuple [Name "x"; Name "y"];
     for_iter := Name "z";
     for_body := block 0 (trailing "# type: int, str") [pass_line];
     for_orelse := None |}.

(** [[
for x, y in z:
    pass
]] *)
Definition for_plain : For :=
  {| for_leading_lines := []; for_target := Tuple [Name "x"; Name "y"];
     for_iter := Name "z";
     for_body := block 0 stripped [pass_line];
     for_orelse := None |}.

(** [[
def f(x,  # type: str
y):
    # type: (int, bool) -> None
    pass
]] *)
Definition two_params_typed : FunctionDef :=
  {| fd_leading_lines := []; fd_name := "f";
     fd_params :=
       positional [plain_param "x" None (comma_then "# type: str");
                   plain_param "y" None Comma_DEFAULT];
     fd_returns := None;
     fd_body :=
       block 0 TrailingWhitespace_default
         [Stmt_SimpleStatementLine
            {| ssl_leading_lines := [comment_line "# type: (int, bool) -> None"];
               ssl_body := [Small_Pass Semicolon_DEFAULT];
               ssl_trailing_whitespace := TrailingWhitespace_default |}] |}.

(** The state in which the parameters and the body of [two_params_typed]
    are left. *)
Definition inside_two_params_typed : ConvertTypeComments :=
  {| function_type_info_stack :=
       [mkFunctionTypeInfo (<["y" := Some "bool"]> (<["x" := Some "str"]> ∅))
          (Some "None")];
     function_body_stack := [fd_body two_params_typed];
     aggressively_strip_type_comments := false |}.

(** [[
lambda x: x
]] *)
Definition identity_lambda : BaseExpression :=
  Lambda (positional [plain_param "x" None Comma_DEFAULT]) (Name "x").

(** [[
f = lambda x: x
]] *)
Definition lambda_line : SimpleStatementLine :=
  {| ssl_leading_lines := [];
     ssl_body := [Small_Assign (assign [Name "f"] identity_lambda)];
     ssl_trailing_whitespace := TrailingWhitespace_default |}.

(** [[
def f(x):
    # type: (int) -> None
    g = lambda x: x
]] *)
Definition lambda_in_typed_def : FunctionDef :=
  {| fd_leading_lines := []; fd_name := "f";
     fd_params := positional [plain_param "x" None Comma_DEFAULT];
     fd_returns := None;
     fd_body :=
       block 0 TrailingWhitespace_default
         [Stmt_SimpleStatementLine
            {| ssl_leading_lines := [comment_line "# type: (int) -> None"];
               ssl_body := [Small_Assign (assign [Name "g"] identity_lambda)];
               ssl_trailing_whitespace := TrailingWhitespace_default |}] |}.

(** The state in which the body of [lambda_in_typed_def] is visited. *)
Definition inside_lambda_in_typed_def : ConvertTypeComments :=
  {| function_type_info_stack :=
       [mkFunctionTypeInfo (<["x" := Some "int"]> ∅) (Some "None")];
     function_body_stack := [fd_body lambda_in_typed_def];
     aggressively_strip_type_comments := true |}.

End MorePrograms.

(* ===================================================================== *)
(** * Properties *)
(* ===================================================================== *)

(** ** Induction on statements *)

(** Induction on a statement, with the hypothesis for every statement
    directly inside it. *)
Lemma BaseStatement_nested_ind (P : BaseStatement -> Prop)
    (step : forall s, Forall P (inner_statements s) -> P s) :
  forall s, P s.
Proof.
  fix IH 1. intros s. apply step.
  assert (Hall : forall l : list BaseStatement,
             (fix sub (l : list BaseStatement) : Prop :=
                match l with [] => True | x :: r => P x /\ sub r end) l ->
             Forall P l).
  { induction l as [| x l IHl]; intros H.
    - constructor.
    - destruct H as [Hx Hl]. constructor; [exact Hx | exact (IHl Hl)]. }
  destruct s as [n | [ll t i body orelse] | [ll items body] | [ll name ps ret body]
                 | [ll test body orelse]]; simpl.
  - constructor.
  - apply Forall_app. split.
    + destruct body as [[id h l] | b]; simpl; [| constructor].
      apply Hall. induction l as [| x l IHl]; simpl; [exact I |].
      split; [apply IH | exact IHl].
    + destruct orelse as [[[id h l] | b] |]; simpl; try constructor.
      apply Hall. induction l as [| x l IHl]; simpl; [exact I |].
      split; [apply IH | exact IHl].
  - destruct body as [[id h l] | b]; simpl; [| constructor].
    apply Hall. induction l as [| x l IHl]; simpl; [exact I |].
    split; [apply IH | exact IHl].
  - destruct body as [[id h l] | b]; simpl; [| constructor].
    apply Hall. induction l as [| x l IHl]; simpl; [exact I |].
    split; [apply IH | exact IHl].
  - apply Forall_app. split.
    + destruct body as [[id h l] | b]; simpl; [| constructor].
      apply Hall. induction l as [| x l IHl]; simpl; [exact I |].
      split; [apply IH | exact IHl].
    + destruct orelse as [[[id h l] | b] |]; simpl; try constructor.
      apply Hall. induction l as [| x l IHl]; simpl; [exact I |].
      split; [apply IH | exact IHl].
Qed.

(** ** Shape zipping *)

(** Induction on an annotation shape, with the hypothesis for every element
    of a sequence. *)
Lemma UnpackedAnnotations_rect' (P : UnpackedAnnotations -> Prop)
    (Hstr : forall s, P (UA_str s))
    (Hlist : forall l, Forall P l -> P (UA_list l)) :
  forall a, P a.
Proof.
  fix IH 1. intros [s | l].
  - apply Hstr.
  - apply Hlist. induction l as [| x l IHl]; constructor; [apply IH | exact IHl].
Qed.

Lemma annotated_bindings_lists (binds : list UnpackedBindings)
    (anns : list UnpackedAnnotations) :
  annotated_bindings (UB_list binds) (UA_list anns)
  = if length binds =? length anns then zipped_bindings binds anns
    else Raise ArityError.
Proof.
  simpl. destruct (length binds =? length anns); reflexivity.
Qed.

Lemma shapes_match_lists (binds : list UnpackedBindings)
    (anns : list UnpackedAnnotations) :
  shapes_match (UB_list binds) (UA_list anns)
  = (length binds =? length anns)
    && forallb (fun ba => shapes_match ba.1 ba.2) (zip binds anns).
Proof.
  simpl. f_equal.
  revert binds. induction anns as [| a anns IH]; intros [| b binds]; try reflexivity.
  simpl. rewrite IH. reflexivity.
Qed.

Lemma bindable_list_inv (b : UnpackedBindings) (binds : list UnpackedBindings) :
  bindable (UB_list (b :: binds)) -> bindable b /\ bindable (UB_list binds).
Proof.
  unfold bindable. simpl. intros H. apply Forall_app in H. exact H.
Qed.

Lemma zipped_bindings_shapes (anns : list UnpackedAnnotations) :
  Forall (fun a => forall b : UnpackedBindings,
            bindable b ->
            if shapes_match b a then
              exists pairs, annotated_bindings b a = Ok pairs
                            /\ map fst pairs = binding_leaves b
                            /\ map snd pairs = annotation_leaves a
            else annotated_bindings b a = Raise ArityError) anns ->
  forall binds : list UnpackedBindings,
    length binds = length anns ->
    bindable (UB_list binds) ->
    if forallb (fun ba => shapes_match ba.1 ba.2) (zip binds anns) then
      exists pairs, zipped_bindings binds anns = Ok pairs
                    /\ map fst pairs = concat (map binding_leaves binds)
                    /\ map snd pairs = concat (map annotation_leaves anns)
    else zipped_bindings binds anns = Raise ArityError.
Proof.
  induction 1 as [| a anns Ha _ IH]; intros [| b binds] Hlen Hb; try discriminate.
  - simpl. exists []. repeat split.
  - apply bindable_list_inv in Hb as [Hb Hbs].
    injection Hlen as Hlen.
    specialize (Ha b Hb). specialize (IH binds Hlen Hbs).
    cbn [zip zip_with forallb fst snd zipped_bindings map concat].
    destruct (shapes_match b a).
    + destruct Ha as (pairs & -> & Hfst & Hsnd). simpl.
      destruct (forallb _ _).
      * destruct IH as (out & -> & Hfst' & Hsnd'). simpl.
        exists (pairs ++ out). unfold TargetAnnotationPair in *.
        rewrite !List.map_app, Hfst, Hsnd, Hfst', Hsnd'.
        repeat split.
      * rewrite IH. reflexivity.
    + rewrite Ha. reflexivity.
Qed.

(** When the shapes match, the zipping returns one pair per leaf, in order;
    when they do not, it raises the arity error. *)
Lemma annotated_bindings_shapes (a : UnpackedAnnotations) :
  forall b : UnpackedBindings,
    bindable b ->
    if shapes_match b a then
      exists pairs, annotated_bindings b a = Ok pairs
                    /\ map fst pairs = binding_leaves b
                    /\ map snd pairs = annotation_leaves a
    else annotated_bindings b a = Raise ArityError.
Proof.
  induction a as [s | anns IH] using UnpackedAnnotations_rect'; intros b Hb.
  - destruct b as [e | l]; simpl; [| reflexivity].
    unfold bindable in Hb. simpl in Hb. apply Forall_cons in Hb as [He _].
    rewrite He. eexists. split; [reflexivity |]. split; reflexivity.
  - destruct b as [e | binds]; [reflexivity |].
    rewrite shapes_match_lists, annotated_bindings_lists.
    destruct (length binds =? length anns) eqn:Hlen; [| reflexivity].
    apply Nat.eqb_eq in Hlen. simpl.
    exact (zipped_bindings_shapes anns IH binds Hlen Hb).
Qed.

Section CodemodFacts.

Context {py : PythonAst}.

(** *** The pieces of [convert_Assign] *)



(** *** Hooks that keep the node when the flag is off *)

Lemma leave_TrailingWhitespace_off (self : ConvertTypeComments)
    (original_node updated_node : TrailingWhitespace) :
  aggressively_strip_type_comments self = false ->
  leave_TrailingWhitespace self original_node updated_node = updated_node.
Proof. unfold leave_TrailingWhitespace. intros ->. reflexivity. Qed.

Lemma visit_EmptyLines_off (self : ConvertTypeComments) (lines : list EmptyLine) :
  aggressively_strip_type_comments self = false ->
  visit_EmptyLines self lines = lines.
Proof.
  intros Hoff. unfold visit_EmptyLines, leave_EmptyLine. rewrite Hoff.
  induction lines as [| l lines IH]; [reflexivity |].
  cbn. f_equal. exact IH.
Qed.

Lemma visit_SimpleStatementLine_off (self : ConvertTypeComments)
    (node : SimpleStatementLine) :
  aggressively_strip_type_comments self = false ->
  visit_SimpleStatementLine self node
  = let* r := leave_SimpleStatementLine node node in
    Ok (spliced Stmt_SimpleStatementLine r).
Proof.
  intros Hoff. unfold visit_SimpleStatementLine, visit_TrailingWhitespace.
  rewrite visit_EmptyLines_off, leave_TrailingWhitespace_off by exact Hoff.
  destruct node as [ll body tw]. simpl.
  destruct (leave_SimpleStatementLine _ _) as [[n | nodes |] | e]; reflexivity.
Qed.

(** *** The statement hooks on a statement they do not rewrite *)



Lemma leave_For_no_annotation (original_node updated_node : For) :
  _annotation_for_statement (Stmt_For original_node) = Ok None ->
  leave_For original_node updated_node = Ok (Updated updated_node).
Proof.
  intros Hann. unfold leave_For.
  destruct (for_body updated_node); [| reflexivity]. rewrite Hann. reflexivity.
Qed.

Lemma leave_With_no_annotation (original_node updated_node : With) :
  _annotation_for_statement (Stmt_With original_node) = Ok None ->
  leave_With original_node updated_node = Ok (Updated updated_node).
Proof.
  intros Hann. unfold leave_With.
  destruct (with_body updated_node); [| reflexivity]. rewrite Hann. reflexivity.
Qed.




(** *** The state across a statement *)

Lemma visit_body_with_keeps_state (visit : Visit) (l : list BaseStatement) :
  Forall (keeps_state visit) l ->
  forall self self' out,
    aggressively_strip_type_comments self = false ->
    visit_body_with visit self l = Ok (self', out) ->
    self' = self.
Proof.
  induction 1 as [| x l Hx _ IH]; intros self self' out Hoff Hvisit; simpl in Hvisit.
  - injection Hvisit as <- _. reflexivity.
  - destruct (visit self x) as [[self1 out1] |] eqn:H1; [| discriminate Hvisit].
    apply Hx in H1; [| exact Hoff]. subst self1. simpl in Hvisit.
    destruct (visit_body_with visit self l) as [[self2 out2] |] eqn:H2;
      [| discriminate Hvisit].
    apply IH in H2; [| exact Hoff]. subst self2.
    simpl in Hvisit. injection Hvisit as <- _. reflexivity.
Qed.

Lemma visit_suite_with_keeps_state (visit : Visit) (suite : BaseSuite) :
  Forall (keeps_state visit) (suite_statements suite) ->
  forall self self' suite',
    aggressively_strip_type_comments self = false ->
    visit_suite_with visit self suite = Ok (self', suite') ->
    self' = self.
Proof.
  intros Hall self self' suite' Hoff Hvisit.
  destruct suite as [[id header body] | b]; simpl in *.
  - destruct (visit_body_with visit self body) as [[self1 out1] |] eqn:H1;
      [| discriminate Hvisit].
    apply (visit_body_with_keeps_state visit body Hall) in H1; [| exact Hoff].
    subst self1. simpl in Hvisit.
    destruct (leave_IndentedBlock _ _ _); [| discriminate Hvisit].
    simpl in Hvisit. injection Hvisit as <- _. reflexivity.
  - injection Hvisit as <- _. reflexivity.
Qed.

Lemma visit_optional_suite_with_keeps_state (visit : Visit) (suite : option BaseSuite) :
  Forall (keeps_state visit) (from_option suite_statements [] suite) ->
  forall self self' suite',
    aggressively_strip_type_comments self = false ->
    visit_optional_suite_with visit self suite = Ok (self', suite') ->
    self' = self.
Proof.
  intros Hall self self' suite' Hoff Hvisit.
  destruct suite as [b |]; simpl in *.
  - destruct (visit_suite_with visit self b) as [[self1 b1] |] eqn:H1;
      [| discriminate Hvisit].
    apply (visit_suite_with_keeps_state visit b Hall) in H1; [| exact Hoff].
    simpl in Hvisit. injection Hvisit as <- _. exact H1.
  - injection Hvisit as <- _. reflexivity.
Qed.

(** Every statement gives the state back as it got it: the stacks are
    popped to where they were and the stripping is off again. So every
    statement of a module is visited with the stripping off. *)
Theorem visit_statement_keeps_state (s : BaseStatement) :
  keeps_state visit_statement s.
Proof.
  induction s as [s IH] using BaseStatement_nested_ind.
  intros self self' out Hoff Hvisit.
  destruct s as [n | [ll t i body orelse] | [ll items body] | [ll name ps ret body]
                 | [ll test body orelse]];
    cbn [visit_statement] in Hvisit; simpl in IH.
  - destruct (visit_SimpleStatementLine self n); [| discriminate Hvisit].
    simpl in Hvisit. injection Hvisit as <- _. reflexivity.
  - apply Forall_app in IH as [Hbody Horelse].
    destruct (visit_suite_with visit_statement self body) as [[self1 b1] |] eqn:H1;
      [| discriminate Hvisit].
    apply (visit_suite_with_keeps_state _ _ Hbody) in H1; [| exact Hoff].
    subst self1. simpl in Hvisit.
    destruct (visit_optional_suite_with visit_statement self orelse)
      as [[self2 o2] |] eqn:H2; [| discriminate Hvisit].
    apply (visit_optional_suite_with_keeps_state _ _ Horelse) in H2; [| exact Hoff].
    subst self2. simpl in Hvisit.
    destruct (leave_For _ _); [| discriminate Hvisit].
    simpl in Hvisit. injection Hvisit as <- _. reflexivity.
  - destruct (visit_suite_with visit_statement self body) as [[self1 b1] |] eqn:H1;
      [| discriminate Hvisit].
    apply (visit_suite_with_keeps_state _ _ IH) in H1; [| exact Hoff].
    subst self1. simpl in Hvisit.
    destruct (leave_With _ _); [| discriminate Hvisit].
    simpl in Hvisit. injection Hvisit as <- _. reflexivity.
  - unfold visit_FunctionDef in Hvisit.
    destruct (from_cst _) as [info |]; [| discriminate Hvisit].
    simpl in Hvisit.
    destruct (visit_Parameters _ ps); [| discriminate Hvisit].
    simpl in Hvisit.
    destruct (visit_suite_with visit_statement _ body) as [[self1 b1] |] eqn:H1;
      [| discriminate Hvisit].
    apply (visit_suite_with_keeps_state _ _ IH) in H1; [| reflexivity].
    subst self1. simpl in Hvisit.
    unfold leave_FunctionDef in Hvisit. simpl in Hvisit.
    rewrite !last_snoc in Hvisit. rewrite !removelast_last in Hvisit.
    destruct self as [infos bodies flag]. simpl in Hoff. subst flag.
    destruct ret, (returns info); simpl in Hvisit; injection Hvisit as <- _;
      reflexivity.
  - apply Forall_app in IH as [Hbody Horelse].
    destruct (visit_suite_with visit_statement self body) as [[self1 b1] |] eqn:H1;
      [| discriminate Hvisit].
    apply (visit_suite_with_keeps_state _ _ Hbody) in H1; [| exact Hoff].
    subst self1. simpl in Hvisit.
    destruct (visit_optional_suite_with visit_statement self orelse)
      as [[self2 o2] |] eqn:H2; [| discriminate Hvisit].
    apply (visit_optional_suite_with_keeps_state _ _ Horelse) in H2; [| exact Hoff].
    subst self2. simpl in Hvisit. injection Hvisit as <- _. reflexivity.
Qed.

Lemma visit_statements_keeps_state (l : list BaseStatement) :
  forall self self' out,
    aggressively_strip_type_comments self = false ->
    visit_statements self l = Ok (self', out) ->
    self' = self.
Proof.
  apply visit_body_with_keeps_state.
  apply Forall_forall. intros s _. apply visit_statement_keeps_state.
Qed.

(** *** Statements that are kept, and their siblings *)


Lemma result_bind_assoc {A B C : Type} (r : result A) (f : A -> result B)
    (g : B -> result C) :
  result_bind (result_bind r f) g = result_bind r (fun x => result_bind (f x) g).
Proof. destruct r; reflexivity. Qed.




(** *** Decode failures *)



(** With no type information on top of the stack, the hooks of a function
    definition return the node they are given. *)
Lemma empty_info_keeps_function (self : ConvertTypeComments) (infos : list FunctionTypeInfo) :
  function_type_info_stack self = infos ++ [mkFunctionTypeInfo ∅ None] ->
  (forall original_node updated_node,
      leave_Param self original_node updated_node = Ok updated_node)
  /\ (forall original_node updated_node,
        function_body_stack self <> [] ->
        exists self', leave_FunctionDef self original_node updated_node
                      = Ok (self', updated_node))
  /\ (forall original_node updated_node,
        leave_IndentedBlock self original_node updated_node = Ok updated_node).
Proof.
  intros Hstack. repeat apply conj.
  - intros o u. unfold leave_Param.
    destruct (param_annotation u); [reflexivity |].
    rewrite Hstack, last_snoc. simpl. rewrite lookup_empty. reflexivity.
  - intros o u Hbody. unfold leave_FunctionDef.
    destruct (last (function_body_stack self)) eqn:Hlast.
    + rewrite Hstack, last_snoc. simpl.
      destruct (fd_returns u); eexists; reflexivity.
    + apply last_None in Hlast. contradiction.
  - intros o u. unfold leave_IndentedBlock.
    destruct (last (function_body_stack self)); [| reflexivity].
    destruct (negb _); [reflexivity |].
    rewrite Hstack, last_snoc. reflexivity.
Qed.


(** *** [with] statements *)

Lemma as_bindings_targets (items : list WithItem) :
  length (asname_targets items) = as_bindings items.
Proof.
  unfold asname_targets, as_bindings.
  induction items as [| i items IH]; [reflexivity |].
  cbn. destruct (asname i); cbn; rewrite IH; reflexivity.
Qed.

(** C10. A [with] statement whose items carry no [as] binding, or two or
    more, is returned as it was given, also when its type comment
    decodes. *)
Theorem with_without_single_binding_is_kept (original_node updated_node : With)
    (annotation : ast_expr) :
  _annotation_for_statement (Stmt_With original_node) = Ok (Some annotation) ->
  as_bindings (with_items updated_node) <> 1 ->
  leave_With original_node updated_node = Ok (Updated updated_node).
Proof.
  intros Hann Hcount. unfold leave_With.
  destruct (with_body updated_node); [| reflexivity].
  rewrite Hann. simpl.
  rewrite <- as_bindings_targets in Hcount.
  destruct (asname_targets (with_items updated_node)) as [| t [| t' ts]];
    [reflexivity | | reflexivity].
  simpl in Hcount. congruence.
Qed.

(** *** Function type information *)

Lemma all_args_length (a : ast_arguments) :
  length (all_args a) = parameter_count a.
Proof.
  unfold all_args, parameter_count. rewrite !length_app.
  destruct (vararg a), (kwarg a); simpl; lia.
Qed.


(** *** Quoting *)

Lemma map_imap_pointwise {A B C : Type} (f : nat -> A -> B) (g : B -> C) (h : A -> C)
    (l : list A) :
  (forall i x, g (f i x) = h x) ->
  map g (imap f l) = map h l.
Proof.
  revert f. induction l as [| x l IH]; intros f Hf; [reflexivity |].
  cbn. rewrite Hf. f_equal. apply IH. intros i y. apply Hf.
Qed.

Lemma _convert_annotation_bare_or_quoted (raw : string) :
  bare_or_quoted builtins_dir raw (_convert_annotation raw).
Proof.
  unfold bare_or_quoted, _convert_annotation, _is_builtin, _builtins, quoted.
  case_bool_decide as Hin; rewrite elem_of_list_to_set in Hin; [left | right];
    split; auto.
Qed.

Lemma convert_Assign_inv (node : Assign) (annotation : ast_expr) (c : ConvertedAssign) :
  convert_Assign node annotation = Ok c ->
  (c = FailedToApplyAnnotation /\ zipped_targets node annotation = Raise ArityError)
  \/ (exists binding raw,
         zipped_targets node annotation = Ok [[(binding, raw)]]
         /\ c = Converted_AnnAssign
                  {| ann_target := binding;
                     ann_annotation := _convert_annotation raw;
                     ann_value := Some (assign_value node);
                     ann_semicolon := assign_semicolon node |})
  \/ (exists annotated_targets,
         zipped_targets node annotation = Ok annotated_targets
         /\ (forall pair, annotated_targets <> [[pair]])
         /\ c = Converted_list
                  (map (fun '(binding, raw) =>
                          Small_AnnAssign (type_declaration binding raw))
                       (concat annotated_targets)
                     ++ [Small_Assign node])).
Proof.
  unfold convert_Assign.
  destruct (zipped_targets node annotation) as [ats | e].
  - intros H.
    destruct ats as [| [| [b r] [| p ps]] [| l ls]];
      injection H as <-;
      try (right; right; eexists; split; [reflexivity |];
           split; [intros pair Habs; discriminate Habs | reflexivity]).
    right; left. exists b, r. split; reflexivity.
  - destruct e; intros H; try discriminate H.
    injection H as <-. left. split; reflexivity.
Qed.

(** C6. Every annotation the codemod writes is [_convert_annotation] of a
    raw text: a bare name when the text is one of the built-in names, a
    quoted string literal otherwise. This covers the annotated assignment
    and the type declarations built by [convert_Assign], the declarations
    put before a [for] or a [with], the parameter annotations and the
    return annotation. *)
Theorem annotations_are_bare_builtins_or_quoted :
  (forall raw, bare_or_quoted builtins_dir raw (_convert_annotation raw))
  /\ (forall binding raw,
        bare_or_quoted builtins_dir raw (ann_annotation (type_declaration binding raw)))
  /\ (forall node annotation n,
        convert_Assign node annotation = Ok (Converted_AnnAssign n) ->
        exists raw,
          zipped_targets node annotation = Ok [[(ann_target n, raw)]]
          /\ bare_or_quoted builtins_dir raw (ann_annotation n))
  /\ (forall node annotation l,
        convert_Assign node annotation = Ok (Converted_list l) ->
        exists annotated_targets,
          zipped_targets node annotation = Ok annotated_targets
          /\ l = map (fun '(binding, raw) =>
                        Small_AnnAssign (type_declaration binding raw))
                     (concat annotated_targets)
                   ++ [Small_Assign node])
  /\ (forall bindings annotations leading_lines declarations,
        type_declaration_statements bindings annotations leading_lines
        = Ok declarations ->
        exists pairs,
          annotated_bindings bindings annotations = Ok pairs
          /\ map ssl_body declarations
             = map (fun '(binding, raw) =>
                      [Small_AnnAssign (type_declaration binding raw)]) pairs)
  /\ (forall self original_node updated_node p,
        leave_Param self original_node updated_node = Ok p ->
        p = updated_node
        \/ exists info raw a,
            last (function_type_info_stack self) = Some info
            /\ mjoin (arguments info !! param_name updated_node) = Some raw
            /\ param_annotation updated_node = None
            /\ param_annotation p = Some a
            /\ bare_or_quoted builtins_dir raw a)
  /\ (forall self original_node updated_node self' fd,
        leave_FunctionDef self original_node updated_node = Ok (self', fd) ->
        fd = updated_node
        \/ exists info raw a,
            last (function_type_info_stack self) = Some info
            /\ returns info = Some raw
            /\ fd_returns updated_node = None
            /\ fd_returns fd = Some a
            /\ bare_or_quoted builtins_dir raw a).
Proof.
  repeat apply conj.
  - exact _convert_annotation_bare_or_quoted.
  - intros binding raw. apply _convert_annotation_bare_or_quoted.
  - intros node annotation n H.
    apply convert_Assign_inv in H as [[H _] | [(b & r & Hz & H) | (ats & _ & _ & H)]];
      try discriminate H.
    injection H as ->. exists r. split; [exact Hz |].
    apply _convert_annotation_bare_or_quoted.
  - intros node annotation l H.
    apply convert_Assign_inv in H as [[H _] | [(b & r & _ & H) | (ats & Hz & _ & H)]];
      try discriminate H.
    injection H as ->. exists ats. split; [exact Hz | reflexivity].
  - intros bindings annotations ll declarations H.
    unfold type_declaration_statements in H.
    destruct (annotated_bindings bindings annotations) as [pairs | e];
      [| discriminate H].
    injection H as <-. exists pairs. split; [reflexivity |].
    apply map_imap_pointwise. intros i [b r]. reflexivity.
  - intros self o u p H. unfold leave_Param in H.
    destruct (param_annotation u) eqn:Hann; [injection H as <-; left; reflexivity |].
    destruct (last (function_type_info_stack self)) as [info |] eqn:Hlast;
      [| discriminate H].
    destruct (mjoin (arguments info !! param_name u)) as [raw |] eqn:Hraw;
      injection H as <-; [| left; reflexivity].
    right. exists info, raw, (_convert_annotation raw).
    repeat apply conj; try reflexivity; try assumption.
    apply _convert_annotation_bare_or_quoted.
  - intros self o u self' fd H. unfold leave_FunctionDef in H.
    destruct (last (function_body_stack self)); [| discriminate H].
    destruct (last (function_type_info_stack self)) as [info |] eqn:Hlast;
      [| discriminate H].
    destruct (fd_returns u) eqn:Hret.
    + injection H as _ <-. left. reflexivity.
    + destruct (returns info) as [raw |] eqn:Hraw; injection H as _ <-;
        [| left; reflexivity].
      right. exists info, raw, (_convert_annotation raw).
      repeat apply conj; try reflexivity; try assumption.
      apply _convert_annotation_bare_or_quoted.
Qed.

(** *** What the statement hooks return *)

Lemma leave_SimpleStatementLine_inv (original_node updated_node : SimpleStatementLine)
    (r : Replacement SimpleStatementLine) :
  leave_SimpleStatementLine original_node updated_node = Ok r ->
  r = Updated updated_node
  \/ (exists assign annotation converted,
         last (ssl_body updated_node) = Some (Small_Assign assign)
         /\ convert_Assign assign annotation = Ok (Converted_AnnAssign converted)
         /\ r = Updated
                  {| ssl_leading_lines := ssl_leading_lines updated_node;
                     ssl_body := removelast (ssl_body updated_node)
                                   ++ [Small_AnnAssign converted];
                     ssl_trailing_whitespace :=
                       _strip_TrailingWhitespace
                         (ssl_trailing_whitespace updated_node) |})
  \/ (exists assign annotation converted first rest,
         last (ssl_body updated_node) = Some (Small_Assign assign)
         /\ convert_Assign assign annotation = Ok (Converted_list converted)
         /\ map (fun statement => with_semicolon statement Semicolon_DEFAULT)
                (removelast (ssl_body updated_node)) ++ converted
            = first :: rest
         /\ r = FlattenSentinel
                  (Stmt_SimpleStatementLine
                     {| ssl_leading_lines := ssl_leading_lines updated_node;
                        ssl_body := [first];
                        ssl_trailing_whitespace :=
                          _strip_TrailingWhitespace
                            (ssl_trailing_whitespace updated_node) |}
                   :: map bare_line rest)).
Proof.
  unfold leave_SimpleStatementLine.
  destruct (last (ssl_body updated_node)) as [st |] eqn:Hlast; [| discriminate].
  destruct st as [assign | | | |]; try (intros H; injection H as <-; left; reflexivity).
  destruct (_annotation_for_statement _) as [[annotation |] | e]; simpl;
      try discriminate; try (intros H; injection H as <-; left; reflexivity).
  destruct (convert_Assign assign annotation) as [[| c | converted] | e] eqn:Hconv;
      simpl; try discriminate.
    - intros H; injection H as <-; left; reflexivity.
    - intros H; injection H as <-. right; left.
      exists assign, annotation, c. repeat apply conj; reflexivity || assumption.
    - destruct (map _ _ ++ converted) as [| first [| second rest]] eqn:Hnew;
      try discriminate.
    intros H; injection H as <-. right; right.
    exists assign, annotation, converted, first, (second :: rest).
    repeat apply conj; reflexivity || assumption.
Qed.

Lemma leave_For_inv (original_node updated_node : For) (r : Replacement For) :
  leave_For original_node updated_node = Ok r ->
  r = Updated updated_node
  \/ (exists body annotation type_declarations,
         for_body updated_node = Suite_IndentedBlock body
         /\ type_declaration_statements (unpack_target (for_target updated_node))
              (unpack_annotation annotation) (for_leading_lines updated_node)
            = Ok type_declarations
         /\ r = FlattenSentinel
                  (map Stmt_SimpleStatementLine type_declarations
                     ++ [Stmt_For
                           {| for_leading_lines := [];
                              for_target := for_target updated_node;
                              for_iter := for_iter updated_node;
                              for_body := Suite_IndentedBlock (strip_header body);
                              for_orelse := for_orelse updated_node |}])).
Proof.
  unfold leave_For.
  destruct (for_body updated_node) as [body | b] eqn:Hbody;
    [| intros H; injection H as <-; left; reflexivity].
  destruct (_annotation_for_statement _) as [[annotation |] | e]; simpl;
      try discriminate; try (intros H; injection H as <-; left; reflexivity).
    destruct (type_declaration_statements _ _ _) as [decls | []] eqn:Hdecls;
    try discriminate; intros H; injection H as <-; [| left; reflexivity].
  right. exists body, annotation, decls. repeat apply conj; reflexivity || assumption.
Qed.

Lemma leave_With_inv (original_node updated_node : With) (r : Replacement With) :
  leave_With original_node updated_node = Ok r ->
  r = Updated updated_node
  \/ (exists body annotation target type_declarations,
         with_body updated_node = Suite_IndentedBlock body
         /\ asname_targets (with_items updated_node) = [target]
         /\ type_declaration_statements (unpack_target target)
              (unpack_annotation annotation) (with_leading_lines updated_node)
            = Ok type_declarations
         /\ r = FlattenSentinel
                  (map Stmt_SimpleStatementLine type_declarations
                     ++ [Stmt_With
                           {| with_leading_lines := [];
                              with_items := with_items updated_node;
                              with_body := Suite_IndentedBlock (strip_header body) |}])).
Proof.
  unfold leave_With.
  destruct (with_body updated_node) as [body | b] eqn:Hbody;
    [| intros H; injection H as <-; left; reflexivity].
  destruct (_annotation_for_statement _) as [[annotation |] | e]; simpl;
      try discriminate; try (intros H; injection H as <-; left; reflexivity).
    destruct (asname_targets (with_items updated_node)) as [| target [| t' ts]] eqn:Ht;
    try (intros H; injection H as <-; left; reflexivity).
  destruct (type_declaration_statements _ _ _) as [decls | []] eqn:Hdecls;
    try discriminate; intros H; injection H as <-; [| left; reflexivity].
  right. exists body, annotation, target, decls.
  repeat apply conj; reflexivity || assumption.
Qed.

(** *** The assignment rewrite where it is as specified *)

Lemma unpack_target_not_Tuple (e : BaseExpression) :
  is_Tuple e = false -> unpack_target e = UB_expr e.
Proof. destruct e; simpl; congruence. Qed.

(** One target that is no tuple, with a type that is no tuple: the
    annotated assignment, which keeps the value. *)
Lemma leave_SimpleStatementLine_single_name
    (original_node updated_node : SimpleStatementLine) (node : Assign)
    (annotation : ast_expr) (t : AssignTarget) (raw : string) :
  last (ssl_body updated_node) = Some (Small_Assign node) ->
  _annotation_for_statement (Stmt_SimpleStatementLine original_node)
  = Ok (Some annotation) ->
  targets node = [t] ->
  is_Tuple (target t) = false ->
  is_BaseAssignTargetExpression (target t) = true ->
  unpack_annotation annotation = UA_str raw ->
  leave_SimpleStatementLine original_node updated_node
  = Ok (Updated
          {| ssl_leading_lines := ssl_leading_lines updated_node;
             ssl_body :=
               removelast (ssl_body updated_node)
                 ++ [Small_AnnAssign
                       {| ann_target := target t;
                          ann_annotation := _convert_annotation raw;
                          ann_value := Some (assign_value node);
                          ann_semicolon := assign_semicolon node |}];
             ssl_trailing_whitespace :=
               _strip_TrailingWhitespace (ssl_trailing_whitespace updated_node) |}).
Proof.
  intros Hlast Hann Htargets Htuple Htarget Hraw.
  unfold leave_SimpleStatementLine. rewrite Hlast, Hann. simpl.
  unfold convert_Assign, zipped_targets. rewrite Htargets. simpl.
  rewrite (unpack_target_not_Tuple _ Htuple), Hraw. simpl.
  rewrite Htarget. reflexivity.
Qed.

Lemma convert_Assign_declarations (node : Assign) (annotation : ast_expr)
    (annotated_targets : list (list TargetAnnotationPair)) :
  zipped_targets node annotation = Ok annotated_targets ->
  2 <= length (concat annotated_targets) ->
  convert_Assign node annotation
  = Ok (Converted_list
          (map declaration_of (concat annotated_targets) ++ [Small_Assign node])).
Proof.
  intros Hz Hlen. unfold convert_Assign. rewrite Hz.
  assert (Hmap : forall l : list TargetAnnotationPair,
             map (fun '(binding, raw_annotation) =>
                    Small_AnnAssign (type_declaration binding raw_annotation)) l
             = map declaration_of l).
  { intros l. apply map_ext. intros [b r]. reflexivity. }
  destruct annotated_targets as [| [| [b r] [| p ps]] [| l ls]];
    simpl in Hlen; try lia; rewrite Hmap; reflexivity.
Qed.

(** Two or more leaf bindings, on a line of its own: one declaration per
    leaf, in order, then the assignment, with the type comment removed. *)
Lemma leave_SimpleStatementLine_declarations
    (original_node updated_node : SimpleStatementLine) (node : Assign)
    (annotation : ast_expr) (first : TargetAnnotationPair)
    (others : list TargetAnnotationPair)
    (annotated_targets : list (list TargetAnnotationPair)) :
  ssl_body updated_node = [Small_Assign node] ->
  _annotation_for_statement (Stmt_SimpleStatementLine original_node)
  = Ok (Some annotation) ->
  zipped_targets node annotation = Ok annotated_targets ->
  concat annotated_targets = first :: others ->
  others <> [] ->
  leave_SimpleStatementLine original_node updated_node
  = Ok (FlattenSentinel
          (Stmt_SimpleStatementLine
             {| ssl_leading_lines := ssl_leading_lines updated_node;
                ssl_body := [declaration_of first];
                ssl_trailing_whitespace :=
                  _strip_TrailingWhitespace (ssl_trailing_whitespace updated_node) |}
           :: map bare_line (map declaration_of others)
           ++ [bare_line (Small_Assign node)])).
Proof.
  intros Hbody Hann Hz Hconcat Hothers.
  unfold leave_SimpleStatementLine. rewrite Hbody. simpl. rewrite Hann. simpl.
  rewrite (convert_Assign_declarations node annotation annotated_targets Hz).
  - rewrite Hconcat. simpl.
    destruct others as [| second others]; [contradiction |].
    simpl. rewrite !List.map_app. reflexivity.
  - rewrite Hconcat. destruct others; [contradiction | simpl; lia].
Qed.



End CodemodFacts.

(** ** Node construction *)

Section ParametersFacts.

Import NodeModel.

Lemma existsb_has_default (l : list Param) :
  existsb has_default l = true <-> Exists (fun p => default p <> None) l.
Proof.
  rewrite existsb_exists, Exists_exists. unfold has_default.
  split; intros (p & Hin & Hp); exists p; (split; [| destruct (default p)]);
    try apply list_elem_of_In; try assumption; congruence.
Qed.

Lemma existsb_lacks_default (l : list Param) :
  existsb (fun p => negb (has_default p)) l = true
  <-> Exists (fun p => default p = None) l.
Proof.
  rewrite existsb_exists, Exists_exists. unfold has_default.
  split; intros (p & Hin & Hp); exists p; (split; [| destruct (default p)]);
    try apply list_elem_of_In; try assumption; simpl in *; congruence.
Qed.

Lemma existsb_false_Forall (f : Param -> bool) (l : list Param) :
  existsb f l = false <-> Forall (fun p => f p = false) l.
Proof.
  induction l as [| p l IH]; simpl.
  - split; [constructor | reflexivity].
  - rewrite orb_false_iff, IH, Forall_cons. reflexivity.
Qed.

Lemma forallb_Forall_true {A : Type} (f : A -> bool) (l : list A) :
  forallb f l = true <-> Forall (fun x => f x = true) l.
Proof.
  induction l as [| x l IH]; simpl.
  - split; [constructor | reflexivity].
  - rewrite andb_true_iff, IH, Forall_cons. reflexivity.
Qed.

Lemma no_default_params (l : list Param) :
  existsb has_default l = false <-> Forall (fun p => default p = None) l.
Proof.
  rewrite existsb_false_Forall. apply Forall_proper; [| reflexivity].
  intros p. unfold has_default. destruct (default p); split; congruence.
Qed.

Lemma all_default_params (l : list Param) :
  existsb (fun p => negb (has_default p)) l = false
  <-> Forall (fun p => default p <> None) l.
Proof.
  rewrite existsb_false_Forall. apply Forall_proper; [| reflexivity].
  intros p. unfold has_default. destruct (default p); simpl; split; congruence.
Qed.

Lemma Parameters_validate_well_formed (ps : Parameters) :
  Parameters_validate ps = None <-> well_formed ps.
Proof.
  unfold Parameters_validate, well_formed.
  rewrite <- no_default_params, <- all_default_params, <- forallb_Forall_true.
  destruct (existsb has_default (params ps));
    [split; [discriminate | intros (H & _); discriminate H] |].
  destruct (existsb _ (default_params ps));
    [split; [discriminate | intros (_ & H & _); discriminate H] |].
  destruct (star_arg ps) as [| | sa], (kwonly_params ps) as [| k ks],
           (star_kwarg ps) as [sk |];
    try (split; [discriminate |]; intros (_ & _ & H & _);
         destruct (H eq_refl) as [Habs | Habs]; elim Habs; reflexivity);
    (destruct (forallb (star_is "") _);
       [| split; [discriminate | intros (_ & _ & _ & H & _); discriminate H]]);
    simpl.
  all: repeat match goal with
         | |- context [negb (star_is ?e ?p)] => destruct (star_is e p) eqn:?; simpl
         end.
  all: split; try discriminate; intros H.
  all: try reflexivity.
  all: try (repeat apply conj; try reflexivity; try discriminate;
            try (intros _; first [left; discriminate | right; discriminate]);
            try (intros p' [= <-]; assumption); fail).
  all: destruct H as (_ & _ & _ & _ & Ha & Hk);
    try specialize (Ha _ eq_refl); try specialize (Hk _ eq_refl); congruence.
Qed.

(** The model agrees with every parameter collection of [test_lambda.py]. *)
Example test_lambda_parameters :
  Forall (fun ps => new_Parameters ps = inr ps) Programs.test_valid
  /\ Forall (fun '(ps, message) =>
               new_Parameters ps = inl (mkCSTValidationError message))
        Programs.test_invalid
  /\ new_Param Programs.bar_equal
     = inl (mkCSTValidationError "Must have a default when specifying an AssignEqual.")
  /\ new_Param (Programs.starred "***" None)
     = inl (mkCSTValidationError "Must specify either '', '*' or '**' for star.").
Proof.
  repeat apply conj; try reflexivity; repeat constructor.
Qed.

(** C9. Building a parameter collection fails at once, with the error
    naming the rule, when a plain positional parameter carries a default
    value and when a defaulted positional parameter lacks one; a
    collection that keeps every rule is built, and is the one asked
    for. *)
Theorem parameters_defaults_are_validated (ps : Parameters) :
  (Exists (fun p => default p <> None) (params ps) ->
     new_Parameters ps = inl (mkCSTValidationError "Cannot have defaults for params"))
  /\ (Exists (fun p => default p = None) (default_params ps) ->
      exists e,
        new_Parameters ps = inl e
        /\ (Forall (fun p => default p = None) (params ps) ->
            e = mkCSTValidationError "Must have defaults for default_params"))
  /\ (well_formed ps -> new_Parameters ps = inr ps)
  /\ (forall node, new_Parameters ps = inr node -> node = ps /\ well_formed ps).
Proof.
  unfold new_Parameters. repeat apply conj.
  - intros H. apply existsb_has_default in H.
    unfold Parameters_validate. rewrite H. reflexivity.
  - intros Hd. apply existsb_lacks_default in Hd.
    unfold Parameters_validate. rewrite Hd.
    destruct (existsb has_default (params ps)) eqn:H1.
    + eexists. split; [reflexivity |]. intros Hp.
      apply existsb_has_default, Exists_exists in H1 as (p & Hin & Hdef).
      rewrite Forall_forall in Hp. elim Hdef. apply Hp, Hin.
    + eexists. split; reflexivity.
  - intros Hwf. apply Parameters_validate_well_formed in Hwf. rewrite Hwf.
    reflexivity.
  - intros node H. destruct (Parameters_validate ps) eqn:Hv; [discriminate H |].
    injection H as <-. split; [reflexivity |].
    apply Parameters_validate_well_formed, Hv.
Qed.

End ParametersFacts.

(* ===================================================================== *)
(** * The codemod on the example programs *)
(* ===================================================================== *)

Section OnPrograms.

Import Programs.

#[local] Existing Instance SamplePython.python.

(** [x = 1  # type: int] becomes [x: int = 1]. *)
Example single_target :
  transform_module (module_of [Stmt_SimpleStatementLine x_int])
  = Ok (module_of
          [Stmt_SimpleStatementLine
             {| ssl_leading_lines := [];
                ssl_body :=
                  [Small_AnnAssign
                     {| ann_target := Name "x";
                        ann_annotation := mkAnnotation (Name "int");
                        ann_value := Some (Integer "1");
                        ann_semicolon := Semicolon_DEFAULT |}];
                ssl_trailing_whitespace := stripped |}]).
Proof. vm_compute. reflexivity. Qed.

(** [x, y = 1, 2  # type: int, str] becomes [x: int], [y: str] and
    [x, y = 1, 2]. *)
Example tuple_target :
  transform_module (module_of [Stmt_SimpleStatementLine xy_int_str])
  = Ok (module_of
          [Stmt_SimpleStatementLine
             {| ssl_leading_lines := [];
                ssl_body := [declaration "x" "int"];
                ssl_trailing_whitespace := stripped |};
           bare_line (declaration "y" "str");
           bare_line (Small_Assign (assign [Tuple [Name "x"; Name "y"]] one_two))]).
Proof. vm_compute. reflexivity. Qed.

(** [x = y = 1, 2  # type: int, int] is kept. *)
Example arity_mismatch :
  transform_module (module_of [Stmt_SimpleStatementLine x_y_int_int])
  = Ok (module_of [Stmt_SimpleStatementLine x_y_int_int]).
Proof. vm_compute. reflexivity. Qed.

(** A type that is no built-in name is quoted. *)
Example quoted_type :
  leave_SimpleStatementLine x_Foo x_Foo
  = Ok (Updated
          {| ssl_leading_lines := [];
             ssl_body :=
               [Small_AnnAssign
                  {| ann_target := Name "x";
                     ann_annotation := mkAnnotation (SimpleString (quoted "Foo"));
                     ann_value := Some (Integer "1");
                     ann_semicolon := Semicolon_DEFAULT |}];
             ssl_trailing_whitespace := stripped |}).
Proof. vm_compute. reflexivity. Qed.

(** [for x, y in z:  # type: int, str] gets the declarations [x: int] and
    [y: str] before it and loses the comment. *)
Example for_loop :
  transform_module (module_of [Stmt_For for_two_two])
  = Ok (module_of
          [bare_line (declaration "x" "int");
           bare_line (declaration "y" "str");
           Stmt_For
             {| for_leading_lines := []; for_target := Tuple [Name "x"; Name "y"];
                for_iter := Name "z";
                for_body := block 0 stripped [pass_line];
                for_orelse := None |}]).
Proof. vm_compute. reflexivity. Qed.

(** [for x, y in z:  # type: int] is kept. *)
Example for_loop_arity_mismatch :
  transform_module (module_of [Stmt_For for_two_one])
  = Ok (module_of [Stmt_For for_two_one]).
Proof. vm_compute. reflexivity. Qed.

(** [def f(x):  # type: (...) -> str] gets the return annotation only. *)
Example function_ellipsis_form :
  transform_module (module_of [Stmt_FunctionDef ellipsis_form])
  = Ok (module_of
          [Stmt_FunctionDef
             {| fd_leading_lines := []; fd_name := "f";
                fd_params := positional [plain_param "x" None Comma_DEFAULT];
                fd_returns := Some (mkAnnotation (Name "str"));
                fd_body := block 0 TrailingWhitespace_default [pass_line] |}]).
Proof. vm_compute. reflexivity. Qed.

(** [def f(x):  # type: (List[) -> str] is kept. *)
Example function_malformed_comment :
  transform_module (module_of [Stmt_FunctionDef malformed_function_comment])
  = Ok (module_of [Stmt_FunctionDef malformed_function_comment]).
Proof. vm_compute. reflexivity. Qed.

(** [def f(x, y):  # type: (int) -> str] is kept. *)
Example function_arity_mismatch :
  transform_module (module_of [Stmt_FunctionDef one_type_two_params])
  = Ok (module_of [Stmt_FunctionDef one_type_two_params]).
Proof. vm_compute. reflexivity. Qed.

(** C2, where the code departs from it. The target of
    [x, = [1]  # type: int,] is a tuple of one name and its type a tuple of
    one type: the line should become the declaration [x: int] followed by
    [x, = [1]]. The code counts one target and one pair and writes
    [x: int = [1]], which binds [x] to the list. With no name at all,
    [() = ()  # type: ()], it raises the error it calls unreachable. *)
Theorem tuple_of_one_becomes_annotated_name :
  transform_module (module_of [Stmt_SimpleStatementLine x_comma])
  = Ok (module_of
          [Stmt_SimpleStatementLine
             {| ssl_leading_lines := [];
                ssl_body :=
                  [Small_AnnAssign
                     {| ann_target := Name "x";
                        ann_annotation := mkAnnotation (Name "int");
                        ann_value := Some (List_ [Integer "1"]);
                        ann_semicolon := Semicolon_DEFAULT |}];
                ssl_trailing_whitespace := stripped |}])
  /\ transform_module (module_of [Stmt_SimpleStatementLine empty_tuple])
     = Raise (RuntimeError "Unreachable code.").
Proof. split; vm_compute; reflexivity. Qed.




(** C8, where the code departs from it. The function type comment sits on
    the line before the first statement of the body, which is an
    assignment with its own type comment. The first pass converts the
    function and leaves the assignment; the second pass converts the
    assignment. *)
Theorem second_pass_rewrites_again :
  transform_module first_statement_typed = Ok after_one_pass
  /\ transform_module after_one_pass = Ok after_two_passes
  /\ after_one_pass <> after_two_passes.
Proof.
  repeat apply conj; try (vm_compute; reflexivity).
  intros H. discriminate H.
Qed.

(** ** The theorems at work *)



Lemma annotations_are_bare_builtins_or_quoted_witness :
  _convert_annotation "int" = mkAnnotation (Name "int")
  /\ _convert_annotation "Foo" = mkAnnotation (SimpleString (quoted "Foo")).
Proof.
  destruct (annotations_are_bare_builtins_or_quoted (py := SamplePython.python))
    as (H & _).
  split.
  - destruct (H "int") as [[_ Hbare] | [Hout _]]; [exact Hbare |].
    elim Hout. apply (bool_decide_unpack _). vm_compute. exact I.
  - destruct (H "Foo") as [[Hin _] | [_ Hquoted]]; [| exact Hquoted].
    apply (bool_decide_pack _) in Hin. vm_compute in Hin. elim Hin.
Defined.


Lemma parameters_defaults_are_validated_witness :
  NodeModel.new_Parameters (lambda_parameters [bar_one] [])
  = inl (NodeModel.mkCSTValidationError "Cannot have defaults for params")
  /\ NodeModel.new_Parameters (lambda_parameters [] [bar])
     = inl (NodeModel.mkCSTValidationError "Must have defaults for default_params")
  /\ NodeModel.new_Parameters (lambda_parameters [bar] [baz_five])
     = inr (lambda_parameters [bar] [baz_five]).
Proof.
  repeat apply conj.
  - destruct (parameters_defaults_are_validated (lambda_parameters [bar_one] []))
      as (H & _).
    apply H. apply Exists_cons_hd. discriminate.
  - destruct (parameters_defaults_are_validated (lambda_parameters [] [bar]))
      as (_ & H & _).
    destruct H as (e & -> & He); [apply Exists_cons_hd; reflexivity |].
    rewrite He; [reflexivity | constructor].
  - destruct (parameters_defaults_are_validated (lambda_parameters [bar] [baz_five]))
      as (_ & _ & H & _).
    apply H. unfold NodeModel.well_formed. simpl.
    repeat apply conj; try discriminate;
      repeat constructor; discriminate.
Defined.

Lemma with_without_single_binding_is_kept_witness :
  (as_bindings (with_items with_two_bindings) <> 1
   /\ leave_With with_two_bindings with_two_bindings = Ok (Updated with_two_bindings))
  /\ (as_bindings (with_items with_no_binding) <> 1
      /\ leave_With with_no_binding with_no_binding = Ok (Updated with_no_binding)).
Proof.
  split; (split; [vm_compute; discriminate |]).
  - apply (with_without_single_binding_is_kept (py := SamplePython.python)
             with_two_bindings with_two_bindings (ast_Name "int")).
    + vm_compute. reflexivity.
    + vm_compute. discriminate.
  - apply (with_without_single_binding_is_kept (py := SamplePython.python)
             with_no_binding with_no_binding (ast_Name "int")).
    + vm_compute. reflexivity.
    + vm_compute. discriminate.
Defined.

End OnPrograms.

(* ===================================================================== *)
(** * Further properties of the codemod *)
(* ===================================================================== *)

(** ** Shape zipping, in full *)

Lemma zip_map_fst_snd {A B : Type} (l : list (A * B)) :
  zip (map fst l) (map snd l) = l.
Proof.
  induction l as [| [a b] l IH]; [reflexivity |]. cbn. f_equal. exact IH.
Qed.

Lemma zipped_bindings_cases (anns : list UnpackedAnnotations) :
  Forall (fun a => forall b, annotated_bindings_case b a) anns ->
  forall binds : list UnpackedBindings,
    length binds = length anns ->
    match zipped_bindings binds anns with
    | Ok pairs =>
        forallb (fun ba => shapes_match ba.1 ba.2) (zip binds anns) = true
        /\ bindable (UB_list binds)
        /\ map fst pairs = concat (map binding_leaves binds)
        /\ map snd pairs = concat (map annotation_leaves anns)
    | Raise ArityError =>
        forallb (fun ba => shapes_match ba.1 ba.2) (zip binds anns) = false
    | Raise AssertionError => ~ bindable (UB_list binds)
    | Raise _ => False
    end.
Proof.
  induction 1 as [| a anns Ha _ IH]; intros [| b binds] Hlen; try discriminate.
  - simpl. repeat split. constructor.
  - injection Hlen as Hlen. specialize (Ha b). specialize (IH binds Hlen).
    unfold annotated_bindings_case in Ha.
    cbn [zip zip_with forallb fst snd zipped_bindings map concat].
    destruct (annotated_bindings b a) as [pairs | e].
    + destruct Ha as (Hm & Hb & Hfst & Hsnd). rewrite Hm. simpl.
      destruct (zipped_bindings binds anns) as [out | e].
      * destruct IH as (Hall & Hbs & Hfst' & Hsnd'). simpl.
        unfold TargetAnnotationPair in *.
        rewrite !List.map_app, Hfst, Hsnd, Hfst', Hsnd'.
        repeat apply conj; try reflexivity; try assumption.
        unfold bindable in *. simpl. apply Forall_app. split; assumption.
      * simpl. destruct e; try exact IH.
        intros Hbad. apply bindable_list_inv in Hbad as [_ Hbad]. exact (IH Hbad).
    + simpl. destruct e; try exact Ha.
      * rewrite Ha. reflexivity.
      * intros Hbad. apply bindable_list_inv in Hbad as [Hbad _]. exact (Ha Hbad).
Qed.

Lemma annotated_bindings_cases (a : UnpackedAnnotations) :
  forall b, annotated_bindings_case b a.
Proof.
  induction a as [s | anns IH] using UnpackedAnnotations_rect'; intros b;
    unfold annotated_bindings_case.
  - destruct b as [e | l]; simpl; [| reflexivity].
    destruct (is_BaseAssignTargetExpression e) eqn:He.
    + repeat apply conj; try reflexivity.
      unfold bindable. simpl. constructor; [exact He | constructor].
    + unfold bindable. simpl. intros Hb. apply Forall_cons in Hb as [Hb _]. congruence.
  - destruct b as [e | binds]; [reflexivity |].
    rewrite shapes_match_lists, annotated_bindings_lists.
    destruct (length binds =? length anns) eqn:Hlen; [| reflexivity].
    apply Nat.eqb_eq in Hlen. simpl.
    exact (zipped_bindings_cases anns IH binds Hlen).
Qed.

Lemma annotated_bindings_Ok (b : UnpackedBindings) (a : UnpackedAnnotations)
    (pairs : list TargetAnnotationPair) :
  annotated_bindings b a = Ok pairs ->
  shapes_match b a = true /\ bindable b /\ pairs = leaf_pairs b a.
Proof.
  intros H. pose proof (annotated_bindings_cases a b) as Hc.
  unfold annotated_bindings_case in Hc. rewrite H in Hc.
  destruct Hc as (Hm & Hb & Hfst & Hsnd).
  repeat apply conj; try assumption.
  unfold leaf_pairs. rewrite <- Hfst, <- Hsnd. symmetry. apply zip_map_fst_snd.
Qed.

Lemma annotated_bindings_matching (b : UnpackedBindings) (a : UnpackedAnnotations) :
  bindable b -> shapes_match b a = true ->
  annotated_bindings b a = Ok (leaf_pairs b a).
Proof.
  intros Hb Hm. pose proof (annotated_bindings_shapes a b Hb) as H.
  rewrite Hm in H. destruct H as (pairs & Hp & _).
  rewrite Hp. f_equal. apply annotated_bindings_Ok in Hp as (_ & _ & ->). reflexivity.
Qed.

Lemma shapes_match_leaves (a : UnpackedAnnotations) :
  forall b, shapes_match b a = true ->
            length (binding_leaves b) = length (annotation_leaves a).
Proof.
  induction a as [s | anns IH] using UnpackedAnnotations_rect'; intros b Hm.
  - destruct b; [reflexivity | discriminate].
  - destruct b as [e | binds]; [discriminate |].
    rewrite shapes_match_lists in Hm. apply andb_true_iff in Hm as [Hlen Hall].
    apply Nat.eqb_eq in Hlen. simpl.
    revert binds Hlen Hall. induction IH as [| a anns Ha _ IHl];
      intros [| b binds] Hlen Hall; try discriminate; [reflexivity |].
    cbn in Hall. apply andb_true_iff in Hall as [Hm Hall].
    cbn. rewrite !length_app. rewrite (Ha b Hm).
    f_equal. apply IHl; [simpl in Hlen; lia | exact Hall].
Qed.

(** X1. [annotated_bindings] has three outcomes and no other. It returns
    the leaves of the binding shape zipped in order with the leaves of the
    annotation shape, and then the shapes match, every leaf is an
    assignment target and there are as many of one as of the other; it
    raises the arity error, and then the shapes do not match; or its
    assertion fails, and then some leaf is no assignment target. *)
Theorem annotated_bindings_outcome (b : UnpackedBindings) (a : UnpackedAnnotations) :
  match annotated_bindings b a with
  | Ok pairs =>
      shapes_match b a = true /\ bindable b /\ pairs = leaf_pairs b a
      /\ length (binding_leaves b) = length (annotation_leaves a)
  | Raise ArityError => shapes_match b a = false
  | Raise AssertionError => ~ bindable b
  | Raise _ => False
  end.
Proof.
  pose proof (annotated_bindings_cases a b) as Hc. unfold annotated_bindings_case in Hc.
  destruct (annotated_bindings b a) as [pairs | e] eqn:H; [| exact Hc].
  apply annotated_bindings_Ok in H as (Hm & Hb & Hp).
  repeat apply conj; try assumption. apply shapes_match_leaves. exact Hm.
Qed.

Lemma unpack_target_leaves (e : BaseExpression) :
  Forall (fun x => is_Tuple x = false) (binding_leaves (unpack_target e)).
Proof.
  revert e. fix IH 1. intros e.
  destruct e as [v | v a | v s | elements | elements | v | v | v | f args | ps body];
    try (simpl; constructor; [reflexivity | constructor]).
  simpl. induction elements as [| x elements IHl]; simpl; [constructor |].
  apply Forall_app. split; [apply IH | exact IHl].
Qed.

(** X2. A pair that [annotated_bindings] returns for an unpacked target
    never has a tuple as its target: [unpack_target] takes tuples apart at
    every depth, so every declaration is about one assignment target. *)
Theorem declared_targets_are_never_tuples (e : BaseExpression)
    (a : UnpackedAnnotations) (pairs : list TargetAnnotationPair) :
  annotated_bindings (unpack_target e) a = Ok pairs ->
  Forall (fun pair => is_Tuple pair.1 = false
                      /\ is_BaseAssignTargetExpression pair.1 = true) pairs.
Proof.
  intros H. apply annotated_bindings_Ok in H as (Hm & Hb & ->).
  unfold leaf_pairs. unfold bindable in Hb.
  pose proof (unpack_target_leaves e) as Hl.
  revert Hb Hl. generalize (binding_leaves (unpack_target e)) as bl.
  generalize (annotation_leaves a) as al.
  intros al bl. revert al. induction bl as [| x bl IH]; intros [| y al] Hb Hl;
    try constructor.
  - apply Forall_cons in Hb as [Hx _]. apply Forall_cons in Hl as [Hx' _].
    simpl. split; assumption.
  - apply Forall_cons in Hb as [_ Hb]. apply Forall_cons in Hl as [_ Hl].
    apply IH; assumption.
Qed.

Section FurtherCodemodFacts.

Context {py : PythonAst}.

(** *** The zipping of assignments, loops and [with] statements *)

Lemma zipped_targets_cases (node : Assign) (annotation : ast_expr) :
  match zipped_targets node annotation with
  | Ok annotated_targets =>
      Forall (fun t => bindable (unpack_target (target t))
                       /\ shapes_match (unpack_target (target t))
                            (unpack_annotation annotation) = true) (targets node)
      /\ annotated_targets
         = map (fun t => leaf_pairs (unpack_target (target t))
                           (unpack_annotation annotation)) (targets node)
      /\ length (concat annotated_targets)
         = length (targets node)
           * length (annotation_leaves (unpack_annotation annotation))
  | Raise ArityError =>
      Exists (fun t => shapes_match (unpack_target (target t))
                         (unpack_annotation annotation) = false) (targets node)
  | Raise AssertionError =>
      Exists (fun t => ~ bindable (unpack_target (target t))) (targets node)
  | Raise _ => False
  end.
Proof.
  unfold zipped_targets. generalize (targets node) as ts.
  induction ts as [| t ts IH]; simpl.
  - repeat split. constructor.
  - pose proof (annotated_bindings_cases (unpack_annotation annotation)
                  (unpack_target (target t))) as Ht.
    unfold annotated_bindings_case in Ht.
    destruct (annotated_bindings _ _) as [pairs | e] eqn:Hp; simpl.
    + apply annotated_bindings_Ok in Hp as (Hm & Hb & ->). clear Ht.
      pose proof (shapes_match_leaves _ _ Hm) as Hlen.
      destruct (result_map _ ts) as [out | e]; simpl.
      * destruct IH as (Hall & -> & Hcount). repeat apply conj.
        -- constructor; [split; assumption | exact Hall].
        -- reflexivity.
        -- rewrite length_app, Hcount. unfold leaf_pairs at 1.
           rewrite length_zip_with, Hlen. lia.
      * destruct e; try exact IH; apply Exists_cons_tl; exact IH.
    + destruct e; try exact Ht; apply Exists_cons_hd; exact Ht.
Qed.


Lemma declaration_lines_eq (leading_lines : list EmptyLine)
    (pairs : list TargetAnnotationPair) :
  imap (fun i '(binding, raw_annotation) =>
          {| ssl_leading_lines := if i =? 0 then leading_lines else [];
             ssl_body := [Small_AnnAssign (type_declaration binding raw_annotation)];
             ssl_trailing_whitespace := TrailingWhitespace_default |})
       pairs
  = declaration_lines leading_lines pairs.
Proof.
  unfold declaration_lines. apply imap_ext. intros i [b r] _. reflexivity.
Qed.

Lemma type_declaration_statements_matching (bindings : UnpackedBindings)
    (annotations : UnpackedAnnotations) (leading_lines : list EmptyLine) :
  bindable bindings -> shapes_match bindings annotations = true ->
  type_declaration_statements bindings annotations leading_lines
  = Ok (declaration_lines leading_lines (leaf_pairs bindings annotations)).
Proof.
  intros Hb Hm. unfold type_declaration_statements.
  rewrite (annotated_bindings_matching _ _ Hb Hm). simpl.
  rewrite declaration_lines_eq. reflexivity.
Qed.

Lemma imap_no_leading_lines {A : Type} (f : nat -> A -> SimpleStatementLine)
    (l : list A) :
  (forall i x, ssl_leading_lines (f i x) = []) ->
  concat (map ssl_leading_lines (imap f l)) = [].
Proof.
  revert f. induction l as [| x l IH]; intros f Hf; [reflexivity |].
  cbn. rewrite Hf. simpl. apply IH. intros i y. apply Hf.
Qed.

Lemma declaration_lines_leading_lines (leading_lines : list EmptyLine)
    (pairs : list TargetAnnotationPair) :
  concat (map ssl_leading_lines (declaration_lines leading_lines pairs))
  = match pairs with [] => [] | _ :: _ => leading_lines end.
Proof.
  unfold declaration_lines. destruct pairs as [| p pairs]; [reflexivity |].
  cbn. rewrite imap_no_leading_lines by reflexivity. apply app_nil_r.
Qed.

Lemma declaration_lines_length (leading_lines : list EmptyLine)
    (pairs : list TargetAnnotationPair) :
  length (declaration_lines leading_lines pairs) = length pairs.
Proof. unfold declaration_lines. apply length_imap. Qed.

(** X4. A [for] with an indented body whose target matches the type of its
    comment is replaced by one declaration per leaf of the target, in
    order, followed by the loop. The loop keeps its target, iterable, body
    statements and [else]; the comment and the whitespace before it leave
    the header and the line break stays. The lines before the loop go to
    the first declaration; with no leaf to declare they are dropped. *)
Theorem leave_For_rewrite (original_node updated_node : For) (annotation : ast_expr)
    (body : IndentedBlock) :
  for_body updated_node = Suite_IndentedBlock body ->
  _annotation_for_statement (Stmt_For original_node) = Ok (Some annotation) ->
  bindable (unpack_target (for_target updated_node)) ->
  shapes_match (unpack_target (for_target updated_node))
    (unpack_annotation annotation) = true ->
  let pairs := leaf_pairs (unpack_target (for_target updated_node))
                 (unpack_annotation annotation) in
  let declarations := declaration_lines (for_leading_lines updated_node) pairs in
  leave_For original_node updated_node
  = Ok (FlattenSentinel
          (map Stmt_SimpleStatementLine declarations
             ++ [Stmt_For
                   {| for_leading_lines := [];
                      for_target := for_target updated_node;
                      for_iter := for_iter updated_node;
                      for_body :=
                        Suite_IndentedBlock
                          {| ib_id := ib_id body;
                             ib_header :=
                               {| tw_whitespace := ""; tw_comment := None;
                                  tw_newline := tw_newline (ib_header body) |};
                             ib_body := ib_body body |};
                      for_orelse := for_orelse updated_node |}]))
  /\ length declarations = length (binding_leaves (unpack_target (for_target updated_node)))
  /\ concat (map ssl_leading_lines declarations)
     = match pairs with [] => [] | _ :: _ => for_leading_lines updated_node end.
Proof.
  intros Hbody Hann Hb Hm pairs declarations. repeat apply conj.
  - unfold leave_For. rewrite Hbody, Hann. simpl.
    rewrite (type_declaration_statements_matching _ _ _ Hb Hm). reflexivity.
  - unfold declarations. rewrite declaration_lines_length. unfold pairs, leaf_pairs.
    rewrite length_zip_with, (shapes_match_leaves _ _ Hm). lia.
  - apply declaration_lines_leading_lines.
Qed.

(** X5. A [with] with an indented body and exactly one [as] binding, items
    without [as] not counted, whose target matches the type of its comment
    is replaced by one declaration per leaf of the target, in order,
    followed by the statement with the comment taken off its header and
    its items as they were. The lines before it go to the first
    declaration; with no leaf to declare they are dropped. *)
Theorem leave_With_rewrite (original_node updated_node : With) (annotation : ast_expr)
    (body : IndentedBlock) (target : BaseExpression) :
  with_body updated_node = Suite_IndentedBlock body ->
  _annotation_for_statement (Stmt_With original_node) = Ok (Some annotation) ->
  asname_targets (with_items updated_node) = [target] ->
  bindable (unpack_target target) ->
  shapes_match (unpack_target target) (unpack_annotation annotation) = true ->
  let pairs := leaf_pairs (unpack_target target) (unpack_annotation annotation) in
  let declarations := declaration_lines (with_leading_lines updated_node) pairs in
  leave_With original_node updated_node
  = Ok (FlattenSentinel
          (map Stmt_SimpleStatementLine declarations
             ++ [Stmt_With
                   {| with_leading_lines := [];
                      with_items := with_items updated_node;
                      with_body :=
                        Suite_IndentedBlock
                          {| ib_id := ib_id body;
                             ib_header :=
                               {| tw_whitespace := ""; tw_comment := None;
                                  tw_newline := tw_newline (ib_header body) |};
                             ib_body := ib_body body |} |}]))
  /\ length declarations = length (binding_leaves (unpack_target target))
  /\ concat (map ssl_leading_lines declarations)
     = match pairs with [] => [] | _ :: _ => with_leading_lines updated_node end.
Proof.
  intros Hbody Hann Htarget Hb Hm pairs declarations. repeat apply conj.
  - unfold leave_With. rewrite Hbody, Hann. simpl. rewrite Htarget.
    rewrite (type_declaration_statements_matching _ _ _ Hb Hm). reflexivity.
  - unfold declarations. rewrite declaration_lines_length. unfold pairs, leaf_pairs.
    rewrite length_zip_with, (shapes_match_leaves _ _ Hm). lia.
  - apply declaration_lines_leading_lines.
Qed.

(** *** Lines that are spread *)

Lemma map_declaration_of (l : list TargetAnnotationPair) :
  map (fun '(binding, raw_annotation) =>
         Small_AnnAssign (type_declaration binding raw_annotation)) l
  = map declaration_of l.
Proof. apply map_ext. intros [b r]. reflexivity. Qed.

Lemma last_removelast_nil {A : Type} (l : list A) (x : A) :
  last l = Some x -> removelast l = [] -> l = [x].
Proof.
  destruct l as [| a [| b l]]; simpl; try discriminate.
  - intros H _. injection H as ->. reflexivity.
Qed.

Lemma length_removelast_last {A : Type} (l : list A) (x : A) :
  last l = Some x -> S (length (removelast l)) = length l.
Proof.
  revert x. induction l as [| a l IH]; intros x H; [discriminate |].
  destruct l as [| b l]; [reflexivity |].
  cbn [removelast length]. f_equal. apply (IH x). exact H.
Qed.

(** X6. When the hook of a line returns several statements, they are, one
    to a line: the statements before the assignment with their semicolon
    reset, a declaration for every leaf of every target, and the
    assignment itself. The first line keeps the lines before it and the
    line break, without the type comment; the others are bare. There are
    as many lines as the line had statements plus declarations, at least
    two. *)
Theorem leave_SimpleStatementLine_spreads
    (original_node updated_node : SimpleStatementLine) (nodes : list BaseStatement) :
  leave_SimpleStatementLine original_node updated_node = Ok (FlattenSentinel nodes) ->
  exists assign annotation first rest,
    last (ssl_body updated_node) = Some (Small_Assign assign)
    /\ _annotation_for_statement (Stmt_SimpleStatementLine original_node)
       = Ok (Some annotation)
    /\ map (fun statement => with_semicolon statement Semicolon_DEFAULT)
           (removelast (ssl_body updated_node))
         ++ map declaration_of (target_pairs assign annotation)
         ++ [Small_Assign assign]
       = first :: rest
    /\ nodes
       = Stmt_SimpleStatementLine
           {| ssl_leading_lines := ssl_leading_lines updated_node;
              ssl_body := [first];
              ssl_trailing_whitespace :=
                {| tw_whitespace := ""; tw_comment := None;
                   tw_newline := tw_newline (ssl_trailing_whitespace updated_node) |} |}
         :: map bare_line rest
    /\ length nodes
       = length (ssl_body updated_node) + length (target_pairs assign annotation)
    /\ 2 <= length nodes.
Proof.
  unfold leave_SimpleStatementLine.
  destruct (last (ssl_body updated_node)) as [st |] eqn:Hlast; [| discriminate].
  destruct st as [assign | | | |]; try discriminate.
  destruct (_annotation_for_statement _) as [[annotation |] | e]; simpl;
    try discriminate.
  destruct (convert_Assign assign annotation) as [[| c | converted] | e] eqn:Hconv;
    simpl; try discriminate.
  apply convert_Assign_inv in Hconv
    as [[? _] | [(b & raw & _ & ?) | (ats & Hz & _ & Hc)]]; try discriminate.
  injection Hc as ->. rewrite map_declaration_of.
  pose proof (zipped_targets_cases assign annotation) as Hout.
  rewrite Hz in Hout. destruct Hout as (_ & -> & _).
  fold (target_pairs assign annotation).
  destruct (map _ (removelast (ssl_body updated_node)) ++ _)
    as [| first [| second rest]] eqn:Hnew; try discriminate.
  intros H. injection H as <-.
  exists assign, annotation, first, (second :: rest).
  assert (Hlen : S (S (length rest))
                 = length (ssl_body updated_node)
                   + length (target_pairs assign annotation)).
  { apply (f_equal (@length _)) in Hnew.
    rewrite !length_app, !length_map in Hnew. simpl in Hnew.
    rewrite <- (length_removelast_last _ _ Hlast). lia. }
  repeat apply conj; try reflexivity.
  - exact Hnew.
  - cbn [length]. rewrite length_map. exact Hlen.
  - cbn [length]. lia.
Qed.

(** *** Type comments and rewrites *)






(** *** The exceptions of a hook *)

Lemma _annotation_for_statement_raises (node : BaseStatement) (e : PyException) :
  _annotation_for_statement node = Raise e ->
  e = SyntaxError /\ _ast_for_statement node = Raise SyntaxError.
Proof.
  unfold _annotation_for_statement, _ast_for_statement.
  destruct (ast_parse_statement true node); [discriminate |].
  destruct (ast_parse_statement false node); [discriminate |].
  simpl. intros H. injection H as <-. split; reflexivity.
Qed.

Lemma convert_Assign_raises (node : Assign) (annotation : ast_expr) (e : PyException) :
  convert_Assign node annotation = Raise e ->
  e = AssertionError
  /\ Exists (fun t => ~ bindable (unpack_target (target t))) (targets node).
Proof.
  unfold convert_Assign.
  pose proof (zipped_targets_cases node annotation) as Hout.
  destruct (zipped_targets node annotation) as [ats | e'].
  - destruct ats as [| [| [b r] [| p ps]] [| l ls]]; discriminate.
  - destruct e'; try discriminate; try contradiction.
    intros H. injection H as <-. split; [reflexivity | exact Hout].
Qed.

(** X3. What [convert_Assign] returns tells how the targets met the type.
    It fails to apply the annotation only when some target does not match
    the type. It returns an annotated assignment only for one target with
    one leaf, whose annotation is the converted type and whose value and
    semicolon are those of the assignment. It returns a list only when
    every target is bindable and matches: one declaration for every leaf
    of every target, target by target, and then the assignment itself, so
    targets times leaves of the type plus one statements. It raises only
    the failed assertion, when some target has a leaf that is no
    assignment target. *)
Theorem convert_Assign_outcome (node : Assign) (annotation : ast_expr) :
  match convert_Assign node annotation with
  | Ok FailedToApplyAnnotation =>
      Exists (fun t => shapes_match (unpack_target (target t))
                         (unpack_annotation annotation) = false) (targets node)
  | Ok (Converted_AnnAssign converted) =>
      exists t raw,
        targets node = [t]
        /\ bindable (unpack_target (target t))
        /\ leaf_pairs (unpack_target (target t)) (unpack_annotation annotation)
           = [(ann_target converted, raw)]
        /\ ann_annotation converted = _convert_annotation raw
        /\ ann_value converted = Some (assign_value node)
        /\ ann_semicolon converted = assign_semicolon node
  | Ok (Converted_list converted) =>
      Forall (fun t => bindable (unpack_target (target t))
                       /\ shapes_match (unpack_target (target t))
                            (unpack_annotation annotation) = true) (targets node)
      /\ converted
         = map declaration_of (target_pairs node annotation) ++ [Small_Assign node]
      /\ length converted
         = length (targets node)
           * length (annotation_leaves (unpack_annotation annotation)) + 1
  | Raise e =>
      e = AssertionError
      /\ Exists (fun t => ~ bindable (unpack_target (target t))) (targets node)
  end.
Proof.
  pose proof (zipped_targets_cases node annotation) as Hz.
  destruct (convert_Assign node annotation) as [c | e] eqn:Hc.
  - apply convert_Assign_inv in Hc
      as [[-> Hr] | [(b & raw & Hr & ->) | (ats & Hr & _ & ->)]];
      rewrite Hr in Hz.
    + exact Hz.
    + destruct Hz as (Hall & Hats & _).
      destruct (targets node) as [| t [| t' ts]]; try discriminate.
      injection Hats as Hats. apply Forall_cons in Hall as [[Hb _] _].
      exists t, raw. repeat apply conj; try reflexivity; [exact Hb |].
      symmetry. exact Hats.
    + destruct Hz as (Hall & -> & Hlen).
      rewrite map_declaration_of. fold (target_pairs node annotation).
      repeat apply conj; [exact Hall | reflexivity |].
      rewrite length_app, length_map. unfold target_pairs.
      rewrite Hlen. reflexivity.
  - apply convert_Assign_raises in Hc. exact Hc.
Qed.

Lemma no_leaf_targets (node : Assign) (annotation : ast_expr) :
  Forall (fun t => shapes_match (unpack_target (target t))
                     (unpack_annotation annotation) = true
                   /\ binding_leaves (unpack_target (target t)) = [])
    (targets node) ->
  zipped_targets node annotation = Ok (map (fun _ => []) (targets node)).
Proof.
  unfold zipped_targets. generalize (targets node) as ts.
  induction 1 as [| t ts [Hm Hl] _ IH]; [reflexivity |].
  simpl. rewrite annotated_bindings_matching; [| | exact Hm].
  - rewrite IH. simpl. unfold leaf_pairs. rewrite Hl. reflexivity.
  - unfold bindable. rewrite Hl. constructor.
Qed.

Lemma concat_map_nil {A B : Type} (l : list A) :
  concat (map (fun _ => @nil B) l) = [].
Proof. induction l; [reflexivity | exact IHl]. Qed.

Lemma leave_SimpleStatementLine_raises
    (original_node updated_node : SimpleStatementLine) (e : PyException) :
  leave_SimpleStatementLine original_node updated_node = Raise e ->
  (e = IndexError /\ ssl_body updated_node = [])
  \/ (e = SyntaxError
      /\ _ast_for_statement (Stmt_SimpleStatementLine original_node) = Raise SyntaxError)
  \/ (e = AssertionError
      /\ exists assign,
          last (ssl_body updated_node) = Some (Small_Assign assign)
          /\ Exists (fun t => ~ bindable (unpack_target (target t))) (targets assign))
  \/ (e = RuntimeError "Unreachable code."
      /\ exists assign annotation,
          ssl_body updated_node = [Small_Assign assign]
          /\ _annotation_for_statement (Stmt_SimpleStatementLine original_node)
             = Ok (Some annotation)
          /\ Forall (fun t => shapes_match (unpack_target (target t))
                                (unpack_annotation annotation) = true
                              /\ binding_leaves (unpack_target (target t)) = [])
               (targets assign)).
Proof.
  unfold leave_SimpleStatementLine.
  destruct (last (ssl_body updated_node)) as [st |] eqn:Hlast.
  2: { intros H. injection H as <-. left. split; [reflexivity |].
       apply last_None. exact Hlast. }
  destruct st as [assign | | | |]; try discriminate.
  destruct (_annotation_for_statement _) as [[annotation |] | e'] eqn:Hann; simpl;
    try discriminate.
  2: { intros H. injection H as <-. right. left.
       apply _annotation_for_statement_raises. exact Hann. }
  destruct (convert_Assign assign annotation) as [[| c | converted] | e'] eqn:Hconv;
    simpl; try discriminate.
  2: { intros H. injection H as <-. right. right. left.
       apply convert_Assign_raises in Hconv as [-> Hex].
       split; [reflexivity |]. exists assign. split; [reflexivity | exact Hex]. }
  apply convert_Assign_inv in Hconv
    as [[? _] | [(b & raw & _ & ?) | (ats & Hz & _ & Hc)]]; try discriminate.
  injection Hc as ->.
  pose proof (zipped_targets_cases assign annotation) as Hout.
  rewrite Hz in Hout. destruct Hout as (Hall & -> & _).
  destruct (map _ (removelast (ssl_body updated_node)) ++ _)
    as [| first [| second rest]] eqn:Hnew; try discriminate.
  { apply app_eq_nil in Hnew as [_ Hnew]. apply app_eq_nil in Hnew as [_ Hnew].
    discriminate. }
  intros H. injection H as <-. right. right. right. split; [reflexivity |].
  exists assign, annotation.
  apply (f_equal (@length _)) in Hnew.
  rewrite !length_app, !length_map in Hnew. simpl in Hnew.
  assert (Hrm : removelast (ssl_body updated_node) = []).
  { destruct (removelast (ssl_body updated_node)); [reflexivity | simpl in Hnew; lia]. }
  split; [exact (last_removelast_nil _ _ Hlast Hrm) |].
  split; [reflexivity |].
  rewrite Hrm in Hnew. simpl in Hnew.
  assert (Hnil0 : forall n, n + 1 = 1 -> n = 0) by (intros; lia).
  apply Hnil0 in Hnew. clear Hnil0. rename Hnew into Hnil.
  clear Hz. revert Hall Hnil. generalize (targets assign) as ts.
  induction ts as [| t ts IH]; intros Hall Hnil; [constructor |].
  apply Forall_cons in Hall as [[Hb Hm] Hall].
  simpl in Hnil. rewrite length_app in Hnil.
  constructor.
  - split; [exact Hm |].
    unfold leaf_pairs in Hnil. rewrite length_zip_with in Hnil.
    rewrite <- (shapes_match_leaves _ _ Hm) in Hnil.
    destruct (binding_leaves (unpack_target (target t))); [reflexivity |].
    simpl in Hnil. discriminate Hnil.
  - apply IH; [exact Hall |].
    destruct (length (leaf_pairs _ _)); [exact Hnil | discriminate Hnil].
Qed.

(** X7. The hook of a line raises [RuntimeError] exactly when the line is
    one assignment with a type comment that decodes and every target
    matches the type and has no leaf, as the empty tuple does; the message
    is the one of the branch the source calls unreachable. *)
Theorem unreachable_code_is_reached
    (original_node updated_node : SimpleStatementLine) (msg : string) :
  leave_SimpleStatementLine original_node updated_node = Raise (RuntimeError msg)
  <-> msg = "Unreachable code."
      /\ exists assign annotation,
          ssl_body updated_node = [Small_Assign assign]
          /\ _annotation_for_statement (Stmt_SimpleStatementLine original_node)
             = Ok (Some annotation)
          /\ Forall (fun t => shapes_match (unpack_target (target t))
                                (unpack_annotation annotation) = true
                              /\ binding_leaves (unpack_target (target t)) = [])
               (targets assign).
Proof.
  split.
  - intros H. apply leave_SimpleStatementLine_raises in H
      as [[? _] | [[? _] | [[? _] | [Hmsg Hrest]]]]; try discriminate.
    injection Hmsg as ->. split; [reflexivity | exact Hrest].
  - intros (-> & assign & annotation & Hbody & Hann & Hall).
    unfold leave_SimpleStatementLine. rewrite Hbody. simpl. rewrite Hann. simpl.
    unfold convert_Assign. rewrite (no_leaf_targets _ _ Hall).
    destruct (targets assign) as [| t [| t' ts]]; simpl;
      rewrite ?concat_map_nil; reflexivity.
Qed.

(** *** The exceptions of a run *)

Lemma type_declaration_statements_raises (bindings : UnpackedBindings)
    (annotations : UnpackedAnnotations) (leading_lines : list EmptyLine)
    (e : PyException) :
  type_declaration_statements bindings annotations leading_lines = Raise e ->
  (e = ArityError /\ shapes_match bindings annotations = false)
  \/ (e = AssertionError /\ ~ bindable bindings).
Proof.
  unfold type_declaration_statements.
  pose proof (annotated_bindings_cases annotations bindings) as Hout.
  unfold annotated_bindings_case in Hout.
  destruct (annotated_bindings bindings annotations) as [pairs | e']; [discriminate |].
  simpl. intros H. injection H as <-.
  destruct e'; try contradiction; [left | right]; split; reflexivity || assumption.
Qed.

Lemma leave_For_raises (original_node updated_node : For) (e : PyException) :
  leave_For original_node updated_node = Raise e ->
  (e = SyntaxError /\ _ast_for_statement (Stmt_For original_node) = Raise SyntaxError)
  \/ (e = AssertionError /\ ~ bindable (unpack_target (for_target updated_node))).
Proof.
  unfold leave_For. destruct (for_body updated_node); [| discriminate].
  destruct (_annotation_for_statement _) as [[annotation |] | e'] eqn:Hann; simpl;
    try discriminate.
  - destruct (type_declaration_statements _ _ _) as [decls | e'] eqn:Hd; [discriminate |].
    apply type_declaration_statements_raises in Hd as [[-> _] | [-> Hb]];
      [discriminate |].
    intros H. injection H as <-. right. split; [reflexivity | exact Hb].
  - intros H. injection H as <-. left.
    apply _annotation_for_statement_raises. exact Hann.
Qed.

Lemma leave_With_raises (original_node updated_node : With) (e : PyException) :
  leave_With original_node updated_node = Raise e ->
  (e = SyntaxError /\ _ast_for_statement (Stmt_With original_node) = Raise SyntaxError)
  \/ (e = AssertionError
      /\ exists target, asname_targets (with_items updated_node) = [target]
                        /\ ~ bindable (unpack_target target)).
Proof.
  unfold leave_With. destruct (with_body updated_node); [| discriminate].
  destruct (_annotation_for_statement _) as [[annotation |] | e'] eqn:Hann; simpl;
    try discriminate.
  - destruct (asname_targets (with_items updated_node)) as [| target [| t' ts]];
      try discriminate.
    destruct (type_declaration_statements _ _ _) as [decls | e'] eqn:Hd; [discriminate |].
    apply type_declaration_statements_raises in Hd as [[-> _] | [-> Hb]];
      [discriminate |].
    intros H. injection H as <-. right. split; [reflexivity |].
    exists target. split; [reflexivity | exact Hb].
  - intros H. injection H as <-. left.
    apply _annotation_for_statement_raises. exact Hann.
Qed.

Lemma from_cst_raises (node : FunctionDef) (e : PyException) :
  from_cst node = Raise e ->
  e = SyntaxError /\ _ast_for_statement (Stmt_FunctionDef node) = Raise SyntaxError.
Proof.
  unfold from_cst.
  destruct (_ast_for_statement (Stmt_FunctionDef node)) as [a | e'] eqn:Hast; simpl.
  - unfold _parse_func_type_comment.
    destruct (type_comment a) as [c |]; [| discriminate].
    destruct (ast_parse_func_type c) as [ft |]; [| discriminate].
    destruct (match argtypes ft with [e0] => is_Ellipsis e0 | _ => false end);
      [discriminate |].
    destruct (_ =? _); discriminate.
  - intros H. injection H as <-.
    unfold _ast_for_statement in Hast.
    destruct (ast_parse_statement true _); [discriminate |].
    destruct (ast_parse_statement false _); [discriminate |].
    injection Hast as <-. split; reflexivity.
Qed.

Lemma leave_Param_raises (self : ConvertTypeComments) (original_node updated_node : Param)
    (e : PyException) :
  leave_Param self original_node updated_node = Raise e ->
  e = IndexError /\ param_annotation updated_node = None
  /\ function_type_info_stack self = [].
Proof.
  unfold leave_Param. destruct (param_annotation updated_node); [discriminate |].
  destruct (last (function_type_info_stack self)) as [info |] eqn:Hlast.
  - destruct (mjoin _); discriminate.
  - intros H. injection H as <-. repeat split. apply last_None. exact Hlast.
Qed.

Lemma result_map_raises {A B : Type} (f : A -> result B) (l : list A) (e : PyException) :
  result_map f l = Raise e -> exists x, x ∈ l /\ f x = Raise e.
Proof.
  induction l as [| x l IH]; [discriminate |]. simpl.
  destruct (f x) as [y |] eqn:Hx; simpl.
  - destruct (result_map f l) as [ys |]; [discriminate |]. simpl.
    intros H. injection H as <-. destruct (IH eq_refl) as (z & Hz & Hfz).
    exists z. split; [right; exact Hz | exact Hfz].
  - intros H. injection H as <-. exists x. split; [left | exact Hx].
Qed.

Lemma visit_Parameters_raises (self : ConvertTypeComments) (node : Parameters)
    (e : PyException) :
  visit_Parameters self node = Raise e ->
  e = IndexError /\ function_type_info_stack self = [].
Proof.
  assert (Hp : forall p, visit_Param self p = Raise e ->
                         e = IndexError /\ function_type_info_stack self = []).
  { intros p H. unfold visit_Param in H. apply leave_Param_raises in H as (? & _ & ?).
    split; assumption. }
  assert (Hl : forall l, result_map (visit_Param self) l = Raise e ->
                         e = IndexError /\ function_type_info_stack self = []).
  { intros l H. apply result_map_raises in H as (p & _ & H). exact (Hp p H). }
  assert (Ho : forall o, visit_optional_Param self o = Raise e ->
                         e = IndexError /\ function_type_info_stack self = []).
  { intros [p |] H; simpl in H; [| discriminate].
    destruct (visit_Param self p) eqn:H'; [discriminate |].
    simpl in H. injection H as <-. exact (Hp p H'). }
  unfold visit_Parameters.
  destruct (result_map _ (params node)) eqn:H1; simpl;
    [| intros H; injection H as <-; exact (Hl _ H1)].
  destruct (visit_optional_Param _ (star_arg node)) eqn:H2; simpl;
    [| intros H; injection H as <-; exact (Ho _ H2)].
  destruct (result_map _ (kwonly_params node)) eqn:H3; simpl;
    [| intros H; injection H as <-; exact (Hl _ H3)].
  destruct (visit_optional_Param _ (star_kwarg node)) eqn:H4; simpl;
    [| intros H; injection H as <-; exact (Ho _ H4)].
  destruct (result_map _ (posonly_params node)) eqn:H5; simpl;
    [discriminate | intros H; injection H as <-; exact (Hl _ H5)].
Qed.

Lemma leave_IndentedBlock_raises (self : ConvertTypeComments)
    (original_node updated_node : IndentedBlock) (e : PyException) :
  leave_IndentedBlock self original_node updated_node = Raise e -> e = IndexError.
Proof.
  unfold leave_IndentedBlock.
  destruct (last (function_body_stack self)); [| discriminate].
  destruct (negb _); [discriminate |].
  destruct (last (function_type_info_stack self)) as [info |];
    [| intros H; injection H as <-; reflexivity].
  destruct (is_empty info); [discriminate |].
  destruct (ib_body _); [intros H; injection H as <-; reflexivity | discriminate].
Qed.

Lemma leave_FunctionDef_raises (self : ConvertTypeComments)
    (original_node updated_node : FunctionDef) (e : PyException) :
  leave_FunctionDef self original_node updated_node = Raise e -> e = IndexError.
Proof.
  unfold leave_FunctionDef.
  destruct (last (function_body_stack self)), (last (function_type_info_stack self))
    as [info |]; try (intros H; injection H as <-; reflexivity).
  destruct (fd_returns updated_node), (returns info); discriminate.
Qed.

Lemma visit_body_with_raises (visit : Visit) (l : list BaseStatement) :
  Forall (raises_as_expected visit) l ->
  forall self e, visit_body_with visit self l = Raise e -> raised_by_the_codemod e.
Proof.
  induction 1 as [| x l Hx _ IH]; intros self e Hvisit; simpl in Hvisit;
    [discriminate |].
  destruct (visit self x) as [[self1 out1] |] eqn:H1; simpl in Hvisit.
  - destruct (visit_body_with visit self1 l) as [[self2 out2] |] eqn:H2;
      simpl in Hvisit; [discriminate |].
    injection Hvisit as <-. exact (IH _ _ H2).
  - injection Hvisit as <-. exact (Hx _ _ H1).
Qed.

Lemma visit_suite_with_raises (visit : Visit) (suite : BaseSuite) :
  Forall (raises_as_expected visit) (suite_statements suite) ->
  forall self e, visit_suite_with visit self suite = Raise e -> raised_by_the_codemod e.
Proof.
  intros Hall self e Hvisit.
  destruct suite as [[id header body] | b]; simpl in *; [| discriminate].
  destruct (visit_body_with visit self body) as [[self1 out1] |] eqn:H1;
    simpl in Hvisit.
  - destruct (leave_IndentedBlock _ _ _) eqn:H2; simpl in Hvisit; [discriminate |].
    injection Hvisit as <-. apply leave_IndentedBlock_raises in H2 as ->.
    left. reflexivity.
  - injection Hvisit as <-. exact (visit_body_with_raises visit body Hall _ _ H1).
Qed.

Lemma visit_optional_suite_with_raises (visit : Visit) (suite : option BaseSuite) :
  Forall (raises_as_expected visit) (from_option suite_statements [] suite) ->
  forall self e,
    visit_optional_suite_with visit self suite = Raise e -> raised_by_the_codemod e.
Proof.
  intros Hall self e Hvisit. destruct suite as [b |]; simpl in *; [| discriminate].
  destruct (visit_suite_with visit self b) as [[self1 b1] |] eqn:H1; simpl in Hvisit;
    [discriminate |].
  injection Hvisit as <-. exact (visit_suite_with_raises visit b Hall _ _ H1).
Qed.

Lemma visit_statement_raises (s : BaseStatement) :
  raises_as_expected visit_statement s.
Proof.
  induction s as [s IH] using BaseStatement_nested_ind.
  intros self e Hvisit.
  destruct s as [n | [ll t i body orelse] | [ll items body] | [ll name ps ret body]
                 | [ll test body orelse]];
    cbn [visit_statement] in Hvisit; simpl in IH.
  - destruct (visit_SimpleStatementLine self n) eqn:H1; simpl in Hvisit;
      [discriminate |].
    injection Hvisit as <-. unfold visit_SimpleStatementLine in H1.
    destruct (leave_SimpleStatementLine _ _) as [[| |] |] eqn:H2; simpl in H1;
      try discriminate.
    injection H1 as <-.
    apply leave_SimpleStatementLine_raises in H2
      as [[-> _] | [[-> _] | [[-> _] | [-> _]]]]; unfold raised_by_the_codemod; tauto.
  - apply Forall_app in IH as [Hbody Horelse].
    destruct (visit_suite_with visit_statement self body) as [[self1 b1] |] eqn:H1;
      simpl in Hvisit;
      [| injection Hvisit as <-; exact (visit_suite_with_raises _ _ Hbody _ _ H1)].
    destruct (visit_optional_suite_with visit_statement self1 orelse)
      as [[self2 o2] |] eqn:H2; simpl in Hvisit;
      [| injection Hvisit as <-;
         exact (visit_optional_suite_with_raises _ _ Horelse _ _ H2)].
    destruct (leave_For _ _) eqn:H3; simpl in Hvisit; [discriminate |].
    injection Hvisit as <-.
    apply leave_For_raises in H3 as [[-> _] | [-> _]];
      unfold raised_by_the_codemod; tauto.
  - destruct (visit_suite_with visit_statement self body) as [[self1 b1] |] eqn:H1;
      simpl in Hvisit;
      [| injection Hvisit as <-; exact (visit_suite_with_raises _ _ IH _ _ H1)].
    destruct (leave_With _ _) eqn:H3; simpl in Hvisit; [discriminate |].
    injection Hvisit as <-.
    apply leave_With_raises in H3 as [[-> _] | [-> _]];
      unfold raised_by_the_codemod; tauto.
  - unfold visit_FunctionDef in Hvisit.
    destruct (from_cst _) as [info |] eqn:H0; simpl in Hvisit;
      [| injection Hvisit as <-; apply from_cst_raises in H0 as [-> _];
         unfold raised_by_the_codemod; tauto].
    destruct (visit_Parameters _ ps) eqn:H1; simpl in Hvisit;
      [| injection Hvisit as <-; apply visit_Parameters_raises in H1 as [-> _];
         unfold raised_by_the_codemod; tauto].
    destruct (visit_suite_with visit_statement _ body) as [[self1 b1] |] eqn:H2;
      simpl in Hvisit;
      [| injection Hvisit as <-; exact (visit_suite_with_raises _ _ IH _ _ H2)].
    destruct (leave_FunctionDef _ _ _) eqn:H3; simpl in Hvisit; [discriminate |].
    injection Hvisit as <-. apply leave_FunctionDef_raises in H3 as ->.
    unfold raised_by_the_codemod; tauto.
  - apply Forall_app in IH as [Hbody Horelse].
    destruct (visit_suite_with visit_statement self body) as [[self1 b1] |] eqn:H1;
      simpl in Hvisit;
      [| injection Hvisit as <-; exact (visit_suite_with_raises _ _ Hbody _ _ H1)].
    destruct (visit_optional_suite_with visit_statement self1 orelse)
      as [[self2 o2] |] eqn:H2; simpl in Hvisit; [discriminate |].
    injection Hvisit as <-.
    exact (visit_optional_suite_with_raises _ _ Horelse _ _ H2).
Qed.

Lemma transform_module_raises (m : Module_) (e : PyException) :
  transform_module m = Raise e -> raised_by_the_codemod e.
Proof.
  unfold transform_module. intros H.
  destruct (visit_statements init (module_body m)) as [r |] eqn:Hv; simpl in H;
    [discriminate |].
  injection H as <-.
  apply (visit_body_with_raises visit_statement (module_body m)) with (self := init);
    [| exact Hv].
  apply Forall_forall. intros s _. apply visit_statement_raises.
Qed.

(** *** The type information of a function *)

Lemma foldl_insert_lookup_other {V : Type} (l : list (string * V)) (m : gmap string V)
    (k : string) :
  k ∉ map fst l ->
  foldl (fun m kv => <[kv.1 := kv.2]> m) m l !! k = m !! k.
Proof.
  revert m. induction l as [| [k' v'] l IH]; intros m Hk; [reflexivity |].
  simpl. rewrite IH.
  - apply lookup_insert_ne. intros ->. apply Hk. left.
  - intros Hin. apply Hk. right. exact Hin.
Qed.

Lemma foldl_insert_lookup {V : Type} (l : list (string * V)) (m : gmap string V)
    (k : string) (v : V) :
  NoDup (map fst l) -> (k, v) ∈ l ->
  foldl (fun m kv => <[kv.1 := kv.2]> m) m l !! k = Some v.
Proof.
  revert m. induction l as [| [k' v'] l IH]; intros m Hnd Hin.
  - inversion Hin.
  - simpl in *. apply NoDup_cons in Hnd as [Hk' Hnd].
    apply elem_of_cons in Hin as [Heq | Hin].
    + injection Heq as -> ->. rewrite foldl_insert_lookup_other by exact Hk'.
      apply lookup_insert_eq.
    + apply IH; assumption.
Qed.

Lemma dict_of_lookup {V : Type} (l : list (string * V)) (k : string) (v : V) :
  NoDup (map fst l) -> (k, v) ∈ l -> dict_of l !! k = Some v.
Proof. apply foldl_insert_lookup. Qed.

Lemma dict_of_lookup_other {V : Type} (l : list (string * V)) (k : string) :
  k ∉ map fst l -> dict_of l !! k = None.
Proof.
  intros Hk. unfold dict_of. rewrite foldl_insert_lookup_other by exact Hk.
  apply lookup_empty.
Qed.

Lemma foldl_insert_snoc {V : Type} (l : list (string * V)) (m : gmap string V)
    (kv : string * V) :
  foldl (fun m kv => <[kv.1 := kv.2]> m) m (l ++ [kv])
  = <[kv.1 := kv.2]> (foldl (fun m kv => <[kv.1 := kv.2]> m) m l).
Proof. revert m. induction l as [| x l IH]; intros m; [reflexivity | apply IH]. Qed.

Lemma dict_of_empty {V : Type} (l : list (string * V)) :
  dict_of l = ∅ <-> l = [].
Proof.
  split; [| intros ->; reflexivity].
  destruct l as [| x l] using rev_ind; [reflexivity |].
  unfold dict_of. rewrite foldl_insert_snoc. intros H.
  exfalso. exact (insert_non_empty _ _ _ H).
Qed.

Lemma inline_entries_cons (a : ast_arg) (args : list ast_arg) :
  inline_entries (a :: args)
  = match arg_type_comment a with
    | Some tc => (arg a, Some tc) :: inline_entries args
    | None => inline_entries args
    end.
Proof. unfold inline_entries. cbn. destruct (arg_type_comment a); reflexivity. Qed.

Lemma inline_entries_keys (args : list ast_arg) (k : string) :
  k ∈ map fst (inline_entries args) -> k ∈ map arg args.
Proof.
  induction args as [| a args IH]; [intros H; exact H |].
  rewrite inline_entries_cons. simpl.
  destruct (arg_type_comment a); simpl; intros H.
  - apply elem_of_cons in H as [-> | H]; [left | right; exact (IH H)].
  - right. exact (IH H).
Qed.

Lemma inline_entries_NoDup (args : list ast_arg) :
  NoDup (map arg args) -> NoDup (map fst (inline_entries args)).
Proof.
  induction args as [| a args IH]; intros Hnd; [constructor |].
  simpl in Hnd. apply NoDup_cons in Hnd as [Ha Hnd].
  rewrite inline_entries_cons. destruct (arg_type_comment a); simpl; [| exact (IH Hnd)].
  apply NoDup_cons. split; [| exact (IH Hnd)].
  intros Hin. apply Ha. exact (inline_entries_keys _ _ Hin).
Qed.

Lemma inline_entries_lookup (args : list ast_arg) (a : ast_arg) :
  NoDup (map arg args) -> a ∈ args ->
  mjoin (dict_of (inline_entries args) !! arg a) = arg_type_comment a.
Proof.
  intros Hnd Hin. destruct (arg_type_comment a) as [tc |] eqn:Htc.
  - rewrite (dict_of_lookup _ (arg a) (Some tc)); [reflexivity | |].
    + apply inline_entries_NoDup. exact Hnd.
    + clear Hnd. induction args as [| b args IH]; [inversion Hin |].
      rewrite inline_entries_cons.
      apply elem_of_cons in Hin as [<- | Hin].
      * rewrite Htc. left.
      * destruct (arg_type_comment b); [right |]; exact (IH Hin).
  - rewrite dict_of_lookup_other; [reflexivity |].
    induction args as [| b args IH]; [intros H; inversion H |].
    simpl in Hnd. apply NoDup_cons in Hnd as [Hb Hnd].
    rewrite inline_entries_cons.
    apply elem_of_cons in Hin as [<- | Hin].
    + rewrite Htc. intros H. apply Hb. exact (inline_entries_keys _ _ H).
    + destruct (arg_type_comment b) eqn:Hbtc; [| exact (IH Hnd Hin)].
      simpl. intros H. apply elem_of_cons in H as [Heq | H]; [| exact (IH Hnd Hin H)].
      apply Hb. rewrite <- Heq. clear -Hin.
      induction Hin; [left | right; assumption].
Qed.

Lemma elem_of_map {A B : Type} (f : A -> B) (l : list A) (x : A) :
  x ∈ l -> f x ∈ map f l.
Proof. induction 1; [left | right; assumption]. Qed.

Lemma zip_lookup_elem {A B : Type} (l : list A) (k : list B) (i : nat) (x : A) (y : B) :
  l !! i = Some x -> k !! i = Some y -> (x, y) ∈ zip l k.
Proof.
  revert k i. induction l as [| a l IH]; intros [| b k] [| i] Hx Hy; try discriminate.
  - injection Hx as ->. injection Hy as ->. left.
  - right. exact (IH k i Hx Hy).
Qed.

Lemma map_fst_zip {A B : Type} (l : list A) (k : list B) :
  length l = length k -> map fst (zip l k) = l.
Proof.
  revert k. induction l as [| a l IH]; intros [| b k] Hlen; try discriminate;
    [reflexivity |].
  cbn. f_equal. apply IH. simpl in Hlen. lia.
Qed.

(** X9. For a function without a type comment of its own, and for one whose
    type comment has the ellipsis as its arguments, the type of a parameter
    is its inline type comment and nothing else; names that are no
    parameter have no type. The return type is absent in the first case
    and the one of the comment in the second. Parameter names are taken to
    be distinct. *)
Theorem from_cst_inline_comments (node_cst : FunctionDef) (node_ast : ast_stmt) :
  _ast_for_statement (Stmt_FunctionDef node_cst) = Ok node_ast ->
  NoDup (map arg (all_args (stmt_args node_ast))) ->
  (type_comment node_ast = None ->
   exists info,
     from_cst node_cst = Ok info /\ returns info = None
     /\ (forall a, a ∈ all_args (stmt_args node_ast) ->
                   argument_type info (arg a) = arg_type_comment a)
     /\ (forall name, name ∉ map arg (all_args (stmt_args node_ast)) ->
                      argument_type info name = None))
  /\ (forall c ft,
        type_comment node_ast = Some c ->
        ast_parse_func_type c = Some ft ->
        argtypes ft = [ast_Constant_Ellipsis] ->
        exists info,
          from_cst node_cst = Ok info
          /\ returns info = Some (ast_unparse (ft_returns ft))
          /\ (forall a, a ∈ all_args (stmt_args node_ast) ->
                        argument_type info (arg a) = arg_type_comment a)
          /\ (forall name, name ∉ map arg (all_args (stmt_args node_ast)) ->
                           argument_type info name = None)).
Proof.
  intros Hast Hnd. split.
  - intros Htc. unfold from_cst. rewrite Hast. simpl. rewrite Htc. simpl.
    eexists. split; [reflexivity |]. split; [reflexivity |].
    unfold argument_type. simpl. fold (inline_entries (all_args (stmt_args node_ast))).
    split.
    + intros a Ha. apply inline_entries_lookup; assumption.
    + intros name Hname. rewrite dict_of_lookup_other; [reflexivity |].
      intros H. apply Hname. exact (inline_entries_keys _ _ H).
  - intros c ft Htc Hparse Hell. unfold from_cst. rewrite Hast. simpl.
    rewrite Htc. simpl. rewrite Hparse, Hell. simpl.
    eexists. split; [reflexivity |]. split; [reflexivity |].
    unfold argument_type. simpl.
    assert (Hkeys : map fst (map (fun a => (arg a, arg_type_comment a))
                                (all_args (stmt_args node_ast)))
                    = map arg (all_args (stmt_args node_ast))).
    { rewrite List.map_map. reflexivity. }
    split.
    + intros a Ha.
      rewrite (dict_of_lookup _ (arg a) (arg_type_comment a)); [reflexivity | |].
      * rewrite Hkeys. exact Hnd.
      * apply (elem_of_map (fun a => (arg a, arg_type_comment a))). exact Ha.
    + intros name Hname. rewrite dict_of_lookup_other; [reflexivity |].
      rewrite Hkeys. exact Hname.
Qed.

(** X10. When the type comment of a function has as many argument types as
    the function has parameters, the type of a parameter is its inline
    type comment when that is a non-empty text and the argument type at
    its position otherwise; the return type is the one of the comment.
    Parameter names are taken to be distinct. *)
Theorem from_cst_merges_comments (node_cst : FunctionDef) (node_ast : ast_stmt)
    (c : string) (ft : ast_FunctionType) :
  _ast_for_statement (Stmt_FunctionDef node_cst) = Ok node_ast ->
  type_comment node_ast = Some c ->
  ast_parse_func_type c = Some ft ->
  argtypes ft <> [ast_Constant_Ellipsis] ->
  length (argtypes ft) = parameter_count (stmt_args node_ast) ->
  NoDup (map arg (all_args (stmt_args node_ast))) ->
  exists info,
    from_cst node_cst = Ok info
    /\ returns info = Some (ast_unparse (ft_returns ft))
    /\ (forall i a t,
          all_args (stmt_args node_ast) !! i = Some a ->
          argtypes ft !! i = Some t ->
          argument_type info (arg a)
          = Some (match arg_type_comment a with
                  | Some (String ch rest) => String ch rest
                  | Some EmptyString | None => ast_unparse t
                  end))
    /\ (forall name, name ∉ map arg (all_args (stmt_args node_ast)) ->
                     argument_type info name = None).
Proof.
  intros Hast Htc Hparse Hell Hlen Hnd.
  rewrite <- all_args_length in Hlen.
  unfold from_cst. rewrite Hast. simpl. rewrite Htc. simpl. rewrite Hparse.
  assert (Hno : match argtypes ft with [e] => is_Ellipsis e | _ => false end = false).
  { destruct (argtypes ft) as [| e [| e' es]]; try reflexivity.
    destruct e; try reflexivity. congruence. }
  rewrite Hno. apply Nat.eqb_eq in Hlen as Hlenb. rewrite Hlenb.
  eexists. split; [reflexivity |]. split; [reflexivity |].
  unfold argument_type. simpl.
  set (entry := fun '(a, from_func_type) =>
                  (arg a, Some (str_or (arg_type_comment a)
                                  (ast_unparse from_func_type)))).
  assert (Hkeys : map fst (map entry (zip (all_args (stmt_args node_ast)) (argtypes ft)))
                  = map arg (all_args (stmt_args node_ast))).
  { rewrite List.map_map.
    rewrite <- (map_fst_zip (all_args (stmt_args node_ast)) (argtypes ft)) at 2
      by (symmetry; exact Hlen).
    rewrite List.map_map. apply map_ext. intros [a t]. reflexivity. }
  split.
  - intros i a t Ha Ht.
    rewrite (dict_of_lookup _ (arg a)
               (Some (str_or (arg_type_comment a) (ast_unparse t)))).
    + reflexivity.
    + rewrite Hkeys. exact Hnd.
    + apply (elem_of_map entry _ (a, t)). exact (zip_lookup_elem _ _ i a t Ha Ht).
  - intros name Hname. rewrite dict_of_lookup_other; [reflexivity |].
    rewrite Hkeys. exact Hname.
Qed.

Lemma inline_entries_nil (args : list ast_arg) :
  inline_entries args = [] <-> Forall (fun a => arg_type_comment a = None) args.
Proof.
  induction args as [| a args IH]; [split; [constructor | reflexivity] |].
  rewrite inline_entries_cons. split.
  - destruct (arg_type_comment a) eqn:Ha; [discriminate |].
    intros H. constructor; [exact Ha | apply IH; exact H].
  - intros H. apply Forall_cons in H as [Ha H]. rewrite Ha. apply IH. exact H.
Qed.

(** X11. [visit_FunctionDef] pushes the body of the function and switches
    the stripping on exactly when type information was found: without a
    function type comment, when some parameter has an inline type comment;
    with one, when it decodes and its arguments are the ellipsis or as
    many as the parameters. *)
Theorem stripping_follows_the_type_information (self : ConvertTypeComments)
    (node : FunctionDef) (node_ast : ast_stmt) :
  _ast_for_statement (Stmt_FunctionDef node) = Ok node_ast ->
  exists self',
    visit_FunctionDef self node = Ok self'
    /\ function_body_stack self' = function_body_stack self ++ [fd_body node]
    /\ (aggressively_strip_type_comments self' = true
        <-> match type_comment node_ast with
            | None =>
                Exists (fun a => arg_type_comment a <> None)
                  (all_args (stmt_args node_ast))
            | Some c =>
                exists ft,
                  ast_parse_func_type c = Some ft
                  /\ (argtypes ft = [ast_Constant_Ellipsis]
                      \/ length (argtypes ft) = parameter_count (stmt_args node_ast))
            end).
Proof.
  intros Hast. unfold visit_FunctionDef, from_cst. rewrite Hast. simpl.
  rewrite <- all_args_length.
  destruct (type_comment node_ast) as [c |]; simpl.
  - destruct (ast_parse_func_type c) as [ft |]; simpl.
    + destruct (match argtypes ft with [e] => is_Ellipsis e | _ => false end) eqn:Hell.
      * simpl. eexists. split; [reflexivity |]. split; [reflexivity |]. simpl.
        split; [| reflexivity]. intros _. exists ft. split; [reflexivity |]. left.
        destruct (argtypes ft) as [| e [| e' es]]; try discriminate.
        destruct e; try discriminate. reflexivity.
      * destruct (length (argtypes ft) =? length (all_args (stmt_args node_ast)))
          eqn:Hlen; simpl.
        -- eexists. split; [reflexivity |]. split; [reflexivity |]. simpl.
           split; [| reflexivity]. intros _. exists ft. split; [reflexivity |].
           right. apply Nat.eqb_eq. exact Hlen.
        -- eexists. split; [reflexivity |]. split; [reflexivity |]. simpl.
           split; [discriminate |]. intros (ft' & Hft & [Habs | Habs]).
           ++ injection Hft as <-. rewrite Habs in Hell. discriminate.
           ++ injection Hft as <-. apply Nat.eqb_neq in Hlen. contradiction.
    + eexists. split; [reflexivity |]. split; [reflexivity |]. simpl.
      split; [discriminate |]. intros (ft' & Hft & _). discriminate.
  - eexists. split; [reflexivity |]. split; [reflexivity |].
    cbn [aggressively_strip_type_comments].
    fold (inline_entries (all_args (stmt_args node_ast))).
    unfold is_empty. cbn [returns arguments].
    rewrite bool_decide_eq_true_2 by reflexivity. rewrite andb_true_l.
    rewrite negb_true_iff, bool_decide_eq_false, dict_of_empty, inline_entries_nil.
    rewrite <- Exists_Forall_neg; [reflexivity |].
    intros a. destruct (arg_type_comment a); [right; discriminate | left; reflexivity].
Qed.

(** *** The stacks *)

(** X12. The stacks are balanced. After [visit_FunctionDef] and
    [visit_FunctionDef_body], [leave_FunctionDef] gives back the two stacks
    as they were, with the stripping off; a statement visited with the
    stripping off leaves the state as it found it; and a module comes out
    with its header lines untouched and the state of a fresh instance. *)
Theorem stacks_are_restored :
  (forall self node self1 original_node updated_node,
      visit_FunctionDef self node = Ok self1 ->
      exists fd,
        leave_FunctionDef (visit_FunctionDef_body self1 node) original_node updated_node
        = Ok ({| function_type_info_stack := function_type_info_stack self;
                 function_body_stack := function_body_stack self;
                 aggressively_strip_type_comments := false |}, fd))
  /\ (forall self s self' out,
        aggressively_strip_type_comments self = false ->
        visit_statement self s = Ok (self', out) ->
        self' = self)
  /\ (forall m m',
        transform_module m = Ok m' ->
        module_header m' = module_header m
        /\ visit_statements init (module_body m) = Ok (init, module_body m')).
Proof.
  repeat apply conj.
  - intros self node self1 o u H. unfold visit_FunctionDef in H.
    destruct (from_cst node) as [info |]; [| discriminate]. simpl in H.
    injection H as <-. unfold leave_FunctionDef, visit_FunctionDef_body. simpl.
    rewrite !last_snoc, !removelast_last.
    destruct (fd_returns u), (returns info); eexists; reflexivity.
  - intros self s. apply visit_statement_keeps_state.
  - intros m m' H. unfold transform_module in H.
    destruct (visit_statements init (module_body m)) as [[self' out] |] eqn:Hv;
      [| discriminate].
    simpl in H. injection H as <-. simpl.
    apply visit_statements_keeps_state in Hv as Hself; [| reflexivity]. subst self'.
    split; [apply visit_EmptyLines_off; reflexivity | reflexivity].
Qed.

(** *** Parameters *)




(** *** The body of a function *)

Lemma filter_filter_same {A : Type} (f : A -> bool) (l : list A) :
  List.filter f (List.filter f l) = List.filter f l.
Proof.
  induction l as [| x l IH]; [reflexivity |].
  simpl. destruct (f x) eqn:Hx; [| exact IH]. simpl. rewrite Hx, IH. reflexivity.
Qed.

Lemma statement_leading_lines_changed (s : BaseStatement) (ll : list EmptyLine) :
  statement_leading_lines (with_leading_lines_changed s ll) = ll.
Proof. destruct s; reflexivity. Qed.

Lemma with_leading_lines_changed_twice (s : BaseStatement) (l1 l2 : list EmptyLine) :
  with_leading_lines_changed (with_leading_lines_changed s l1) l2
  = with_leading_lines_changed s l2.
Proof. destruct s; reflexivity. Qed.

(** X14. [leave_IndentedBlock] gives the same block when it is given its
    own result, keeps the identity of the block and the number of its
    statements, and changes no statement after the first. *)
Theorem leave_IndentedBlock_idempotent (self : ConvertTypeComments)
    (original_node updated_node b : IndentedBlock) :
  leave_IndentedBlock self original_node updated_node = Ok b ->
  leave_IndentedBlock self original_node b = Ok b
  /\ ib_id b = ib_id updated_node
  /\ length (ib_body b) = length (ib_body updated_node)
  /\ tail (ib_body b) = tail (ib_body updated_node).
Proof.
  unfold leave_IndentedBlock.
  destruct (last (function_body_stack self)) as [top |];
    [| intros H; injection H as <-; repeat split].
  destruct (negb (is_same_block original_node top));
    [intros H; injection H as <-; repeat split |].
  destruct (last (function_type_info_stack self)) as [info |]; [| discriminate].
  destruct (is_empty info); [intros H; injection H as <-; repeat split |].
  destruct updated_node as [id header body]. cbn [ib_header ib_body ib_id].
  destruct (_is_type_comment (tw_comment header)) eqn:Htc; cbn [ib_header ib_body ib_id];
    (destruct body as [| first_statement rest]; [discriminate |]);
    intros H; injection H as <-; cbn [ib_header ib_body ib_id];
    rewrite ?Htc; cbn [TrailingWhitespace_default tw_comment _is_type_comment
                         ib_header ib_body ib_id];
    rewrite statement_leading_lines_changed, with_leading_lines_changed_twice,
      filter_filter_same; repeat split.
Qed.

(** *** Annotations *)

Lemma append_last_inj (c : ascii) (s1 s2 : string) :
  (s1 +:+ String c "" = s2 +:+ String c "")%string -> s1 = s2.
Proof.
  revert s2. induction s1 as [| a s1 IH]; intros [| b s2] H; simpl in H.
  - reflexivity.
  - injection H as _ H. destruct s2; discriminate.
  - injection H as _ H. destruct s1; discriminate.
  - injection H as -> H. f_equal. exact (IH _ H).
Qed.

(** X15. [_convert_annotation] loses nothing: two raw types get the same
    annotation only when they are the same text. *)
Theorem _convert_annotation_injective (raw1 raw2 : string) :
  _convert_annotation raw1 = _convert_annotation raw2 <-> raw1 = raw2.
Proof.
  split; [| intros ->; reflexivity].
  unfold _convert_annotation.
  destruct (_is_builtin raw1), (_is_builtin raw2); intros H; try discriminate.
  - injection H as ->. reflexivity.
  - injection H as H. exact (append_last_inj _ _ _ H).
Qed.

End FurtherCodemodFacts.

(** *** What counts as a type comment *)

Lemma lstrip_blank (pad s : string) :
  blank pad = true -> PyStr.lstrip (pad +:+ s) = PyStr.lstrip s.
Proof.
  induction pad as [| c pad IH]; [reflexivity |].
  unfold blank. simpl. intros H. apply andb_true_iff in H as [Hc Hpad].
  rewrite Hc. exact (IH Hpad).
Qed.

Lemma rstrip_cons (c : ascii) (s : string) :
  PyStr.isspace c = false -> PyStr.rstrip (String c s) = String c (PyStr.rstrip s).
Proof. intros Hc. simpl. rewrite Hc. destruct (PyStr.rstrip s); reflexivity. Qed.

Lemma rstrip_empty (s : string) :
  PyStr.rstrip s = EmptyString ->
  forall cur, PyStr.split_go cur s
              = match cur with Some w => [String.rev w] | None => [] end.
Proof.
  induction s as [| c s IH]; intros H cur; [reflexivity |].
  simpl in H. destruct (PyStr.rstrip s) eqn:Hr; [| discriminate].
  destruct (PyStr.isspace c) eqn:Hc; [| discriminate].
  simpl. rewrite Hc. rewrite (IH eq_refl None). reflexivity.
Qed.

Lemma split_go_rstrip (s : string) :
  forall cur, PyStr.split_go cur (PyStr.rstrip s) = PyStr.split_go cur s.
Proof.
  induction s as [| c s IH]; intros cur; [reflexivity |].
  simpl PyStr.rstrip. destruct (PyStr.rstrip s) as [| c' r] eqn:Hr.
  - pose proof (rstrip_empty s Hr) as Hs.
    destruct (PyStr.isspace c) eqn:Hc; simpl; rewrite Hc.
    + rewrite (Hs None). destruct cur; reflexivity.
    + rewrite (Hs (Some _)). reflexivity.
  - simpl. destruct (PyStr.isspace c); [destruct cur |]; rewrite <- IH; reflexivity.
Qed.

Lemma split_rstrip (s : string) : PyStr.split (PyStr.rstrip s) = PyStr.split s.
Proof. apply split_go_rstrip. Qed.

Lemma split_lstrip (s : string) : PyStr.split (PyStr.lstrip s) = PyStr.split s.
Proof.
  unfold PyStr.split. induction s as [| c s IH]; [reflexivity |].
  simpl. destruct (PyStr.isspace c) eqn:Hc; [exact IH |].
  simpl. rewrite Hc. reflexivity.
Qed.

Lemma split_strip (s : string) : PyStr.split (PyStr.strip s) = PyStr.split s.
Proof. unfold PyStr.strip. rewrite split_rstrip. apply split_lstrip. Qed.

Lemma rstrip_prefix (s : string) : exists t, s = (PyStr.rstrip s +:+ t)%string.
Proof.
  induction s as [| c s [t IH]]; [exists EmptyString; reflexivity |].
  simpl. destruct (PyStr.rstrip s) as [| c' r] eqn:Hr.
  - destruct (PyStr.isspace c).
    + exists (String c s). reflexivity.
    + exists s. reflexivity.
  - exists t. change (String c s = String c (String c' r +:+ t)).
    rewrite <- IH. reflexivity.
Qed.

Lemma startswith_append (p s t : string) :
  PyStr.startswith p s = true -> PyStr.startswith p (s +:+ t) = true.
Proof.
  revert s. induction p as [| a p IH]; intros [| b s] H; try reflexivity;
    try discriminate.
  simpl in *. destruct (Ascii.eqb a b); [exact (IH _ H) | discriminate].
Qed.

Lemma startswith_rstrip (p s : string) :
  PyStr.startswith p s = false -> PyStr.startswith p (PyStr.rstrip s) = false.
Proof.
  intros H. destruct (PyStr.startswith p (PyStr.rstrip s)) eqn:Hr; [| reflexivity].
  destruct (rstrip_prefix s) as [t Ht].
  apply (startswith_append _ _ t) in Hr. rewrite <- Ht in Hr. congruence.
Qed.

Lemma strip_type_text (pad text : string) :
  blank pad = true ->
  PyStr.strip (pad +:+ "type:" +:+ text) = ("type:" +:+ PyStr.rstrip text)%string.
Proof.
  intros Hpad. unfold PyStr.strip. rewrite (lstrip_blank _ _ Hpad).
  change (PyStr.lstrip ("type:" +:+ text)) with ("type:" +:+ text)%string.
  change ("type:" +:+ text)%string
    with (String "t" (String "y" (String "p" (String "e" (String ":" text))))).
  rewrite !rstrip_cons by reflexivity. reflexivity.
Qed.

Lemma split_blank (pad s : string) :
  blank pad = true -> PyStr.split (pad +:+ s) = PyStr.split s.
Proof.
  intros Hpad. rewrite <- (split_lstrip (pad +:+ s)), (lstrip_blank _ _ Hpad).
  apply split_lstrip.
Qed.

Lemma split_go_other (cur : option string) (c : ascii) (s : string) :
  PyStr.isspace c = false ->
  PyStr.split_go cur (String c s)
  = PyStr.split_go (Some (String c (default EmptyString cur))) s.
Proof. intros H. simpl. rewrite H. reflexivity. Qed.

Lemma split_go_space (w : string) (c : ascii) (s : string) :
  PyStr.isspace c = true ->
  PyStr.split_go (Some w) (String c s) = String.rev w :: PyStr.split_go None s.
Proof. intros H. simpl. rewrite H. reflexivity. Qed.

(** X16. What counts as a type comment. A comment that reads [type:] after
    the hash and any white space is a type comment unless the first word
    after the colon is exactly [ignore]; a comment that does not read
    [type:] there is none. So a [type: ignore] comment, alone or followed
    by white space and more text, is no type comment, and neither
    [leave_TrailingWhitespace] nor [leave_EmptyLine] removes it, whatever
    the state. *)
Theorem _is_type_comment_decides (pad : string) :
  blank pad = true ->
  (forall text,
      _is_type_comment (Some (mkComment (String "#" (pad +:+ "type:" +:+ text))))
      = match PyStr.split text with
        | first :: _ => negb (String.eqb first "ignore")
        | [] => true
        end)
  /\ (forall text,
        PyStr.startswith "type:" (PyStr.lstrip text) = false ->
        _is_type_comment (Some (mkComment (String "#" text))) = false)
  /\ (forall pad' rest,
        blank pad' = true -> ends_the_word rest = true ->
        let comment :=
          Some (mkComment
                  (String "#" (pad +:+ "type:" +:+ pad' +:+ "ignore" +:+ rest))) in
        _is_type_comment comment = false
        /\ (forall self original_node updated_node,
              tw_comment updated_node = comment ->
              leave_TrailingWhitespace self original_node updated_node = updated_node)
        /\ (forall self original_node updated_node,
              el_comment updated_node = comment ->
              leave_EmptyLine self original_node updated_node = Updated updated_node)).
Proof.
  intros Hpad.
  assert (Hfirst : forall text,
             _is_type_comment (Some (mkComment (String "#" (pad +:+ "type:" +:+ text))))
             = match PyStr.split text with
               | first :: _ => negb (String.eqb first "ignore")
               | [] => true
               end).
  { intros text. unfold _is_type_comment. cbn [comment_value PyStr.drop1]. cbv zeta.
    rewrite !(strip_type_text pad text Hpad).
    change (PyStr.startswith "type:" ("type:" +:+ PyStr.rstrip text)) with true.
    change (PyStr.removeprefix "type:" ("type:" +:+ PyStr.rstrip text))
      with (PyStr.rstrip text).
    cbn [negb]. rewrite split_strip, split_rstrip.
    destruct (PyStr.split text) as [| first rest]; [reflexivity |].
    destruct (String.eqb first "ignore"); reflexivity. }
  split; [exact Hfirst |]. split.
  - intros text H. unfold _is_type_comment. cbn [comment_value PyStr.drop1].
    unfold PyStr.strip at 1. rewrite (startswith_rstrip _ _ H). reflexivity.
  - intros pad' rest Hpad' Hrest comment.
    assert (Hno : _is_type_comment comment = false).
    { unfold comment. rewrite Hfirst, (split_blank _ _ Hpad').
      destruct rest as [| c rest]; [reflexivity |].
      simpl in Hrest. unfold PyStr.split.
      change ("ignore" +:+ String c rest)%string
        with (String "i" (String "g" (String "n" (String "o" (String "r"
                (String "e" (String c rest))))))).
      rewrite !split_go_other by reflexivity.
      rewrite (split_go_space _ _ _ Hrest). reflexivity. }
    split; [exact Hno |]. split.
    + intros self o u Hc. unfold leave_TrailingWhitespace.
      rewrite Hc, Hno, andb_false_r. reflexivity.
    + intros self o u Hc. unfold leave_EmptyLine.
      rewrite Hc, Hno, andb_false_r. reflexivity.
Qed.

(** *** Code without type information *)

Section TraversalFacts.

Context {py : PythonAst}.

Lemma visit_ParenthesizableWhitespace_off (self : ConvertTypeComments)
    (node : ParenthesizableWhitespace) :
  aggressively_strip_type_comments self = false ->
  visit_ParenthesizableWhitespace self node = node.
Proof.
  intros Hoff. destruct node as [v | first_line empty_lines indent last_line];
    [reflexivity |].
  simpl. unfold visit_TrailingWhitespace.
  rewrite leave_TrailingWhitespace_off, visit_EmptyLines_off by exact Hoff.
  reflexivity.
Qed.

Lemma visit_MaybeComma_off (self : ConvertTypeComments) (node : MaybeComma) :
  aggressively_strip_type_comments self = false ->
  visit_MaybeComma self node = node.
Proof.
  intros Hoff. destruct node as [| before after]; [reflexivity |].
  simpl. rewrite !visit_ParenthesizableWhitespace_off by exact Hoff. reflexivity.
Qed.

Lemma result_map_id {A : Type} (f : A -> result A) (l : list A) :
  (forall x, f x = Ok x) -> result_map f l = Ok l.
Proof.
  intros Hf. induction l as [| x l IH]; [reflexivity |].
  simpl. rewrite Hf, IH. reflexivity.
Qed.

Lemma visit_Parameters_kept (self : ConvertTypeComments) (infos : list FunctionTypeInfo)
    (node : Parameters) :
  aggressively_strip_type_comments self = false ->
  function_type_info_stack self = infos ++ [mkFunctionTypeInfo ∅ None] ->
  visit_Parameters self node = Ok node.
Proof.
  intros Hoff Hstack.
  destruct (empty_info_keeps_function self infos Hstack) as (HP & _ & _).
  assert (Hp : forall p, visit_Param self p = Ok p).
  { intros p. unfold visit_Param.
    rewrite visit_MaybeComma_off, visit_ParenthesizableWhitespace_off by exact Hoff.
    rewrite HP. destruct p; reflexivity. }
  assert (Ho : forall o, visit_optional_Param self o = Ok o).
  { intros [p |]; [| reflexivity]. simpl. rewrite Hp. reflexivity. }
  unfold visit_Parameters. rewrite !(result_map_id _ _ Hp), !Ho. simpl.
  destruct node; reflexivity.
Qed.

Lemma leave_IndentedBlock_nothing_found (self : ConvertTypeComments)
    (original_node updated_node : IndentedBlock) :
  nothing_found self ->
  leave_IndentedBlock self original_node updated_node = Ok updated_node.
Proof.
  intros (_ & Hall & Hbal). unfold leave_IndentedBlock.
  destruct (last (function_body_stack self)) as [top |] eqn:Htop; [| reflexivity].
  destruct (negb _); [reflexivity |].
  destruct (last (function_type_info_stack self)) as [info |] eqn:Hinfo.
  - apply last_Some in Hinfo as [infos Hinfo]. rewrite Hinfo in Hall.
    apply Forall_app in Hall as [_ Hall]. apply Forall_cons in Hall as [-> _].
    reflexivity.
  - apply last_None in Hinfo. rewrite (Hbal Hinfo) in Htop. discriminate.
Qed.

Lemma visit_body_with_kept (visit : Visit) (l : list BaseStatement) :
  Forall (keeps_statement visit) l ->
  forall self, nothing_found self -> visit_body_with visit self l = Ok (self, l).
Proof.
  induction 1 as [| x l Hx _ IH]; intros self Hself; [reflexivity |].
  simpl. rewrite (Hx self Hself). simpl. rewrite (IH self Hself). reflexivity.
Qed.

Lemma visit_suite_with_kept (visit : Visit) (suite : BaseSuite) :
  Forall (keeps_statement visit) (suite_statements suite) ->
  forall self, nothing_found self -> visit_suite_with visit self suite = Ok (self, suite).
Proof.
  intros Hall self Hself. destruct suite as [[id header body] | [body tw]]; simpl in *.
  - rewrite (visit_body_with_kept visit body Hall self Hself). simpl.
    unfold visit_TrailingWhitespace.
    rewrite leave_TrailingWhitespace_off by apply Hself.
    rewrite leave_IndentedBlock_nothing_found by exact Hself. reflexivity.
  - unfold visit_SimpleStatementSuite, visit_TrailingWhitespace. simpl.
    rewrite leave_TrailingWhitespace_off by apply Hself. reflexivity.
Qed.

Lemma visit_optional_suite_with_kept (visit : Visit) (suite : option BaseSuite) :
  Forall (keeps_statement visit) (from_option suite_statements [] suite) ->
  forall self, nothing_found self ->
               visit_optional_suite_with visit self suite = Ok (self, suite).
Proof.
  intros Hall self Hself. destruct suite as [b |]; [| reflexivity]. simpl in *.
  rewrite (visit_suite_with_kept visit b Hall self Hself). reflexivity.
Qed.

Lemma nothing_to_convert_inner (P : BaseStatement -> Prop) (l : list BaseStatement) :
  Forall (fun s => nothing_to_convert s -> P s) l ->
  Forall nothing_to_convert l -> Forall P l.
Proof.
  induction 1 as [| x l Hx _ IH]; intros Hall; [constructor |].
  apply Forall_cons in Hall as [Hx' Hall]. constructor; [exact (Hx Hx') | exact (IH Hall)].
Qed.

Lemma visit_statement_kept (s : BaseStatement) :
  nothing_to_convert s -> keeps_statement visit_statement s.
Proof.
  induction s as [s IH] using BaseStatement_nested_ind.
  intros Hs. destruct Hs as [s Hlocal Hinner].
  pose proof (nothing_to_convert_inner _ _ IH Hinner) as Hkept. clear IH Hinner.
  intros self Hself. pose proof Hself as (Hoff & Hempty & Hbal).
  destruct s as [n | [ll t i body orelse] | [ll items body] | [ll name ps ret body]
                 | [ll test body orelse]];
    cbn [visit_statement]; simpl in Hkept, Hlocal.
  - rewrite visit_SimpleStatementLine_off by exact Hoff.
    assert (Hleave : leave_SimpleStatementLine n n = Ok (Updated n)).
    { unfold leave_SimpleStatementLine.
      destruct (last (ssl_body n)) as [[assign | | | |] |]; try reflexivity;
        [| contradiction].
      rewrite Hlocal. reflexivity. }
    rewrite Hleave. reflexivity.
  - apply Forall_app in Hkept as [Hbody Horelse].
    rewrite (visit_suite_with_kept _ _ Hbody self Hself). simpl.
    rewrite (visit_optional_suite_with_kept _ _ Horelse self Hself). simpl.
    rewrite visit_EmptyLines_off by exact Hoff.
    rewrite (leave_For_no_annotation _ _ Hlocal). reflexivity.
  - rewrite (visit_suite_with_kept _ _ Hkept self Hself). simpl.
    rewrite visit_EmptyLines_off by exact Hoff.
    rewrite (leave_With_no_annotation _ _ Hlocal). reflexivity.
  - unfold visit_FunctionDef. rewrite Hlocal. simpl.
    rewrite (visit_Parameters_kept _ (function_type_info_stack self)) by reflexivity.
    simpl.
    match goal with
    | |- context [visit_suite_with visit_statement ?s2 body] =>
        assert (Hself2 : nothing_found s2)
    end.
    { repeat split; simpl.
      - apply Forall_app. split; [exact Hempty |]. constructor; [reflexivity | constructor].
      - intros Habs. apply app_eq_nil in Habs as [_ Habs]. discriminate. }
    rewrite (visit_suite_with_kept _ _ Hkept _ Hself2). simpl.
    unfold leave_FunctionDef. simpl. rewrite !last_snoc, !removelast_last.
    rewrite visit_EmptyLines_off by reflexivity.
    destruct self as [infos bodies flag]. simpl in Hoff. subst flag.
    destruct ret; reflexivity.
  - apply Forall_app in Hkept as [Hbody Horelse].
    rewrite (visit_suite_with_kept _ _ Hbody self Hself). simpl.
    rewrite (visit_optional_suite_with_kept _ _ Horelse self Hself). simpl.
    rewrite visit_EmptyLines_off by exact Hoff. reflexivity.
Qed.

(** *** Bounds *)

Lemma visit_statements_in_bounds (l : list BaseStatement) :
  Forall (in_bounds visit_statement) l ->
  forall self,
    between_statements self ->
    match visit_statements self l with
    | Ok (_, out) => l <> [] -> out <> []
    | Raise e => e <> IndexError
    end.
Proof.
  unfold visit_statements.
  induction 1 as [| x l Hx _ IH]; intros self Hself; simpl; [congruence |].
  specialize (Hx self Hself).
  destruct (visit_statement self x) as [[self1 out1] |] eqn:H1; simpl; [| exact Hx].
  apply visit_statement_keeps_state in H1; [| apply Hself]. subst self1.
  specialize (IH self Hself).
  destruct (visit_body_with visit_statement self l) as [[self2 out2] |]; simpl;
    [| exact IH].
  intros _ Habs. apply app_eq_nil in Habs as [Habs _]. contradiction.
Qed.

Lemma leave_IndentedBlock_in_bounds (self : ConvertTypeComments)
    (original_node updated_node : IndentedBlock) :
  between_statements self -> ib_body updated_node <> [] ->
  exists b, leave_IndentedBlock self original_node updated_node = Ok b.
Proof.
  intros [_ Hbal] Hbody. unfold leave_IndentedBlock.
  destruct (last (function_body_stack self)) as [top |] eqn:Htop;
    [| eexists; reflexivity].
  destruct (negb _); [eexists; reflexivity |].
  destruct (last (function_type_info_stack self)) as [info |] eqn:Hinfo.
  - destruct (is_empty info); [eexists; reflexivity |].
    destruct (_is_type_comment _); simpl;
      (destruct (ib_body updated_node); [contradiction | eexists; reflexivity]).
  - apply last_None in Hinfo. rewrite (Hbal Hinfo) in Htop. discriminate.
Qed.

Lemma visit_suite_in_bounds (suite : BaseSuite) :
  suite_has_statements suite ->
  Forall (in_bounds visit_statement) (suite_statements suite) ->
  forall self,
    between_statements self ->
    match visit_suite_with visit_statement self suite with
    | Ok (self', _) => self' = self
    | Raise e => e <> IndexError
    end.
Proof.
  intros Hsuite Hall self Hself.
  destruct suite as [[id header body] | b]; simpl in *; [| reflexivity].
  pose proof (visit_statements_in_bounds body Hall self Hself) as Hb.
  unfold visit_statements in Hb.
  destruct (visit_body_with visit_statement self body) as [[self1 out1] |] eqn:H1;
    simpl; [| exact Hb].
  apply (visit_statements_keeps_state body) in H1; [| apply Hself]. subst self1.
  destruct (leave_IndentedBlock_in_bounds self
              {| ib_id := id; ib_header := header; ib_body := body |}
              {| ib_id := id; ib_header := visit_TrailingWhitespace self header;
                 ib_body := out1 |} Hself (Hb Hsuite)) as [b ->].
  reflexivity.
Qed.

Lemma visit_optional_suite_in_bounds (suite : option BaseSuite) :
  from_option suite_has_statements True suite ->
  Forall (in_bounds visit_statement) (from_option suite_statements [] suite) ->
  forall self,
    between_statements self ->
    match visit_optional_suite_with visit_statement self suite with
    | Ok (self', _) => self' = self
    | Raise e => e <> IndexError
    end.
Proof.
  intros Hsuite Hall self Hself. destruct suite as [b |]; simpl in *; [| reflexivity].
  pose proof (visit_suite_in_bounds b Hsuite Hall self Hself) as Hb.
  destruct (visit_suite_with visit_statement self b) as [[self1 b1] |]; exact Hb.
Qed.

Lemma as_parsed_inner (P : BaseStatement -> Prop) (l : list BaseStatement) :
  Forall (fun s => as_parsed s -> P s) l -> Forall as_parsed l -> Forall P l.
Proof.
  induction 1 as [| x l Hx _ IH]; intros Hall; [constructor |].
  apply Forall_cons in Hall as [Hx' Hall]. constructor; [exact (Hx Hx') | exact (IH Hall)].
Qed.

Lemma visit_statement_in_bounds (s : BaseStatement) :
  as_parsed s -> in_bounds visit_statement s.
Proof.
  induction s as [s IH] using BaseStatement_nested_ind.
  intros Hs. destruct Hs as [s Hlocal Hinner].
  pose proof (as_parsed_inner _ _ IH Hinner) as Hin. clear IH Hinner.
  intros self Hself. pose proof Hself as (Hoff & Hbal).
  destruct s as [n | [ll t i body orelse] | [ll items body] | [ll name ps ret body]
                 | [ll test body orelse]];
    cbn [visit_statement]; simpl in Hin, Hlocal.
  - rewrite visit_SimpleStatementLine_off by exact Hoff.
    destruct (leave_SimpleStatementLine n n) as [r | e] eqn:Hleave; simpl.
    + apply leave_SimpleStatementLine_inv in Hleave
        as [-> | [(? & ? & ? & _ & _ & ->) | (? & ? & ? & ? & ? & _ & _ & _ & ->)]];
        discriminate.
    + apply leave_SimpleStatementLine_raises in Hleave
        as [[_ Habs] | [[-> _] | [[-> _] | [-> _]]]];
        [contradiction | discriminate..].
  - destruct Hlocal as [Hb Ho]. apply Forall_app in Hin as [Hbody Horelse].
    pose proof (visit_suite_in_bounds body Hb Hbody self Hself) as H1.
    destruct (visit_suite_with visit_statement self body) as [[self1 b1] |]; simpl;
      [subst self1 | exact H1].
    pose proof (visit_optional_suite_in_bounds orelse Ho Horelse self Hself) as H2.
    destruct (visit_optional_suite_with visit_statement self orelse)
      as [[self2 o2] |]; simpl; [subst self2 | exact H2].
    destruct (leave_For _ _) as [r | e] eqn:Hleave; simpl.
    + apply leave_For_inv in Hleave as [-> | (? & ? & decls & _ & _ & ->)];
        [discriminate |].
      simpl. intros Habs. apply app_eq_nil in Habs as [_ Habs]. discriminate.
    + apply leave_For_raises in Hleave as [[-> _] | [-> _]]; discriminate.
  - pose proof (visit_suite_in_bounds body Hlocal Hin self Hself) as H1.
    destruct (visit_suite_with visit_statement self body) as [[self1 b1] |]; simpl;
      [subst self1 | exact H1].
    destruct (leave_With _ _) as [r | e] eqn:Hleave; simpl.
    + apply leave_With_inv in Hleave as [-> | (? & ? & ? & decls & _ & _ & _ & ->)];
        [discriminate |].
      simpl. intros Habs. apply app_eq_nil in Habs as [_ Habs]. discriminate.
    + apply leave_With_raises in Hleave as [[-> _] | [-> _]]; discriminate.
  - unfold visit_FunctionDef.
    destruct (from_cst _) as [info | e] eqn:H0; simpl;
      [| apply from_cst_raises in H0 as [-> _]; discriminate].
    destruct (visit_Parameters _ ps) as [ps' | e] eqn:Hps; simpl.
    2: { apply visit_Parameters_raises in Hps as [_ Habs]. simpl in Habs.
         apply app_eq_nil in Habs as [_ Habs]. discriminate. }
    match goal with
    | |- context [visit_suite_with visit_statement ?s2 body] =>
        assert (Hself2 : between_statements s2)
    end.
    { split; [reflexivity |]. simpl. intros Habs.
      apply app_eq_nil in Habs as [_ Habs]. discriminate. }
    pose proof (visit_suite_in_bounds body Hlocal Hin _ Hself2) as H1.
    destruct (visit_suite_with visit_statement _ body) as [[self1 b1] |]; simpl;
      [subst self1 | exact H1].
    unfold leave_FunctionDef. simpl. rewrite !last_snoc.
    destruct ret, (returns info); simpl; discriminate.
  - destruct Hlocal as [Hb Ho]. apply Forall_app in Hin as [Hbody Horelse].
    pose proof (visit_suite_in_bounds body Hb Hbody self Hself) as H1.
    destruct (visit_suite_with visit_statement self body) as [[self1 b1] |]; simpl;
      [subst self1 | exact H1].
    pose proof (visit_optional_suite_in_bounds orelse Ho Horelse self Hself) as H2.
    destruct (visit_optional_suite_with visit_statement self orelse)
      as [[self2 o2] |]; simpl; [discriminate | exact H2].
Qed.

(** *** One statement at a time *)

Lemma visit_statements_one_by_one (self : ConvertTypeComments) (l : list BaseStatement) :
  aggressively_strip_type_comments self = false ->
  visit_statements self l
  = let* outs := result_map (rewritten self) l in Ok (self, concat outs).
Proof.
  intros Hoff. unfold visit_statements, rewritten.
  induction l as [| x l IH]; [reflexivity |].
  simpl. destruct (visit_statement self x) as [[self1 out1] |] eqn:H1; [| reflexivity].
  apply visit_statement_keeps_state in H1; [| exact Hoff]. subst self1.
  simpl. rewrite IH.
  destruct (result_map _ l) as [outs |]; reflexivity.
Qed.

(** X19. Statements are rewritten one by one. With the stripping off, and
    so for the body of a module, visiting a sequence of statements is
    visiting each of them from the same state and putting the results
    together in order; the first exception in that order is the one
    raised. *)
Theorem statements_are_rewritten_one_by_one (m : Module_) :
  transform_module m
  = (let* outs := result_map (rewritten init) (module_body m) in
     Ok {| module_header := module_header m; module_body := concat outs |})
  /\ (forall self l,
        aggressively_strip_type_comments self = false ->
        visit_statements self l
        = let* outs := result_map (rewritten self) l in Ok (self, concat outs)).
Proof.
  split; [| exact visit_statements_one_by_one].
  unfold transform_module.
  rewrite visit_statements_one_by_one by reflexivity.
  rewrite visit_EmptyLines_off by reflexivity.
  destruct (result_map _ (module_body m)); reflexivity.
Qed.

(** X20. The common case. A line whose last statement assigns to one
    target that is no tuple, and whose type comment decodes to a type that
    is no tuple, is kept as one line: the assignment becomes an annotated
    assignment to the same target with the same value and semicolon, the
    statements before it and the lines before the line stay, and the type
    comment and the whitespace before it are removed. *)
Theorem single_name_becomes_annotated_assignment
    (original_node updated_node : SimpleStatementLine) (node : Assign)
    (annotation : ast_expr) (t : AssignTarget) (raw : string) :
  last (ssl_body updated_node) = Some (Small_Assign node) ->
  _annotation_for_statement (Stmt_SimpleStatementLine original_node)
  = Ok (Some annotation) ->
  targets node = [t] ->
  is_Tuple (target t) = false ->
  is_BaseAssignTargetExpression (target t) = true ->
  unpack_annotation annotation = UA_str raw ->
  leave_SimpleStatementLine original_node updated_node
  = Ok (Updated
          {| ssl_leading_lines := ssl_leading_lines updated_node;
             ssl_body :=
               removelast (ssl_body updated_node)
                 ++ [Small_AnnAssign
                       {| ann_target := target t;
                          ann_annotation := _convert_annotation raw;
                          ann_value := Some (assign_value node);
                          ann_semicolon := assign_semicolon node |}];
             ssl_trailing_whitespace :=
               {| tw_whitespace := ""; tw_comment := None;
                  tw_newline := tw_newline (ssl_trailing_whitespace updated_node) |} |}).
Proof.
  intros Hlast Hann Htargets Htuple Htarget Hraw.
  unfold leave_SimpleStatementLine. rewrite Hlast, Hann. simpl.
  unfold convert_Assign, zipped_targets. rewrite Htargets. simpl.
  rewrite (unpack_target_not_Tuple _ Htuple), Hraw. simpl.
  rewrite Htarget. reflexivity.
Qed.

End TraversalFacts.

(** ** The full traversal *)

Section FullTraversalFacts.

Context {py : PythonAst}.

(** *** Lists, and induction on expressions *)

Lemma visit_list_with_result_map {A : Type} (visit : A -> result A) (l : list A) :
  visit_list_with visit l = result_map visit l.
Proof. induction l as [| x l IH]; [reflexivity |]. simpl. rewrite IH. reflexivity. Qed.

Lemma visit_list_with_id {A : Type} (visit : A -> result A) (l : list A) :
  Forall (fun x => visit x = Ok x) l -> visit_list_with visit l = Ok l.
Proof.
  induction 1 as [| x l Hx _ IH]; [reflexivity |]. simpl. rewrite Hx. simpl.
  rewrite IH. reflexivity.
Qed.

Lemma forallb_Forall_eq {A : Type} (f : A -> bool) (l : list A) :
  forallb f l = true -> Forall (fun x => f x = true) l.
Proof.
  induction l as [| x l IH]; [constructor |]. simpl. intros H.
  apply andb_true_iff in H as [Hx Hl]. constructor; [exact Hx | exact (IH Hl)].
Qed.

Lemma BaseExpression_nested_ind (P : BaseExpression -> Prop)
    (step : forall e, Forall P (expression_children e) -> P e) :
  forall e, P e.
Proof.
  fix IH 1. intros e. apply step.
  destruct e as [v | v a | v s | elements | elements | v | v | v | f args | ps body];
    simpl.
  - constructor.
  - constructor; [apply IH | constructor].
  - constructor; [apply IH |].
    induction s as [| x s IHs]; constructor; [apply IH | exact IHs].
  - induction elements as [| x l IHl]; constructor; [apply IH | exact IHl].
  - induction elements as [| x l IHl]; constructor; [apply IH | exact IHl].
  - constructor.
  - constructor.
  - constructor.
  - constructor; [apply IH |].
    induction args as [| x l IHl]; constructor; [apply IH | exact IHl].
  - apply Forall_app. split; [| constructor; [apply IH | constructor]].
    destruct ps as [pos ps sa ks sk]. unfold every_Param. simpl.
    rewrite !map_app, !concat_app. repeat apply Forall_app_2.
    + induction pos as [| [star name [[a] |] [d |] comma ws] l IHl]; simpl;
        repeat constructor; try apply IH; exact IHl.
    + induction ps as [| [star name [[a] |] [d |] comma ws] l IHl]; simpl;
        repeat constructor; try apply IH; exact IHl.
    + destruct sa as [[star name [[a] |] [d |] comma ws] |]; simpl;
        repeat constructor; apply IH.
    + induction ks as [| [star name [[a] |] [d |] comma ws] l IHl]; simpl;
        repeat constructor; try apply IH; exact IHl.
    + destruct sk as [[star name [[a] |] [d |] comma ws] |]; simpl;
        repeat constructor; apply IH.
Qed.

(** *** Expressions without a lambda *)

Lemma forallb_concat_map {A B : Type} (f : B -> bool) (g : A -> list B) (l : list A) :
  forallb f (concat (map g l)) = forallb (fun x => forallb f (g x)) l.
Proof.
  induction l as [| x l IH]; [reflexivity |]. simpl. rewrite forallb_app, IH.
  reflexivity.
Qed.

Lemma visit_option_with_id {A : Type} (visit : A -> result A) (o : option A) :
  (forall x, o = Some x -> visit x = Ok x) -> visit_option_with visit o = Ok o.
Proof.
  destruct o as [x |]; [| reflexivity]. intros H. simpl. rewrite (H x eq_refl).
  reflexivity.
Qed.

Lemma visit_expressions_lambda_free (self : ConvertTypeComments)
    (l : list BaseExpression) :
  Forall (fun e => lambda_free e = true -> visit_expression self e = Ok e) l ->
  forallb lambda_free l = true ->
  visit_list_with (visit_expression self) l = Ok l.
Proof.
  induction 1 as [| x l Hx _ IH]; [reflexivity |]. simpl. intros H.
  apply andb_true_iff in H as [Hfx Hfl]. rewrite (Hx Hfx). simpl.
  rewrite (IH Hfl). reflexivity.
Qed.

(** No hook runs inside an expression that holds no lambda: it is returned
    as it was. *)
Lemma visit_expression_lambda_free (self : ConvertTypeComments) (e : BaseExpression) :
  lambda_free e = true -> visit_expression self e = Ok e.
Proof.
  induction e as [e IH] using BaseExpression_nested_ind.
  destruct e as [v | v a | v s | elements | elements | v | v | v | f args | ps body];
    simpl in *; try reflexivity; try discriminate.
  - intros H. apply Forall_cons in IH as [Hv _]. rewrite (Hv H). reflexivity.
  - intros H. apply andb_true_iff in H as [Hv Hs].
    apply Forall_cons in IH as [IHv IHs]. rewrite (IHv Hv). simpl.
    rewrite (visit_expressions_lambda_free self s IHs Hs). reflexivity.
  - intros H. rewrite (visit_expressions_lambda_free self elements IH H). reflexivity.
  - intros H. rewrite (visit_expressions_lambda_free self elements IH H). reflexivity.
  - intros H. apply andb_true_iff in H as [Hf Ha].
    apply Forall_cons in IH as [IHf IHa]. rewrite (IHf Hf). simpl.
    rewrite (visit_expressions_lambda_free self args IHa Ha). reflexivity.
Qed.

Lemma visit_expressions_without_lambda (self : ConvertTypeComments)
    (l : list BaseExpression) :
  forallb lambda_free l = true -> visit_list_with (visit_expression self) l = Ok l.
Proof.
  intros H. apply visit_list_with_id. apply forallb_Forall_eq in H.
  eapply Forall_impl; [exact H |]. intros e. apply visit_expression_lambda_free.
Qed.

Lemma visit_optional_expression_without_lambda (self : ConvertTypeComments)
    (o : option BaseExpression) :
  forallb lambda_free (option_list o) = true ->
  visit_option_with (visit_expression self) o = Ok o.
Proof.
  destruct o as [e |]; [| reflexivity]. simpl. rewrite andb_true_r. intros H.
  rewrite (visit_expression_lambda_free self e H). reflexivity.
Qed.

Lemma visit_optional_Annotation_without_lambda (self : ConvertTypeComments)
    (o : option Annotation) :
  forallb lambda_free (option_list (annotation <$> o)) = true ->
  visit_option_with (visit_Annotation_with (visit_expression self)) o = Ok o.
Proof.
  destruct o as [[e] |]; [| reflexivity]. simpl. rewrite andb_true_r. intros H.
  rewrite (visit_expression_lambda_free self e H). reflexivity.
Qed.

Lemma traverse_small_statement_without_lambda (self : ConvertTypeComments)
    (node : BaseSmallStatement) :
  forallb lambda_free (small_statement_expressions node) = true ->
  traverse_small_statement self node = Ok node.
Proof.
  destruct node as [[ts v semi] | [t a v semi] | v semi | semi | v semi]; simpl.
  - rewrite forallb_app. simpl. rewrite andb_true_r. intros H.
    apply andb_true_iff in H as [Hts Hv].
    rewrite (visit_list_with_id (traverse_AssignTarget self) ts).
    + simpl. rewrite (visit_expression_lambda_free self v Hv). reflexivity.
    + clear Hv. induction ts as [| [e w1 w2] ts IHts]; [constructor |].
      simpl in Hts. apply andb_true_iff in Hts as [He Hts].
      constructor; [| exact (IHts Hts)].
      unfold traverse_AssignTarget. simpl.
      rewrite (visit_expression_lambda_free self e He). reflexivity.
  - intros H. apply andb_true_iff in H as [Ht H]. apply andb_true_iff in H as [Ha Hv].
    rewrite (visit_expression_lambda_free self t Ht). simpl.
    destruct a as [a]. simpl in *. rewrite (visit_expression_lambda_free self a Ha).
    simpl. rewrite (visit_optional_expression_without_lambda self v Hv). reflexivity.
  - rewrite andb_true_r. intros H. rewrite (visit_expression_lambda_free self v H).
    reflexivity.
  - reflexivity.
  - intros H. rewrite (visit_optional_expression_without_lambda self v H). reflexivity.
Qed.

Lemma traverse_small_statements_without_lambda (self : ConvertTypeComments)
    (l : list BaseSmallStatement) :
  forallb lambda_free (concat (map small_statement_expressions l)) = true ->
  visit_list_with (traverse_small_statement self) l = Ok l.
Proof.
  rewrite forallb_concat_map. intros H. apply visit_list_with_id.
  apply forallb_Forall_eq in H. eapply Forall_impl; [exact H |].
  intros s. apply traverse_small_statement_without_lambda.
Qed.

Lemma traverse_SimpleStatementLine_without_lambda (self : ConvertTypeComments)
    (node : SimpleStatementLine) :
  forallb lambda_free (concat (map small_statement_expressions (ssl_body node))) = true ->
  traverse_SimpleStatementLine self node = visit_SimpleStatementLine self node.
Proof.
  intros H. unfold traverse_SimpleStatementLine, visit_SimpleStatementLine.
  rewrite (traverse_small_statements_without_lambda self _ H). simpl.
  destruct (leave_SimpleStatementLine _ _) as [[n | nodes |] | e]; reflexivity.
Qed.

Lemma traverse_Param_without_lambda (self : ConvertTypeComments) (node : Param) :
  forallb lambda_free (Param_expressions node) = true ->
  traverse_Param_with (visit_expression self) self node = visit_Param self node.
Proof.
  destruct node as [star name ann default comma ws]. unfold Param_expressions. simpl.
  rewrite forallb_app. intros H. apply andb_true_iff in H as [Ha Hd].
  rewrite (visit_optional_Annotation_without_lambda self ann Ha). simpl.
  rewrite (visit_optional_expression_without_lambda self default Hd). reflexivity.
Qed.

Lemma result_map_ext_Forall {A B : Type} (f g : A -> result B) (l : list A) :
  Forall (fun x => f x = g x) l -> result_map f l = result_map g l.
Proof.
  induction 1 as [| x l Hx _ IH]; [reflexivity |]. simpl. rewrite Hx, IH. reflexivity.
Qed.

Lemma traverse_Params_without_lambda (self : ConvertTypeComments) (l : list Param) :
  forallb lambda_free (concat (map Param_expressions l)) = true ->
  visit_list_with (traverse_Param_with (visit_expression self) self) l
  = result_map (visit_Param self) l.
Proof.
  rewrite forallb_concat_map. intros H. rewrite visit_list_with_result_map.
  apply result_map_ext_Forall. apply forallb_Forall_eq in H.
  eapply Forall_impl; [exact H |]. intros p. apply traverse_Param_without_lambda.
Qed.

Lemma traverse_optional_Param_without_lambda (self : ConvertTypeComments)
    (o : option Param) :
  forallb lambda_free (concat (map Param_expressions (option_list o))) = true ->
  visit_option_with (traverse_Param_with (visit_expression self) self) o
  = visit_optional_Param self o.
Proof.
  destruct o as [p |]; [| reflexivity]. simpl. rewrite app_nil_r. intros H.
  rewrite (traverse_Param_without_lambda self p H). reflexivity.
Qed.

Lemma traverse_Parameters_without_lambda (self : ConvertTypeComments)
    (node : Parameters) :
  forallb lambda_free (concat (map Param_expressions (every_Param node))) = true ->
  traverse_Parameters self node = visit_Parameters self node.
Proof.
  destruct node as [pos ps sa ks sk]. unfold every_Param. simpl.
  rewrite !map_app, !concat_app, !forallb_app. intros H.
  apply andb_true_iff in H as [Hpos H]. apply andb_true_iff in H as [Hps H].
  apply andb_true_iff in H as [Hsa H]. apply andb_true_iff in H as [Hks Hsk].
  unfold traverse_Parameters, traverse_Parameters_with, visit_Parameters. simpl.
  rewrite (traverse_Params_without_lambda self ps Hps).
  rewrite (traverse_optional_Param_without_lambda self sa Hsa).
  rewrite (traverse_Params_without_lambda self ks Hks).
  rewrite (traverse_optional_Param_without_lambda self sk Hsk).
  rewrite (traverse_Params_without_lambda self pos Hpos). reflexivity.
Qed.

Lemma visit_body_with_ext (visit1 visit2 : Visit) (l : list BaseStatement) :
  Forall (fun s => forall self, visit1 self s = visit2 self s) l ->
  forall self, visit_body_with visit1 self l = visit_body_with visit2 self l.
Proof.
  induction 1 as [| x l Hx _ IH]; intros self; [reflexivity |].
  simpl. rewrite Hx. destruct (visit2 self x) as [[self1 out1] |]; [| reflexivity].
  simpl. rewrite IH. reflexivity.
Qed.

Lemma traverse_suite_without_lambda (visit1 visit2 : Visit) (suite : BaseSuite) :
  forallb lambda_free (suite_expressions suite) = true ->
  Forall (fun s => forall self, visit1 self s = visit2 self s)
    (suite_statements suite) ->
  forall self, traverse_suite_with visit1 self suite = visit_suite_with visit2 self suite.
Proof.
  intros Hfree Hall self. destruct suite as [[id header body] | b]; simpl in *.
  - rewrite (visit_body_with_ext visit1 visit2 body Hall self). reflexivity.
  - unfold traverse_SimpleStatementSuite.
    rewrite (traverse_small_statements_without_lambda self _ Hfree). reflexivity.
Qed.

Lemma traverse_optional_suite_without_lambda (visit1 visit2 : Visit)
    (suite : option BaseSuite) :
  forallb lambda_free (from_option suite_expressions [] suite) = true ->
  Forall (fun s => forall self, visit1 self s = visit2 self s)
    (from_option suite_statements [] suite) ->
  forall self,
    traverse_optional_suite_with visit1 self suite
    = visit_optional_suite_with visit2 self suite.
Proof.
  intros Hfree Hall self. destruct suite as [b |]; [| reflexivity]. simpl in *.
  rewrite (traverse_suite_without_lambda visit1 visit2 b Hfree Hall self). reflexivity.
Qed.

Lemma without_lambda_inner (P : BaseStatement -> Prop) (l : list BaseStatement) :
  Forall (fun s => without_lambda s -> P s) l -> Forall without_lambda l -> Forall P l.
Proof.
  induction 1 as [| x l Hx _ IH]; intros Hall; [constructor |].
  apply Forall_cons in Hall as [Hx' Hall]. constructor; [exact (Hx Hx') | exact (IH Hall)].
Qed.

Lemma traverse_WithItems_without_lambda (self : ConvertTypeComments)
    (l : list WithItem) :
  forallb lambda_free (concat (map WithItem_expressions l)) = true ->
  visit_list_with (traverse_WithItem self) l = Ok l.
Proof.
  rewrite forallb_concat_map. intros H. apply visit_list_with_id.
  apply forallb_Forall_eq in H. eapply Forall_impl; [exact H |].
  intros [e [[n] |]]; unfold traverse_WithItem; simpl; intros Hi.
  - apply andb_true_iff in Hi as [He Hn]. rewrite andb_true_r in Hn.
    rewrite (visit_expression_lambda_free self e He). simpl.
    rewrite (visit_expression_lambda_free self n Hn). reflexivity.
  - rewrite andb_true_r in Hi. rewrite (visit_expression_lambda_free self e Hi).
    reflexivity.
Qed.

(** Without a lambda, the full traversal of a statement is the traversal
    of its statements. *)
Lemma traverse_statement_without_lambda (s : BaseStatement) :
  without_lambda s -> forall self, traverse_statement self s = visit_statement self s.
Proof.
  induction s as [s IH] using BaseStatement_nested_ind.
  intros Hs. destruct Hs as [s Hfree Hinner].
  pose proof (without_lambda_inner _ _ IH Hinner) as Hsame. clear IH Hinner.
  intros self.
  destruct s as [n | [ll t i body orelse] | [ll items body] | [ll name ps ret body]
                 | [ll test body orelse]];
    cbn [traverse_statement visit_statement]; simpl in Hsame, Hfree.
  - rewrite (traverse_SimpleStatementLine_without_lambda self n Hfree). reflexivity.
  - apply andb_true_iff in Hfree as [Ht Hfree].
    apply andb_true_iff in Hfree as [Hi Hfree].
    rewrite forallb_app in Hfree. apply andb_true_iff in Hfree as [Hb Ho].
    apply Forall_app in Hsame as [Hbody Horelse].
    rewrite (visit_expression_lambda_free self t Ht). simpl.
    rewrite (visit_expression_lambda_free self i Hi). simpl.
    rewrite (traverse_suite_without_lambda _ visit_statement body Hb Hbody self).
    destruct (visit_suite_with visit_statement self body) as [[self1 b1] |];
      [| reflexivity].
    simpl.
    rewrite (traverse_optional_suite_without_lambda _ visit_statement orelse Ho Horelse).
    reflexivity.
  - rewrite forallb_app in Hfree. apply andb_true_iff in Hfree as [Hi Hb].
    rewrite (traverse_WithItems_without_lambda self items Hi). simpl.
    rewrite (traverse_suite_without_lambda _ visit_statement body Hb Hsame self).
    reflexivity.
  - rewrite !forallb_app in Hfree. apply andb_true_iff in Hfree as [Hps Hfree].
    apply andb_true_iff in Hfree as [Hret Hb].
    destruct (visit_FunctionDef self _) as [self1 |]; [| reflexivity]. simpl.
    rewrite (traverse_Parameters_without_lambda self1 ps Hps).
    destruct (visit_Parameters self1 ps) as [ps' |]; [| reflexivity]. simpl.
    rewrite (visit_optional_Annotation_without_lambda self1 ret Hret). simpl.
    rewrite (traverse_suite_without_lambda _ visit_statement body Hb Hsame).
    reflexivity.
  - apply andb_true_iff in Hfree as [Ht Hfree].
    rewrite forallb_app in Hfree. apply andb_true_iff in Hfree as [Hb Ho].
    apply Forall_app in Hsame as [Hbody Horelse].
    rewrite (visit_expression_lambda_free self test Ht). simpl.
    rewrite (traverse_suite_without_lambda _ visit_statement body Hb Hbody self).
    destruct (visit_suite_with visit_statement self body) as [[self1 b1] |];
      [| reflexivity].
    simpl.
    rewrite (traverse_optional_suite_without_lambda _ visit_statement orelse Ho Horelse).
    reflexivity.
Qed.

(** On a module that holds no lambda the run is the traversal of the
    statements: what is proved of [transform_module] holds of the run. *)
Lemma traverse_module_without_lambda (m : Module_) :
  Forall without_lambda (module_body m) -> traverse_module m = transform_module m.
Proof.
  intros Hall. unfold traverse_module, transform_module, traverse_statements,
    visit_statements.
  rewrite (visit_body_with_ext traverse_statement visit_statement (module_body m));
    [reflexivity |].
  eapply Forall_impl; [exact Hall |]. intros s. apply traverse_statement_without_lambda.
Qed.


(** *** The exceptions of a run *)

Lemma raised_in_an_expression_run (e : PyException) :
  raised_in_an_expression e -> raised_by_a_run e.
Proof. unfold raised_by_a_run. intros [-> | ->]; tauto. Qed.

Lemma raised_by_the_codemod_run (e : PyException) :
  raised_by_the_codemod e -> raised_by_a_run e.
Proof. unfold raised_by_a_run. intros [-> | [-> | [-> | ->]]]; tauto. Qed.

Lemma visit_list_with_raises {A : Type} (visit : A -> result A) (l : list A)
    (e : PyException) :
  visit_list_with visit l = Raise e -> Exists (fun x => visit x = Raise e) l.
Proof.
  induction l as [| x l IH]; [discriminate |]. simpl.
  destruct (visit x) as [x' |] eqn:Hx; simpl.
  - destruct (visit_list_with visit l) as [l' |]; [discriminate |]. simpl.
    intros H. injection H as <-. apply Exists_cons_tl. apply IH. reflexivity.
  - intros H. injection H as <-. apply Exists_cons_hd. exact Hx.
Qed.

Lemma visit_expressions_raise (visit_expr : BaseExpression -> result BaseExpression)
    (l : list BaseExpression) (e : PyException) :
  Forall (fun x => forall e, visit_expr x = Raise e -> raised_in_an_expression e) l ->
  visit_list_with visit_expr l = Raise e -> raised_in_an_expression e.
Proof.
  intros Hall H. apply visit_list_with_raises in H.
  induction Hall as [| x l Hx _ IH]; [inversion H |].
  apply Exists_cons in H as [H | H]; [exact (Hx _ H) | exact (IH H)].
Qed.

Lemma traverse_Param_with_raises
    (visit_expr : BaseExpression -> result BaseExpression)
    (self : ConvertTypeComments) (node : Param) (e : PyException) :
  Forall (fun x => forall e, visit_expr x = Raise e -> raised_in_an_expression e)
    (Param_expressions node) ->
  traverse_Param_with visit_expr self node = Raise e ->
  raised_in_an_expression e.
Proof.
  destruct node as [star name ann default comma ws]. unfold Param_expressions. simpl.
  intros Hall. apply Forall_app in Hall as [Ha Hd].
  destruct ann as [[a] |]; simpl.
  - apply Forall_cons in Ha as [Ha _].
    destruct (visit_expr a) as [a' |] eqn:Hva; simpl;
      [| intros H; injection H as <-; first [exact (Ha _ Hva) | exact (Ha _ eq_refl)]].
    destruct default as [d |]; simpl.
    + apply Forall_cons in Hd as [Hd _].
      destruct (visit_expr d) as [d' |] eqn:Hvd; simpl;
        [| intros H; injection H as <-; first [exact (Hd _ Hvd) | exact (Hd _ eq_refl)]].
      intros H. apply leave_Param_raises in H as (-> & _). left. reflexivity.
    + intros H. apply leave_Param_raises in H as (-> & _). left. reflexivity.
  - destruct default as [d |]; simpl.
    + apply Forall_cons in Hd as [Hd _].
      destruct (visit_expr d) as [d' |] eqn:Hvd; simpl;
        [| intros H; injection H as <-; first [exact (Hd _ Hvd) | exact (Hd _ eq_refl)]].
      intros H. apply leave_Param_raises in H as (-> & _). left. reflexivity.
    + intros H. apply leave_Param_raises in H as (-> & _). left. reflexivity.
Qed.

Lemma traverse_Params_with_raise
    (visit_expr : BaseExpression -> result BaseExpression)
    (self : ConvertTypeComments) (l : list Param) (e : PyException) :
  Forall (fun x => forall e, visit_expr x = Raise e -> raised_in_an_expression e)
    (concat (map Param_expressions l)) ->
  visit_list_with (traverse_Param_with visit_expr self) l = Raise e ->
  raised_in_an_expression e.
Proof.
  intros Hall H. apply visit_list_with_raises in H.
  induction l as [| p l IH]; [inversion H |].
  simpl in Hall. apply Forall_app in Hall as [Hp Hl].
  apply Exists_cons in H as [H | H];
    [exact (traverse_Param_with_raises _ _ _ _ Hp H) | exact (IH Hl H)].
Qed.

Lemma traverse_optional_Param_with_raises
    (visit_expr : BaseExpression -> result BaseExpression)
    (self : ConvertTypeComments) (o : option Param) (e : PyException) :
  Forall (fun x => forall e, visit_expr x = Raise e -> raised_in_an_expression e)
    (concat (map Param_expressions (option_list o))) ->
  visit_option_with (traverse_Param_with visit_expr self) o = Raise e ->
  raised_in_an_expression e.
Proof.
  destruct o as [p |]; [| discriminate]. simpl. rewrite app_nil_r. intros Hp.
  destruct (traverse_Param_with visit_expr self p) as [p' |] eqn:H; [discriminate |].
  simpl. intros H'. injection H' as <-.
  exact (traverse_Param_with_raises _ _ _ _ Hp H).
Qed.

Lemma traverse_Parameters_with_raises
    (visit_expr : BaseExpression -> result BaseExpression)
    (self : ConvertTypeComments) (node : Parameters) (e : PyException) :
  Forall (fun x => forall e, visit_expr x = Raise e -> raised_in_an_expression e)
    (concat (map Param_expressions (every_Param node))) ->
  traverse_Parameters_with visit_expr self node = Raise e ->
  raised_in_an_expression e.
Proof.
  destruct node as [pos ps sa ks sk]. unfold every_Param. simpl.
  rewrite !map_app, !concat_app. intros Hall.
  apply Forall_app in Hall as [Hpos Hall]. apply Forall_app in Hall as [Hps Hall].
  apply Forall_app in Hall as [Hsa Hall]. apply Forall_app in Hall as [Hks Hsk].
  destruct (visit_list_with _ ps) eqn:H1; simpl;
    [| intros H; injection H as <-; exact (traverse_Params_with_raise _ _ _ _ Hps H1)].
  destruct (visit_option_with _ sa) eqn:H2; simpl;
    [| intros H; injection H as <-;
       exact (traverse_optional_Param_with_raises _ _ _ _ Hsa H2)].
  destruct (visit_list_with _ ks) eqn:H3; simpl;
    [| intros H; injection H as <-; exact (traverse_Params_with_raise _ _ _ _ Hks H3)].
  destruct (visit_option_with _ sk) eqn:H4; simpl;
    [| intros H; injection H as <-;
       exact (traverse_optional_Param_with_raises _ _ _ _ Hsk H4)].
  destruct (visit_list_with _ pos) eqn:H5; simpl;
    [discriminate
    | intros H; injection H as <-; exact (traverse_Params_with_raise _ _ _ _ Hpos H5)].
Qed.

(** The visit of an expression raises [IndexError], from [leave_Param] on
    a parameter of a lambda, the validation error of a lambda, or
    nothing. *)
Lemma visit_expression_raises (self : ConvertTypeComments) (e : BaseExpression) :
  forall ex, visit_expression self e = Raise ex -> raised_in_an_expression ex.
Proof.
  induction e as [e IH] using BaseExpression_nested_ind. intros ex.
  destruct e as [v | v a | v s | elements | elements | v | v | v | f args | ps body];
    simpl in *; try discriminate.
  - apply Forall_cons in IH as [Hv _].
    destruct (visit_expression self v) eqn:H1; [discriminate |].
    simpl. intros H. injection H as <-. first [exact (Hv _ H1) | exact (Hv _ eq_refl)].
  - apply Forall_cons in IH as [Hv Hs].
    destruct (visit_expression self v) eqn:H1; simpl;
      [| intros H; injection H as <-; first [exact (Hv _ H1) | exact (Hv _ eq_refl)]].
    destruct (visit_list_with _ s) eqn:H2; [discriminate |].
    simpl. intros H. injection H as <-. exact (visit_expressions_raise _ _ _ Hs H2).
  - destruct (visit_list_with _ elements) eqn:H2; [discriminate |].
    simpl. intros H. injection H as <-. exact (visit_expressions_raise _ _ _ IH H2).
  - destruct (visit_list_with _ elements) eqn:H2; [discriminate |].
    simpl. intros H. injection H as <-. exact (visit_expressions_raise _ _ _ IH H2).
  - apply Forall_cons in IH as [Hf Ha].
    destruct (visit_expression self f) eqn:H1; simpl;
      [| intros H; injection H as <-; first [exact (Hf _ H1) | exact (Hf _ eq_refl)]].
    destruct (visit_list_with _ args) eqn:H2; [discriminate |].
    simpl. intros H. injection H as <-. exact (visit_expressions_raise _ _ _ Ha H2).
  - apply Forall_app in IH as [Hps Hbody]. apply Forall_cons in Hbody as [Hbody _].
    destruct (traverse_Parameters_with _ self ps) as [ps' |] eqn:H1; simpl;
      [| intros H; injection H as <-;
         exact (traverse_Parameters_with_raises _ _ _ _ Hps H1)].
    destruct (visit_expression self body) as [body' |] eqn:H2; simpl;
      [| intros H; injection H as <-; first [exact (Hbody _ H2) | exact (Hbody _ eq_refl)]].
    unfold new_Lambda. destruct (existsb _ _); [| discriminate].
    intros H. injection H as <-. right. reflexivity.
Qed.

Lemma visit_optional_expression_raises (self : ConvertTypeComments)
    (o : option BaseExpression) (e : PyException) :
  visit_option_with (visit_expression self) o = Raise e -> raised_in_an_expression e.
Proof.
  destruct o as [x |]; [| discriminate]. simpl.
  destruct (visit_expression self x) eqn:H; [discriminate |].
  simpl. intros H'. injection H' as <-. exact (visit_expression_raises _ _ _ H).
Qed.

Lemma visit_Annotation_raises (self : ConvertTypeComments) (node : Annotation)
    (e : PyException) :
  visit_Annotation_with (visit_expression self) node = Raise e ->
  raised_in_an_expression e.
Proof.
  destruct node as [x]. simpl.
  destruct (visit_expression self x) eqn:H; [discriminate |].
  simpl. intros H'. injection H' as <-. exact (visit_expression_raises _ _ _ H).
Qed.

Lemma all_expressions_raise (self : ConvertTypeComments) (l : list BaseExpression) :
  Forall (fun x => forall e, visit_expression self x = Raise e ->
                             raised_in_an_expression e) l.
Proof. apply Forall_forall. intros x _. apply visit_expression_raises. Qed.

Lemma traverse_Parameters_raises (self : ConvertTypeComments) (node : Parameters)
    (e : PyException) :
  traverse_Parameters self node = Raise e -> raised_in_an_expression e.
Proof. apply traverse_Parameters_with_raises. apply all_expressions_raise. Qed.

Lemma traverse_small_statement_raises (self : ConvertTypeComments)
    (node : BaseSmallStatement) (e : PyException) :
  traverse_small_statement self node = Raise e -> raised_in_an_expression e.
Proof.
  destruct node as [[ts v semi] | [t a v semi] | v semi | semi | v semi]; simpl.
  - destruct (visit_list_with _ ts) eqn:H1; simpl.
    + destruct (visit_expression self v) eqn:H2; [discriminate |].
      simpl. intros H. injection H as <-. exact (visit_expression_raises _ _ _ H2).
    + intros H. injection H as <-. apply visit_list_with_raises in H1.
      apply Exists_exists in H1 as ([x w1 w2] & _ & Hx).
      unfold traverse_AssignTarget in Hx. simpl in Hx.
      destruct (visit_expression self x) eqn:H2; [discriminate |].
      simpl in Hx. injection Hx as <-. exact (visit_expression_raises _ _ _ H2).
  - destruct (visit_expression self t) eqn:H1; simpl;
      [| intros H; injection H as <-; exact (visit_expression_raises _ _ _ H1)].
    destruct (visit_Annotation_with _ a) eqn:H2; simpl;
      [| intros H; injection H as <-; exact (visit_Annotation_raises _ _ _ H2)].
    destruct (visit_option_with _ v) eqn:H3; [discriminate |].
    simpl. intros H. injection H as <-.
    exact (visit_optional_expression_raises _ _ _ H3).
  - destruct (visit_expression self v) eqn:H1; [discriminate |].
    simpl. intros H. injection H as <-. exact (visit_expression_raises _ _ _ H1).
  - discriminate.
  - destruct (visit_option_with _ v) eqn:H3; [discriminate |].
    simpl. intros H. injection H as <-.
    exact (visit_optional_expression_raises _ _ _ H3).
Qed.

Lemma traverse_small_statements_raise (self : ConvertTypeComments)
    (l : list BaseSmallStatement) (e : PyException) :
  visit_list_with (traverse_small_statement self) l = Raise e ->
  raised_in_an_expression e.
Proof.
  intros H. apply visit_list_with_raises in H.
  apply Exists_exists in H as (x & _ & Hx).
  exact (traverse_small_statement_raises _ _ _ Hx).
Qed.

Lemma traverse_SimpleStatementLine_raises (self : ConvertTypeComments)
    (node : SimpleStatementLine) (e : PyException) :
  traverse_SimpleStatementLine self node = Raise e -> raised_by_a_run e.
Proof.
  unfold traverse_SimpleStatementLine.
  destruct (visit_list_with _ (ssl_body node)) eqn:H1; simpl.
  - destruct (leave_SimpleStatementLine _ _) eqn:H2; [discriminate |].
    simpl. intros H. injection H as <-. apply raised_by_the_codemod_run.
    apply leave_SimpleStatementLine_raises in H2
      as [[-> _] | [[-> _] | [[-> _] | [-> _]]]]; unfold raised_by_the_codemod; tauto.
  - intros H. injection H as <-. apply raised_in_an_expression_run.
    exact (traverse_small_statements_raise _ _ _ H1).
Qed.

Lemma visit_body_with_raises_in_a_run (visit : Visit) (l : list BaseStatement) :
  Forall (raises_in_a_run visit) l ->
  forall self e, visit_body_with visit self l = Raise e -> raised_by_a_run e.
Proof.
  induction 1 as [| x l Hx _ IH]; intros self e Hvisit; simpl in Hvisit;
    [discriminate |].
  destruct (visit self x) as [[self1 out1] |] eqn:H1; simpl in Hvisit.
  - destruct (visit_body_with visit self1 l) as [[self2 out2] |] eqn:H2;
      simpl in Hvisit; [discriminate |].
    injection Hvisit as <-. exact (IH _ _ H2).
  - injection Hvisit as <-. exact (Hx _ _ H1).
Qed.

Lemma traverse_suite_with_raises (visit : Visit) (suite : BaseSuite) :
  Forall (raises_in_a_run visit) (suite_statements suite) ->
  forall self e, traverse_suite_with visit self suite = Raise e -> raised_by_a_run e.
Proof.
  intros Hall self e Hvisit.
  destruct suite as [[id header body] | b]; simpl in *.
  - destruct (visit_body_with visit self body) as [[self1 out1] |] eqn:H1;
      simpl in Hvisit.
    + destruct (leave_IndentedBlock _ _ _) eqn:H2; simpl in Hvisit; [discriminate |].
      injection Hvisit as <-. apply leave_IndentedBlock_raises in H2 as ->.
      left. reflexivity.
    + injection Hvisit as <-. exact (visit_body_with_raises_in_a_run visit body Hall _ _ H1).
  - unfold traverse_SimpleStatementSuite in Hvisit.
    destruct (visit_list_with _ (sss_body b)) eqn:H1; [discriminate |].
    simpl in Hvisit. injection Hvisit as <-. apply raised_in_an_expression_run.
    exact (traverse_small_statements_raise _ _ _ H1).
Qed.

Lemma traverse_optional_suite_with_raises (visit : Visit) (suite : option BaseSuite) :
  Forall (raises_in_a_run visit) (from_option suite_statements [] suite) ->
  forall self e,
    traverse_optional_suite_with visit self suite = Raise e -> raised_by_a_run e.
Proof.
  intros Hall self e Hvisit. destruct suite as [b |]; simpl in *; [| discriminate].
  destruct (traverse_suite_with visit self b) as [[self1 b1] |] eqn:H1;
    simpl in Hvisit; [discriminate |].
  injection Hvisit as <-. exact (traverse_suite_with_raises visit b Hall _ _ H1).
Qed.

(** The exceptions of the hooks, of [leave_Param] inside an expression and
    of the validation of a lambda are all a statement can raise. *)
Lemma traverse_statement_raises (s : BaseStatement) :
  raises_in_a_run traverse_statement s.
Proof.
  induction s as [s IH] using BaseStatement_nested_ind.
  intros self e Hvisit.
  destruct s as [n | [ll t i body orelse] | [ll items body] | [ll name ps ret body]
                 | [ll test body orelse]];
    cbn [traverse_statement] in Hvisit; simpl in IH.
  - destruct (traverse_SimpleStatementLine self n) eqn:H1; simpl in Hvisit;
      [discriminate |].
    injection Hvisit as <-. exact (traverse_SimpleStatementLine_raises _ _ _ H1).
  - apply Forall_app in IH as [Hbody Horelse].
    destruct (visit_expression self t) eqn:Ht; simpl in Hvisit;
      [| injection Hvisit as <-; apply raised_in_an_expression_run;
         exact (visit_expression_raises _ _ _ Ht)].
    destruct (visit_expression self i) eqn:Hi; simpl in Hvisit;
      [| injection Hvisit as <-; apply raised_in_an_expression_run;
         exact (visit_expression_raises _ _ _ Hi)].
    destruct (traverse_suite_with traverse_statement self body) as [[self1 b1] |] eqn:H1;
      simpl in Hvisit;
      [| injection Hvisit as <-; exact (traverse_suite_with_raises _ _ Hbody _ _ H1)].
    destruct (traverse_optional_suite_with traverse_statement self1 orelse)
      as [[self2 o2] |] eqn:H2; simpl in Hvisit;
      [| injection Hvisit as <-;
         exact (traverse_optional_suite_with_raises _ _ Horelse _ _ H2)].
    destruct (leave_For _ _) eqn:H3; simpl in Hvisit; [discriminate |].
    injection Hvisit as <-.
    apply leave_For_raises in H3 as [[-> _] | [-> _]]; unfold raised_by_a_run; tauto.
  - destruct (visit_list_with _ items) eqn:Hi; simpl in Hvisit.
    2: { injection Hvisit as <-. apply raised_in_an_expression_run.
         apply visit_list_with_raises in Hi.
         apply Exists_exists in Hi as ([x a] & _ & Hx).
         unfold traverse_WithItem in Hx. simpl in Hx.
         destruct (visit_expression self x) eqn:H1; simpl in Hx;
           [| injection Hx as <-; exact (visit_expression_raises _ _ _ H1)].
         destruct a as [[nm] |]; simpl in Hx; [| discriminate].
         destruct (visit_expression self nm) eqn:H2; simpl in Hx; [discriminate |].
         injection Hx as <-. exact (visit_expression_raises _ _ _ H2). }
    destruct (traverse_suite_with traverse_statement self body) as [[self1 b1] |] eqn:H1;
      simpl in Hvisit;
      [| injection Hvisit as <-; exact (traverse_suite_with_raises _ _ IH _ _ H1)].
    destruct (leave_With _ _) eqn:H3; simpl in Hvisit; [discriminate |].
    injection Hvisit as <-.
    apply leave_With_raises in H3 as [[-> _] | [-> _]]; unfold raised_by_a_run; tauto.
  - unfold visit_FunctionDef in Hvisit.
    destruct (from_cst _) as [info |] eqn:H0; simpl in Hvisit;
      [| injection Hvisit as <-; apply from_cst_raises in H0 as [-> _];
         unfold raised_by_a_run; tauto].
    destruct (traverse_Parameters _ ps) eqn:H1; simpl in Hvisit;
      [| injection Hvisit as <-; apply raised_in_an_expression_run;
         exact (traverse_Parameters_raises _ _ _ H1)].
    destruct (visit_option_with _ ret) eqn:Hr; simpl in Hvisit.
    2: { injection Hvisit as <-. apply raised_in_an_expression_run.
         destruct ret as [ra |]; [| discriminate]. simpl in Hr.
         destruct (visit_Annotation_with _ ra) eqn:Ha; [discriminate |].
         simpl in Hr. injection Hr as <-. exact (visit_Annotation_raises _ _ _ Ha). }
    destruct (traverse_suite_with traverse_statement _ body) as [[self1 b1] |] eqn:H2;
      simpl in Hvisit;
      [| injection Hvisit as <-; exact (traverse_suite_with_raises _ _ IH _ _ H2)].
    destruct (leave_FunctionDef _ _ _) eqn:H3; simpl in Hvisit; [discriminate |].
    injection Hvisit as <-. apply leave_FunctionDef_raises in H3 as ->.
    unfold raised_by_a_run; tauto.
  - apply Forall_app in IH as [Hbody Horelse].
    destruct (visit_expression self test) eqn:Ht; simpl in Hvisit;
      [| injection Hvisit as <-; apply raised_in_an_expression_run;
         exact (visit_expression_raises _ _ _ Ht)].
    destruct (traverse_suite_with traverse_statement self body) as [[self1 b1] |] eqn:H1;
      simpl in Hvisit;
      [| injection Hvisit as <-; exact (traverse_suite_with_raises _ _ Hbody _ _ H1)].
    destruct (traverse_optional_suite_with traverse_statement self1 orelse)
      as [[self2 o2] |] eqn:H2; simpl in Hvisit; [discriminate |].
    injection Hvisit as <-.
    exact (traverse_optional_suite_with_raises _ _ Horelse _ _ H2).
Qed.

(** X8. A run of the codemod over a module, expressions included, never
    ends with the arity error: every place that can raise it sits in a
    [try] that catches it. A run ends with [IndexError], [SyntaxError],
    [AssertionError], the [RuntimeError] of the unreachable branch or the
    validation error of a lambda whose parameter was given an annotation,
    or not with an exception. *)
Theorem arity_error_never_escapes (m : Module_) (e : PyException) :
  traverse_module m = Raise e ->
  e <> ArityError
  /\ (e = IndexError \/ e = SyntaxError \/ e = AssertionError
      \/ e = RuntimeError "Unreachable code."
      \/ e = CSTValidationError "Lambda params cannot have type annotations").
Proof.
  unfold traverse_module. intros H.
  destruct (traverse_statements init (module_body m)) as [r |] eqn:Hv; simpl in H;
    [discriminate |].
  injection H as <-.
  assert (He : raised_by_a_run e0).
  { apply (visit_body_with_raises_in_a_run traverse_statement (module_body m))
      with (self := init); [| exact Hv].
    apply Forall_forall. intros s _. apply traverse_statement_raises. }
  split; [| exact He].
  destruct He as [-> | [-> | [-> | [-> | ->]]]]; discriminate.
Qed.


(** *** Code without lambdas *)

(** X17. A module that holds no lambda and in which the codemod finds no
    type information, for no line that ends with an assignment, no [for],
    no [with] and no function at any depth, comes out of a run exactly as
    it went in. *)
Theorem nothing_to_convert_is_unchanged (m : Module_) :
  Forall nothing_to_convert (module_body m) ->
  Forall without_lambda (module_body m) ->
  traverse_module m = Ok m.
Proof.
  intros Hall Hfree. rewrite (traverse_module_without_lambda m Hfree).
  unfold transform_module, visit_statements.
  rewrite (visit_body_with_kept visit_statement (module_body m)).
  - simpl. rewrite visit_EmptyLines_off by reflexivity. destruct m; reflexivity.
  - eapply Forall_impl; [exact Hall |]. intros s. apply visit_statement_kept.
  - repeat split. constructor.
Qed.

(** X18. On a module that holds no lambda and whose lines and indented
    blocks all hold a statement, as in every parsed tree, a run of the
    codemod never ends with [IndexError]: the stacks are not empty where
    they are read and a rewritten body is never empty. What is left to
    raise is [SyntaxError], [AssertionError] and the [RuntimeError] of the
    unreachable branch. *)
Theorem parsed_trees_raise_no_IndexError (m : Module_) :
  Forall as_parsed (module_body m) ->
  Forall without_lambda (module_body m) ->
  traverse_module m <> Raise IndexError
  /\ (forall e, traverse_module m = Raise e ->
                e = SyntaxError \/ e = AssertionError
                \/ e = RuntimeError "Unreachable code.").
Proof.
  intros Hall Hfree. rewrite (traverse_module_without_lambda m Hfree).
  assert (Hno : transform_module m <> Raise IndexError).
  { unfold transform_module.
    pose proof (visit_statements_in_bounds (module_body m)) as Hb.
    specialize (Hb (Forall_impl _ _ _ Hall visit_statement_in_bounds) init).
    destruct (visit_statements init (module_body m)) as [[self out] |]; simpl;
      [discriminate |].
    intros Habs. injection Habs as ->. apply Hb; [| reflexivity].
    split; reflexivity. }
  split; [exact Hno |].
  intros e He. destruct (transform_module_raises m e He) as [-> | H];
    [contradiction | exact H].
Qed.

(** *** Lambdas *)

Lemma visit_Param_outside_a_function (self : ConvertTypeComments) (node : Param) :
  function_type_info_stack self = [] ->
  param_annotation node = None ->
  visit_Param self node = Raise IndexError.
Proof.
  intros Hstack Hnone. unfold visit_Param, leave_Param. simpl.
  rewrite Hnone, Hstack. reflexivity.
Qed.

Lemma visit_Params_outside_a_function (self : ConvertTypeComments) (l : list Param) :
  function_type_info_stack self = [] ->
  Forall (fun p => param_annotation p = None) l ->
  result_map (visit_Param self) l = match l with
                                    | [] => Ok []
                                    | _ :: _ => Raise IndexError
                                    end.
Proof.
  intros Hstack Hall. destruct Hall as [| p l Hp _]; [reflexivity |]. simpl.
  rewrite (visit_Param_outside_a_function self p Hstack Hp). reflexivity.
Qed.

Lemma visit_optional_Param_outside_a_function (self : ConvertTypeComments)
    (o : option Param) :
  function_type_info_stack self = [] ->
  Forall (fun p => param_annotation p = None) (option_list o) ->
  visit_optional_Param self o = match o with
                                | None => Ok None
                                | Some _ => Raise IndexError
                                end.
Proof.
  intros Hstack Hall. destruct o as [p |]; [| reflexivity]. simpl.
  apply Forall_cons in Hall as [Hp _].
  rewrite (visit_Param_outside_a_function self p Hstack Hp). reflexivity.
Qed.

Lemma visit_Parameters_outside_a_function (self : ConvertTypeComments)
    (node : Parameters) :
  function_type_info_stack self = [] ->
  every_Param node <> [] ->
  Forall (fun p => param_annotation p = None) (every_Param node) ->
  visit_Parameters self node = Raise IndexError.
Proof.
  destruct node as [pos ps sa ks sk]. unfold every_Param, visit_Parameters. simpl.
  intros Hstack Hsome Hall.
  apply Forall_app in Hall as [Hpos Hall]. apply Forall_app in Hall as [Hps Hall].
  apply Forall_app in Hall as [Hsa Hall]. apply Forall_app in Hall as [Hks Hsk].
  rewrite (visit_Params_outside_a_function self ps Hstack Hps).
  destruct ps as [| p ps]; [simpl | reflexivity].
  rewrite (visit_optional_Param_outside_a_function self sa Hstack Hsa).
  destruct sa as [p |]; [reflexivity | simpl].
  rewrite (visit_Params_outside_a_function self ks Hstack Hks).
  destruct ks as [| p ks]; [simpl | reflexivity].
  rewrite (visit_optional_Param_outside_a_function self sk Hstack Hsk).
  destruct sk as [p |]; [reflexivity | simpl].
  rewrite (visit_Params_outside_a_function self pos Hstack Hpos).
  destruct pos as [| p pos]; [| reflexivity].
  exfalso. apply Hsome. reflexivity.
Qed.

(** X21. [leave_Param] does not tell the parameters of a lambda from those
    of a function. Outside every function the stack of type information is
    empty, so the visit of a lambda with a parameter ends with
    [IndexError], and so does the run over a module whose first line
    starts with the assignment of such a lambda. *)
Theorem lambda_outside_a_function_raises_IndexError (self : ConvertTypeComments)
    (ps : Parameters) (body : BaseExpression) :
  function_type_info_stack self = [] ->
  every_Param ps <> [] ->
  Forall (fun p => param_annotation p = None) (every_Param ps) ->
  forallb lambda_free (concat (map Param_expressions (every_Param ps))) = true ->
  visit_expression self (Lambda ps body) = Raise IndexError
  /\ (forall (node : SimpleStatementLine) (ts : list AssignTarget)
             (semicolon : MaybeSemicolon) (rest : list BaseSmallStatement)
             (m : Module_) (others : list BaseStatement),
        ssl_body node
        = Small_Assign {| targets := ts; assign_value := Lambda ps body;
                          assign_semicolon := semicolon |} :: rest ->
        forallb lambda_free (map target ts) = true ->
        module_body m = Stmt_SimpleStatementLine node :: others ->
        traverse_module m = Raise IndexError).
Proof.
  intros Hstack Hsome Hnone Hfree.
  assert (Hraise : forall self', function_type_info_stack self' = [] ->
                     visit_expression self' (Lambda ps body) = Raise IndexError).
  { intros self' Hstack'. simpl.
    change (traverse_Parameters_with (visit_expression self') self' ps)
      with (traverse_Parameters self' ps).
    rewrite (traverse_Parameters_without_lambda self' ps Hfree).
    rewrite (visit_Parameters_outside_a_function self' ps Hstack' Hsome Hnone).
    reflexivity. }
  split; [exact (Hraise self Hstack) |].
  intros node ts semicolon rest m others Hbody Hts Hm.
  unfold traverse_module, traverse_statements. rewrite Hm. simpl.
  unfold traverse_SimpleStatementLine. rewrite Hbody.
  cbn [visit_list_with traverse_small_statement targets assign_value].
  rewrite (visit_list_with_id (traverse_AssignTarget init) ts).
  - cbn [result_bind]. rewrite (Hraise init eq_refl). reflexivity.
  - clear Hbody. induction ts as [| [e w1 w2] ts IHts]; [constructor |].
    simpl in Hts. apply andb_true_iff in Hts as [He Hts].
    constructor; [| exact (IHts Hts)].
    unfold traverse_AssignTarget. simpl.
    rewrite (visit_expression_lambda_free init e He). reflexivity.
Qed.

Lemma visit_Param_in_a_function (self : ConvertTypeComments) (info : FunctionTypeInfo)
    (node : Param) :
  last (function_type_info_stack self) = Some info ->
  exists node',
    visit_Param self node = Ok node'
    /\ has_annotation node' = gets_annotation info node.
Proof.
  intros Hlast. unfold visit_Param, leave_Param, gets_annotation, has_annotation,
    argument_type. simpl.
  destruct (param_annotation node) as [a |] eqn:Ha.
  - eexists. split; reflexivity.
  - rewrite Hlast. destruct (mjoin _) as [raw |]; eexists; split; reflexivity.
Qed.

Lemma visit_Params_in_a_function (self : ConvertTypeComments) (info : FunctionTypeInfo)
    (l : list Param) :
  last (function_type_info_stack self) = Some info ->
  exists l',
    result_map (visit_Param self) l = Ok l'
    /\ existsb has_annotation l' = existsb (gets_annotation info) l.
Proof.
  intros Hlast. induction l as [| p l (l' & Hl & Hex)].
  - exists []. split; reflexivity.
  - destruct (visit_Param_in_a_function self info p Hlast) as (p' & Hp & Hann).
    exists (p' :: l'). simpl. rewrite Hp, Hl. simpl. rewrite Hann, Hex.
    split; reflexivity.
Qed.

Lemma visit_optional_Param_in_a_function (self : ConvertTypeComments)
    (info : FunctionTypeInfo) (o : option Param) :
  last (function_type_info_stack self) = Some info ->
  exists o',
    visit_optional_Param self o = Ok o'
    /\ existsb has_annotation (option_list o')
       = existsb (gets_annotation info) (option_list o).
Proof.
  intros Hlast. destruct o as [p |].
  - destruct (visit_Param_in_a_function self info p Hlast) as (p' & Hp & Hann).
    exists (Some p'). simpl. rewrite Hp, Hann. split; reflexivity.
  - exists None. split; reflexivity.
Qed.

Lemma visit_Parameters_in_a_function (self : ConvertTypeComments)
    (info : FunctionTypeInfo) (node : Parameters) :
  last (function_type_info_stack self) = Some info ->
  exists node',
    visit_Parameters self node = Ok node'
    /\ existsb has_annotation (every_Param node')
       = existsb (gets_annotation info) (every_Param node).
Proof.
  intros Hlast. destruct node as [pos ps sa ks sk].
  unfold visit_Parameters, every_Param. simpl.
  destruct (visit_Params_in_a_function self info ps Hlast) as (ps' & -> & Hps).
  destruct (visit_optional_Param_in_a_function self info sa Hlast) as (sa' & -> & Hsa).
  destruct (visit_Params_in_a_function self info ks Hlast) as (ks' & -> & Hks).
  destruct (visit_optional_Param_in_a_function self info sk Hlast) as (sk' & -> & Hsk).
  destruct (visit_Params_in_a_function self info pos Hlast) as (pos' & -> & Hpos).
  eexists. split; [reflexivity |]. simpl.
  rewrite !existsb_app, Hps, Hsa, Hks, Hsk, Hpos. reflexivity.
Qed.

(** X22. Inside a function, [leave_Param] annotates a parameter of a
    lambda when the type information of the function has a type for its
    name, and the lambda built from it is rejected: the visit ends with
    the validation error when a parameter has or gets an annotation, and
    returns a lambda otherwise. *)
Theorem lambda_in_a_typed_function_is_rejected (self : ConvertTypeComments)
    (info : FunctionTypeInfo) (ps : Parameters) (body : BaseExpression) :
  last (function_type_info_stack self) = Some info ->
  forallb lambda_free (concat (map Param_expressions (every_Param ps))) = true ->
  lambda_free body = true ->
  (existsb (gets_annotation info) (every_Param ps) = true ->
   visit_expression self (Lambda ps body)
   = Raise (CSTValidationError "Lambda params cannot have type annotations"))
  /\ (existsb (gets_annotation info) (every_Param ps) = false ->
      exists ps', visit_expression self (Lambda ps body) = Ok (Lambda ps' body)).
Proof.
  intros Hlast Hfree Hbody. simpl.
  change (traverse_Parameters_with (visit_expression self) self ps)
    with (traverse_Parameters self ps).
  rewrite (traverse_Parameters_without_lambda self ps Hfree).
  destruct (visit_Parameters_in_a_function self info ps Hlast) as (ps' & -> & Hex).
  simpl. rewrite (visit_expression_lambda_free self body Hbody). simpl.
  unfold new_Lambda. rewrite Hex. split; intros ->; [reflexivity |].
  exists ps'. reflexivity.
Qed.

End FullTraversalFacts.

(** ** The further properties on programs *)

Section OnFurtherPrograms.

Import Programs MorePrograms.

#[local] Existing Instance SamplePython.python.


Lemma declared_targets_are_never_tuples_witness :
  annotated_bindings
    (unpack_target (Tuple [Name "x"; Tuple [Name "y"; Name "z"]]))
    (UA_list [UA_str "int"; UA_list [UA_str "str"; UA_str "bool"]])
  = Ok [(Name "x", "int"); (Name "y", "str"); (Name "z", "bool")]
  /\ Forall (fun pair : TargetAnnotationPair =>
               is_Tuple pair.1 = false /\ is_BaseAssignTargetExpression pair.1 = true)
       [(Name "x", "int"); (Name "y", "str"); (Name "z", "bool")].
Proof.
  split; [reflexivity |].
  apply (declared_targets_are_never_tuples
           (Tuple [Name "x"; Tuple [Name "y"; Name "z"]])
           (UA_list [UA_str "int"; UA_list [UA_str "str"; UA_str "bool"]])).
  reflexivity.
Defined.

Lemma leave_For_rewrite_witness :
  leave_For for_with_note for_with_note
  = Ok (FlattenSentinel
          [Stmt_SimpleStatementLine
             {| ssl_leading_lines := [comment_line "# note"];
                ssl_body := [declaration "x" "int"];
                ssl_trailing_whitespace := TrailingWhitespace_default |};
           bare_line (declaration "y" "str");
           Stmt_For
             {| for_leading_lines := []; for_target := Tuple [Name "x"; Name "y"];
                for_iter := Name "z";
                for_body := block 0 stripped [pass_line];
                for_orelse := None |}]).
Proof.
  destruct (leave_For_rewrite (py := SamplePython.python) for_with_note for_with_note
              (ast_Tuple [ast_Name "int"; ast_Name "str"])
              {| ib_id := 0; ib_header := trailing "# type: int, str";
                 ib_body := [pass_line] |}) as (H & _ & _).
  - reflexivity.
  - vm_compute. reflexivity.
  - repeat constructor.
  - reflexivity.
  - rewrite H. vm_compute. reflexivity.
Defined.

Lemma leave_With_rewrite_witness :
  leave_With with_one_binding with_one_binding
  = Ok (FlattenSentinel
          [bare_line (declaration "d" "int");
           Stmt_With
             {| with_leading_lines := [];
                with_items := [with_item "a" None; with_item "c" (Some "d")];
                with_body := block 0 stripped [pass_line] |}]).
Proof.
  destruct (leave_With_rewrite (py := SamplePython.python)
              with_one_binding with_one_binding (ast_Name "int")
              {| ib_id := 0; ib_header := trailing "# type: int";
                 ib_body := [pass_line] |} (Name "d")) as (H & _ & _).
  - reflexivity.
  - vm_compute. reflexivity.
  - reflexivity.
  - repeat constructor.
  - reflexivity.
  - rewrite H. vm_compute. reflexivity.
Defined.

Lemma leave_SimpleStatementLine_spreads_witness :
  leave_SimpleStatementLine two_on_a_line two_on_a_line
  = Ok (FlattenSentinel two_on_a_line_spread)
  /\ 2 <= length two_on_a_line_spread.
Proof.
  assert (H : leave_SimpleStatementLine two_on_a_line two_on_a_line
              = Ok (FlattenSentinel two_on_a_line_spread))
    by (vm_compute; reflexivity).
  split; [exact H |].
  destruct (leave_SimpleStatementLine_spreads (py := SamplePython.python) _ _ _ H)
    as (assign & annotation & first & rest & _ & _ & _ & _ & _ & Hlen).
  exact Hlen.
Defined.

Lemma from_cst_inline_comments_witness :
  exists info,
    from_cst annotated_param = Ok info
    /\ returns info = None
    /\ argument_type info "x" = Some "str"
    /\ argument_type info "y" = None.
Proof.
  destruct (from_cst_inline_comments (py := SamplePython.python) annotated_param
              {| type_comment := None;
                 stmt_args :=
                   {| posonlyargs := [];
                      args := [{| arg := "x"; arg_type_comment := Some "str" |}];
                      vararg := None; kwonlyargs := []; kwarg := None |} |})
    as [Hnone _].
  - vm_compute. reflexivity.
  - apply NoDup_singleton.
  - destruct (Hnone eq_refl) as (info & Hinfo & Hret & Hargs & Hother).
    exists info. repeat apply conj; [exact Hinfo | exact Hret | |].
    + apply (Hargs {| arg := "x"; arg_type_comment := Some "str" |}). left.
    + apply Hother. intros Hin. apply elem_of_cons in Hin as [Hin | Hin]; [discriminate | inversion Hin].
Defined.

Lemma from_cst_merges_comments_witness :
  exists info,
    from_cst two_params_typed = Ok info
    /\ returns info = Some "None"
    /\ argument_type info "x" = Some "str"
    /\ argument_type info "y" = Some "bool".
Proof.
  destruct (from_cst_merges_comments (py := SamplePython.python) two_params_typed
              {| type_comment := Some "(int, bool) -> None";
                 stmt_args :=
                   {| posonlyargs := [];
                      args := [{| arg := "x"; arg_type_comment := Some "str" |};
                               {| arg := "y"; arg_type_comment := None |}];
                      vararg := None; kwonlyargs := []; kwarg := None |} |}
              "(int, bool) -> None"
              {| argtypes := [ast_Name "int"; ast_Name "bool"];
                 ft_returns := ast_Name "None" |})
    as (info & Hinfo & Hret & Hargs & _).
  - vm_compute. reflexivity.
  - reflexivity.
  - vm_compute. reflexivity.
  - discriminate.
  - reflexivity.
  - simpl. apply NoDup_cons. split; [| apply NoDup_singleton].
    intros Hin. apply elem_of_cons in Hin as [Hin | Hin]; [discriminate | inversion Hin].
  - exists info. repeat apply conj; [exact Hinfo | exact Hret | |].
    + exact (Hargs 0 {| arg := "x"; arg_type_comment := Some "str" |}
               (ast_Name "int") eq_refl eq_refl).
    + exact (Hargs 1 {| arg := "y"; arg_type_comment := None |}
               (ast_Name "bool") eq_refl eq_refl).
Defined.

Lemma stripping_follows_the_type_information_witness :
  exists self',
    visit_FunctionDef init annotated_param = Ok self'
    /\ aggressively_strip_type_comments self' = true.
Proof.
  destruct (stripping_follows_the_type_information (py := SamplePython.python)
              init annotated_param
              {| type_comment := None;
                 stmt_args :=
                   {| posonlyargs := [];
                      args := [{| arg := "x"; arg_type_comment := Some "str" |}];
                      vararg := None; kwonlyargs := []; kwarg := None |} |})
    as (self' & Hvisit & _ & Hon).
  - vm_compute. reflexivity.
  - exists self'. split; [exact Hvisit |].
    apply Hon. simpl. apply Exists_cons_hd. discriminate.
Defined.


Lemma leave_IndentedBlock_idempotent_witness :
  exists b,
    leave_IndentedBlock inside_two_params_typed
      {| ib_id := 0; ib_header := TrailingWhitespace_default; ib_body := [pass_line] |}
      {| ib_id := 0; ib_header := TrailingWhitespace_default;
         ib_body :=
           [Stmt_SimpleStatementLine
              {| ssl_leading_lines := [comment_line "# type: (int, bool) -> None"];
                 ssl_body := [Small_Pass Semicolon_DEFAULT];
                 ssl_trailing_whitespace := TrailingWhitespace_default |}] |}
    = Ok b
    /\ ib_body b = [pass_line]
    /\ leave_IndentedBlock inside_two_params_typed
         {| ib_id := 0; ib_header := TrailingWhitespace_default; ib_body := [pass_line] |}
         b
       = Ok b.
Proof.
  destruct (leave_IndentedBlock inside_two_params_typed _ _) as [b |] eqn:H;
    [| vm_compute in H; discriminate].
  exists b. split; [reflexivity |]. split.
  - vm_compute in H. injection H as <-. reflexivity.
  - exact (proj1 (leave_IndentedBlock_idempotent _ _ _ _ H)).
Defined.

Lemma _is_type_comment_decides_witness :
  blank " " = true
  /\ _is_type_comment (Some (mkComment "# type: int")) = true
  /\ _is_type_comment (Some (mkComment "# type: ignore")) = false
  /\ _is_type_comment (Some (mkComment "# a note")) = false.
Proof.
  destruct (_is_type_comment_decides " " eq_refl) as (H1 & H2 & H3).
  split; [reflexivity |]. split; [exact (H1 " int") |]. split.
  - exact (proj1 (H3 " " "" eq_refl eq_refl)).
  - exact (H2 " a note" eq_refl).
Defined.

Lemma single_name_becomes_annotated_assignment_witness :
  leave_SimpleStatementLine x_int x_int
  = Ok (Updated
          {| ssl_leading_lines := [];
             ssl_body :=
               [Small_AnnAssign
                  {| ann_target := Name "x";
                     ann_annotation := mkAnnotation (Name "int");
                     ann_value := Some (Integer "1");
                     ann_semicolon := Semicolon_DEFAULT |}];
             ssl_trailing_whitespace := stripped |}).
Proof.
  rewrite (single_name_becomes_annotated_assignment (py := SamplePython.python)
             x_int x_int (assign [Name "x"] (Integer "1")) (ast_Name "int")
             (to (Name "x")) "int").
  - vm_compute. reflexivity.
  - reflexivity.
  - vm_compute. reflexivity.
  - reflexivity.
  - reflexivity.
  - reflexivity.
  - reflexivity.
Defined.

Lemma arity_error_never_escapes_witness :
  traverse_module (module_of [Stmt_FunctionDef lambda_in_typed_def])
  = Raise (CSTValidationError "Lambda params cannot have type annotations")
  /\ CSTValidationError "Lambda params cannot have type annotations" <> ArityError.
Proof.
  assert (H : traverse_module (module_of [Stmt_FunctionDef lambda_in_typed_def])
              = Raise (CSTValidationError "Lambda params cannot have type annotations"))
    by (vm_compute; reflexivity).
  split; [exact H |].
  exact (proj1 (arity_error_never_escapes (py := SamplePython.python) _ _ H)).
Defined.

Lemma nothing_to_convert_is_unchanged_witness :
  traverse_module
    (module_of [pass_line; Stmt_For for_plain; Stmt_FunctionDef annotated_param_after])
  = Ok (module_of
          [pass_line; Stmt_For for_plain; Stmt_FunctionDef annotated_param_after]).
Proof.
  assert (Hpass : nothing_to_convert (py := SamplePython.python) pass_line).
  { constructor; [exact I | constructor]. }
  assert (Hfree : without_lambda pass_line).
  { constructor; [reflexivity | constructor]. }
  apply (nothing_to_convert_is_unchanged (py := SamplePython.python)).
  - repeat apply Forall_cons_2; [exact Hpass | | | constructor].
    + constructor; [vm_compute; reflexivity |].
      repeat apply Forall_cons_2; [exact Hpass | constructor].
    + constructor; [vm_compute; reflexivity |].
      repeat apply Forall_cons_2; [exact Hpass | constructor].
  - repeat apply Forall_cons_2; [exact Hfree | | | constructor].
    + constructor; [reflexivity |].
      repeat apply Forall_cons_2; [exact Hfree | constructor].
    + constructor; [reflexivity |].
      repeat apply Forall_cons_2; [exact Hfree | constructor].
Defined.

Lemma parsed_trees_raise_no_IndexError_witness :
  Forall as_parsed [Stmt_SimpleStatementLine empty_tuple; Stmt_For for_plain]
  /\ Forall without_lambda [Stmt_SimpleStatementLine empty_tuple; Stmt_For for_plain]
  /\ traverse_module
       (module_of [Stmt_SimpleStatementLine empty_tuple; Stmt_For for_plain])
     <> Raise IndexError.
Proof.
  assert (H : Forall as_parsed
                [Stmt_SimpleStatementLine empty_tuple; Stmt_For for_plain]).
  { repeat apply Forall_cons_2; [| | constructor].
    - constructor; [discriminate | constructor].
    - constructor; [split; [discriminate | exact I] |].
      repeat apply Forall_cons_2; [| constructor].
      constructor; [discriminate | constructor]. }
  assert (Hfree : Forall without_lambda
                    [Stmt_SimpleStatementLine empty_tuple; Stmt_For for_plain]).
  { repeat apply Forall_cons_2; [| | constructor].
    - constructor; [reflexivity | constructor].
    - constructor; [reflexivity |].
      repeat apply Forall_cons_2; [| constructor].
      constructor; [reflexivity | constructor]. }
  split; [exact H |]. split; [exact Hfree |].
  exact (proj1 (parsed_trees_raise_no_IndexError (py := SamplePython.python)
                  (module_of [Stmt_SimpleStatementLine empty_tuple; Stmt_For for_plain])
                  H Hfree)).
Defined.

Lemma lambda_outside_a_function_raises_IndexError_witness :
  visit_expression init identity_lambda = Raise IndexError
  /\ traverse_module (module_of [Stmt_SimpleStatementLine lambda_line])
     = Raise IndexError.
Proof.
  destruct (lambda_outside_a_function_raises_IndexError (py := SamplePython.python)
              init (positional [plain_param "x" None Comma_DEFAULT]) (Name "x"))
    as [Hexpr Hrun].
  - reflexivity.
  - discriminate.
  - repeat constructor.
  - reflexivity.
  - split; [exact Hexpr |].
    apply (Hrun lambda_line [to (Name "f")] Semicolon_DEFAULT []
             (module_of [Stmt_SimpleStatementLine lambda_line]) []);
      reflexivity.
Defined.

Lemma lambda_in_a_typed_function_is_rejected_witness :
  visit_expression inside_lambda_in_typed_def identity_lambda
  = Raise (CSTValidationError "Lambda params cannot have type annotations")
  /\ traverse_module (module_of [Stmt_FunctionDef lambda_in_typed_def])
     = Raise (CSTValidationError "Lambda params cannot have type annotations").
Proof.
  split; [| vm_compute; reflexivity].
  apply (lambda_in_a_typed_function_is_rejected (py := SamplePython.python)
           inside_lambda_in_typed_def
           (mkFunctionTypeInfo (<["x" := Some "int"]> ∅) (Some "None"))
           (positional [plain_param "x" None Comma_DEFAULT]) (Name "x"));
    reflexivity.
Defined.

End OnFurtherPrograms.
